(** * Agora: vote ledger, poll life cycle, analytics, milestones and fan-out

    A shallow embedding of the vote-handling core of the Agora Slack
    application ([slack_handlers.py], [poll_management.py], [models.py]).

    The SQLAlchemy tables are lists of rows in insertion order; a query
    [filter(...).first()] is [find], a relationship such as [poll.options]
    is the [filter] of the child table on its foreign key.  Python
    [datetime] values are integers counting microseconds, Python floats
    are exact rationals ([Q]).  Handlers that talk to Slack run in a small
    monad that threads the database and the trace of outgoing calls and
    can raise. *)

From Stdlib Require Import ZArith QArith Qminmax List String Ascii Bool Lia.
Import ListNotations.

Local Open Scope string_scope.
Local Open Scope Z_scope.

(** ** Rows of the tables ([models.py]) *)

(** A naive [datetime]: microseconds on the local clock. *)
Definition datetime := Z.

Module Poll.
Record t := mk {
  id : Z;
  question : string;
  team_id : string;
  channel_id : string;
  creator_id : string;
  vote_type : string;          (* 'single' or 'multiple' *)
  status : string;             (* 'active' or 'ended' *)
  created_at : datetime;
  ended_at : option datetime;
  message_ts : option string
}.
End Poll.

Module PollOption.
Record t := mk {
  id : Z;
  poll_id : Z;
  text : string;
  vote_count : Z;
  order_index : Z
}.
End PollOption.

Module VotedUser.
Record t := mk {
  poll_id : Z;
  user_id : string;
  voted_at : datetime
}.
End VotedUser.

Module UserVote.
Record t := mk {
  poll_id : Z;
  user_id : string;
  option_id : Z;
  voted_at : datetime
}.
End UserVote.

Module PollAnalytics.
Record t := mk {
  poll_id : Z;
  total_votes : Z;
  unique_voters : Z;
  participation_rate : Q;      (* percentage *)
  avg_response_time : Q;       (* minutes *)
  peak_voting_hour : option Z; (* 0-23 hour format *)
  created_at : datetime;
  updated_at : datetime
}.
End PollAnalytics.

Module VoteActivity.
Record t := mk {
  poll_id : Z;
  hour : Z;
  vote_count : Z;
  date : datetime
}.
End VoteActivity.

Module UserRole.
Record t := mk {
  user_id : string;
  team_id : string;
  role : string;               (* 'admin', 'user', 'viewer' *)
  is_active : bool
}.
End UserRole.

Module NotificationSettings.
Record t := mk {
  user_id : string;
  team_id : string;
  poll_created : bool;
  poll_ended : bool;
  vote_milestone : bool;       (* Every 5 votes *)
  close_race : bool;
  role_changed : bool;
  daily_summary : bool
}.
End NotificationSettings.

(** The text of a notification, before it is formatted. *)
Inductive Message :=
| MsgVoteMilestone (question : string) (vote_count : Z)
| MsgCloseRace (question : string) (first second : string * Z)
| MsgPollEnded (question : string) (winner : option (string * Z))
    (total : Z)
| MsgYourPollEnded (question : string) (winner : option (string * Z))
    (total voters : Z).

Module Notification.
Record t := mk {
  user_id : string;
  team_id : string;
  poll_id : option Z;
  notification_type : string;
  title : string;
  message : Message;
  sent_at : datetime
}.
End Notification.

Module PollShare.
Record t := mk {
  poll_id : Z;
  channel_id : string;
  message_ts : option string;
  shared_by : string;
  is_active : bool
}.
End PollShare.

(** ** The database *)

Record Store := mkStore {
  polls : list Poll.t;
  poll_options : list PollOption.t;
  voted_users : list VotedUser.t;
  user_votes : list UserVote.t;
  poll_analytics : list PollAnalytics.t;
  vote_activity : list VoteActivity.t;
  user_roles : list UserRole.t;
  notification_settings : list NotificationSettings.t;
  notifications : list Notification.t;
  poll_shares : list PollShare.t
}.

Definition empty_store : Store :=
  mkStore [] [] [] [] [] [] [] [] [] [].

Definition set_polls (db : Store) (l : list Poll.t) : Store :=
  mkStore l (poll_options db) (voted_users db) (user_votes db)
    (poll_analytics db) (vote_activity db) (user_roles db)
    (notification_settings db) (notifications db) (poll_shares db).

Definition set_poll_options (db : Store) (l : list PollOption.t) : Store :=
  mkStore (polls db) l (voted_users db) (user_votes db)
    (poll_analytics db) (vote_activity db) (user_roles db)
    (notification_settings db) (notifications db) (poll_shares db).

Definition set_voted_users (db : Store) (l : list VotedUser.t) : Store :=
  mkStore (polls db) (poll_options db) l (user_votes db)
    (poll_analytics db) (vote_activity db) (user_roles db)
    (notification_settings db) (notifications db) (poll_shares db).

Definition set_user_votes (db : Store) (l : list UserVote.t) : Store :=
  mkStore (polls db) (poll_options db) (voted_users db) l
    (poll_analytics db) (vote_activity db) (user_roles db)
    (notification_settings db) (notifications db) (poll_shares db).

Definition set_poll_analytics (db : Store) (l : list PollAnalytics.t) : Store :=
  mkStore (polls db) (poll_options db) (voted_users db) (user_votes db)
    l (vote_activity db) (user_roles db)
    (notification_settings db) (notifications db) (poll_shares db).

Definition set_vote_activity (db : Store) (l : list VoteActivity.t) : Store :=
  mkStore (polls db) (poll_options db) (voted_users db) (user_votes db)
    (poll_analytics db) l (user_roles db)
    (notification_settings db) (notifications db) (poll_shares db).

Definition set_notification_settings (db : Store)
    (l : list NotificationSettings.t) : Store :=
  mkStore (polls db) (poll_options db) (voted_users db) (user_votes db)
    (poll_analytics db) (vote_activity db) (user_roles db)
    l (notifications db) (poll_shares db).

Definition set_notifications (db : Store) (l : list Notification.t) : Store :=
  mkStore (polls db) (poll_options db) (voted_users db) (user_votes db)
    (poll_analytics db) (vote_activity db) (user_roles db)
    (notification_settings db) l (poll_shares db).

(** ** Queries and relationships *)

(** [db.query(Poll).filter(Poll.id == poll_id).first()] *)
Definition query_poll (db : Store) (poll_id : Z) : option Poll.t :=
  find (fun p => Poll.id p =? poll_id) (polls db).

(** [poll.options] *)
Definition options_of (db : Store) (poll_id : Z) : list PollOption.t :=
  filter (fun o => PollOption.poll_id o =? poll_id) (poll_options db).

(** [poll.voted_users] *)
Definition voted_users_of (db : Store) (poll_id : Z) : list VotedUser.t :=
  filter (fun v => VotedUser.poll_id v =? poll_id) (voted_users db).

(** [poll.user_votes] *)
Definition user_votes_of (db : Store) (poll_id : Z) : list UserVote.t :=
  filter (fun v => UserVote.poll_id v =? poll_id) (user_votes db).

(** [sum(option.vote_count for option in poll.options)] *)
Definition sum_vote_count (l : list PollOption.t) : Z :=
  fold_right (fun o acc => PollOption.vote_count o + acc) 0 l.

Definition total_votes (db : Store) (poll_id : Z) : Z :=
  sum_vote_count (options_of db poll_id).

(** The row found by [.first()] is the one a later attribute assignment
    changes: the first row that satisfies the filter. *)
Fixpoint update_first {A : Type} (p : A -> bool) (f : A -> A) (l : list A)
  : list A :=
  match l with
  | [] => []
  | x :: r => if p x then f x :: r else x :: update_first p f r
  end.

(** ** Clock fields of a [datetime] *)

Definition us_per_second : Z := 1000000.
Definition us_per_hour : Z := 3600 * us_per_second.
Definition us_per_day : Z := 24 * us_per_hour.

(** [d.hour] *)
Definition hour_of (d : datetime) : Z := (d / us_per_hour) mod 24.

(** [d.date()], as a day number *)
Definition date_of (d : datetime) : Z := d / us_per_day.

(** [datetime.combine(date, datetime.min.time())] *)
Definition midnight_of (day : Z) : datetime := day * us_per_day.

(** [(a - b).total_seconds()] *)
Definition total_seconds (a b : datetime) : Q :=
  inject_Z (a - b) / inject_Z us_per_second.

(** ** Analytics ([update_vote_activity], [update_poll_analytics]) *)

(** [counts[k] = counts.get(k, 0) + 1] on an insertion-ordered dict. *)
Fixpoint bump {K : Type} (eqb : K -> K -> bool) (k : K)
    (counts : list (K * Z)) : list (K * Z) :=
  match counts with
  | [] => [(k, 1)]
  | (k', c) :: r =>
      if eqb k k' then (k', c + 1) :: r else (k', c) :: bump eqb k r
  end.

Definition count_by {A K : Type} (eqb : K -> K -> bool) (key : A -> K)
    (l : list A) : list (K * Z) :=
  fold_left (fun counts x => bump eqb (key x) counts) l [].

(** [max(counts, key=counts.get)]: the first key, in insertion order, whose
    count is maximal; [None] on an empty dict. *)
Definition max_key (counts : list (Z * Z)) : option Z :=
  match counts with
  | [] => None
  | kc :: r =>
      Some (fst (fold_left
                   (fun best x => if snd best <? snd x then x else best)
                   r kc))
  end.

Definition pair_eqb (a b : Z * Z) : bool :=
  (fst a =? fst b) && (snd a =? snd b).

Definition update_vote_activity (poll_id : Z) (db : Store) : Store :=
  match query_poll db poll_id with
  | None => db
  | Some poll =>
      (* Clear existing activity data *)
      let kept :=
        filter (fun a => negb (VoteActivity.poll_id a =? poll_id))
               (vote_activity db) in
      (* Calculate hourly activity *)
      let hour_counts :=
        count_by pair_eqb
          (fun v => (hour_of (UserVote.voted_at v),
                     date_of (UserVote.voted_at v)))
          (user_votes_of db poll_id) in
      (* Store activity data *)
      let rows :=
        map (fun kc =>
               VoteActivity.mk poll_id (fst (fst kc)) (snd kc)
                 (midnight_of (snd (fst kc))))
            hour_counts in
      set_vote_activity db (kept ++ rows)
  end.

Definition Qsum (l : list Q) : Q := fold_left Qplus l (inject_Z 0).

(** [participation_rate = min(100.0, (unique_voters / max(1, total_votes)) * 100)] *)
Definition participation_rate_of (unique_voters total : Z) : Q :=
  Qmin (inject_Z 100)
       ((inject_Z unique_voters / inject_Z (Z.max 1 total)) * inject_Z 100).

(** The response time of one vote, in minutes. *)
Definition response_time (poll : Poll.t) (vote : UserVote.t) : Q :=
  total_seconds (UserVote.voted_at vote) (Poll.created_at poll)
  / inject_Z 60.

Definition avg_response_time_of (poll : Poll.t) (votes : list UserVote.t)
  : Q :=
  match votes with
  | [] => inject_Z 0
  | _ =>
      let response_times := map (response_time poll) votes in
      Qsum response_times / inject_Z (Z.of_nat (List.length response_times))
  end.

Definition peak_voting_hour_of (votes : list UserVote.t) : option Z :=
  max_key (count_by Z.eqb (fun v => hour_of (UserVote.voted_at v)) votes).

(** Update or create analytics data for a poll. *)
Definition update_poll_analytics (now : datetime) (poll_id : Z) (db : Store)
  : Store :=
  match query_poll db poll_id with
  | None => db
  | Some poll =>
      (* Calculate metrics *)
      let total := total_votes db poll_id in
      let unique_voters := Z.of_nat (List.length (voted_users_of db poll_id)) in
      let participation_rate := participation_rate_of unique_voters total in
      let votes := user_votes_of db poll_id in
      let avg_response_time := avg_response_time_of poll votes in
      let peak_voting_hour := peak_voting_hour_of votes in
      (* Update or create analytics *)
      let is_row := fun a => PollAnalytics.poll_id a =? poll_id in
      let db1 :=
        match find is_row (poll_analytics db) with
        | Some _ =>
            set_poll_analytics db
              (update_first is_row
                 (fun a =>
                    PollAnalytics.mk (PollAnalytics.poll_id a) total
                      unique_voters participation_rate avg_response_time
                      peak_voting_hour (PollAnalytics.created_at a) now)
                 (poll_analytics db))
        | None =>
            set_poll_analytics db
              (poll_analytics db ++
               [PollAnalytics.mk poll_id total unique_voters
                  participation_rate avg_response_time peak_voting_hour
                  now now])
        end in
      (* Update vote activity tracking *)
      update_vote_activity poll_id db1
  end.

(** The analytics row a later [filter(poll_id == ...).first()] reads. *)
Definition query_analytics (db : Store) (poll_id : Z)
  : option PollAnalytics.t :=
  find (fun a => PollAnalytics.poll_id a =? poll_id) (poll_analytics db).

(** ** The vote ledger ([process_vote]) *)

Definition is_some {A : Type} (o : option A) : bool :=
  match o with Some _ => true | None => false end.

Definition is_voted_user (poll_id : Z) (user_id : string) (v : VotedUser.t)
  : bool :=
  (VotedUser.poll_id v =? poll_id) && String.eqb (VotedUser.user_id v) user_id.

Definition incr_vote_count (o : PollOption.t) : PollOption.t :=
  PollOption.mk (PollOption.id o) (PollOption.poll_id o) (PollOption.text o)
    (PollOption.vote_count o + 1) (PollOption.order_index o).

Definition process_vote (now : datetime) (poll_id option_id : Z)
    (user_id : string) (db : Store) : bool * Store :=
  match query_poll db poll_id with
  | None => (false, db)
  | Some poll =>
      if negb (String.eqb (Poll.status poll) "active") then (false, db)
      else
        let existing_vote :=
          find (is_voted_user poll_id user_id) (voted_users db) in
        if is_some existing_vote && String.eqb (Poll.vote_type poll) "single"
        then (false, db)
        else
          let db1 :=
            if is_some existing_vote then db
            else
              set_voted_users db
                (voted_users db ++ [VotedUser.mk poll_id user_id now]) in
          let db2 :=
            set_user_votes db1
              (user_votes db1 ++
               [UserVote.mk poll_id user_id option_id now]) in
          let db3 :=
            set_poll_options db2
              (update_first (fun o => PollOption.id o =? option_id)
                 incr_vote_count (poll_options db2)) in
          (* Update analytics after successful vote *)
          (true, update_poll_analytics now poll_id db3)
  end.

(** ** The poll life cycle ([end_poll]) *)

Definition set_ended (now : datetime) (p : Poll.t) : Poll.t :=
  Poll.mk (Poll.id p) (Poll.question p) (Poll.team_id p) (Poll.channel_id p)
    (Poll.creator_id p) (Poll.vote_type p) "ended" (Poll.created_at p)
    (Some now) (Poll.message_ts p).

Definition end_poll (now : datetime) (poll_id : Z) (user_id : string)
    (db : Store) : bool * Store :=
  match query_poll db poll_id with
  | None => (false, db)
  | Some poll =>
      if negb (String.eqb (Poll.creator_id poll) user_id) then (false, db)
      else
        (true,
         set_polls db
           (update_first (fun p => Poll.id p =? poll_id) (set_ended now)
              (polls db)))
  end.

(** ** Permissions ([get_user_role], [check_permission], [can_end_poll]) *)

(** Get the role of a user in a team; defaults to the 'user' role. *)
Definition get_user_role (db : Store) (user_id team_id : string) : string :=
  match
    find (fun r => String.eqb (UserRole.user_id r) user_id
                   && String.eqb (UserRole.team_id r) team_id
                   && UserRole.is_active r)
         (user_roles db)
  with
  | Some user_role => UserRole.role user_role
  | None => "user"
  end.

Definition permissions (role : string) : list string :=
  if String.eqb role "admin" then
    ["create_poll"; "end_any_poll"; "view_results"; "vote"; "manage_users";
     "manage_settings"]
  else if String.eqb role "user" then
    ["create_poll"; "end_own_poll"; "view_results"; "vote"]
  else if String.eqb role "viewer" then
    ["view_results"; "vote"]
  else [].

Definition check_permission (db : Store) (user_id team_id action : string)
  : bool :=
  existsb (String.eqb action) (permissions (get_user_role db user_id team_id)).

(** Check if user can end a specific poll: the verdict and its reason. *)
Definition can_end_poll (db : Store) (user_id team_id : string) (poll_id : Z)
  : bool * string :=
  match query_poll db poll_id with
  | None => (false, "Poll not found.")
  | Some poll =>
      (* Admin can end any poll *)
      if check_permission db user_id team_id "end_any_poll" then (true, "")
      (* User can end their own poll *)
      else if check_permission db user_id team_id "end_own_poll"
              && String.eqb (Poll.creator_id poll) user_id then (true, "")
      else (false, "You can only end polls you created.")
  end.

(** ** Handlers: database, outgoing Slack calls and exceptions *)

(** What [build_poll_blocks] renders: the poll row, its options with their
    counts, and for a shared copy the channel and user it was shared from. *)
Record Blocks := mkBlocks {
  blocks_poll : Poll.t;
  blocks_options : list PollOption.t;
  blocks_shared_from : option (string * string)
}.

(** Calls that reached Slack or the log, in order. *)
Inductive Call :=
| ChatUpdate (channel ts : string) (blocks : Blocks)
| PostMessage (channel : string) (text : string)
| Notify (user_id : string) (title : string) (message : Message)
| Say (text : string)
| LogError (text : string).

(** The Slack side of a request: which calls go through. *)
Record App := mkApp {
  chat_update_ok : string -> string -> bool;  (* channel, ts *)
  post_message_ok : string -> bool;           (* channel or user *)
  say_ok : bool
}.

Inductive Result (A : Type) :=
| Ok (a : A)
| Raise (e : string).
Arguments Ok {A} a.
Arguments Raise {A} e.

Record World := mkWorld {
  db : Store;
  trace : list Call
}.

Definition M (A : Type) : Type := World -> Result A * World.

Definition ret {A : Type} (a : A) : M A := fun w => (Ok a, w).

Definition bind {A B : Type} (m : M A) (k : A -> M B) : M B :=
  fun w =>
    match m w with
    | (Ok a, w') => k a w'
    | (Raise e, w') => (Raise e, w')
    end.

Definition raise {A : Type} (e : string) : M A := fun w => (Raise e, w).

(** [try: m  except Exception as e: handler e] *)
Definition try_except {A : Type} (m : M A) (handler : string -> M A) : M A :=
  fun w =>
    match m w with
    | (Ok a, w') => (Ok a, w')
    | (Raise e, w') => handler e w'
    end.

Definition emit (c : Call) : M unit :=
  fun w => (Ok tt, mkWorld (db w) (trace w ++ [c])).

Definition get_store : M Store := fun w => (Ok (db w), w).

Definition commit {A : Type} (f : Store -> A * Store) : M A :=
  fun w => let (a, s) := f (db w) in (Ok a, mkWorld s (trace w)).

Definition commit_ (f : Store -> Store) : M unit :=
  fun w => (Ok tt, mkWorld (f (db w)) (trace w)).

Declare Scope handler_scope.
Delimit Scope handler_scope with handler.
Notation "x <- c ;; k" := (bind c (fun x => k))
  (at level 61, c at next level, right associativity) : handler_scope.
Notation "c ;; k" := (bind c (fun _ => k))
  (at level 61, right associativity) : handler_scope.
Local Open Scope handler_scope.

Fixpoint for_each {A : Type} (l : list A) (body : A -> M unit) : M unit :=
  match l with
  | [] => ret tt
  | x :: r => body x ;; for_each r body
  end.

Definition logger_error (text : string) : M unit := emit (LogError text).

(** [app.client.chat_update(channel=..., ts=..., blocks=...)] *)
Definition chat_update (app : App) (channel ts : string) (blocks : Blocks)
  : M unit :=
  if chat_update_ok app channel ts then emit (ChatUpdate channel ts blocks)
  else raise "SlackApiError".

(** [app.client.chat_postMessage(channel=..., text=...)] *)
Definition chat_postMessage (app : App) (channel text : string) : M unit :=
  if post_message_ok app channel then emit (PostMessage channel text)
  else raise "SlackApiError".

Definition say (app : App) (text : string) : M unit :=
  if say_ok app then emit (Say text) else raise "SlackApiError".

(** Safely send a message with fallback to DM if channel posting fails. *)
Definition safe_say (app : App) (message user_id : string) : M unit :=
  try_except (say app message)
    (fun _ =>
       logger_error "Failed to send message via say()" ;;
       try_except (chat_postMessage app user_id message)
         (fun _ =>
            logger_error "Failed to send DM fallback" ;;
            logger_error "Unable to deliver message to user")).

(** The pattern the handlers use for every reply:
    [try: say(text, ephemeral=True)  except: log; safe_say(...)]. *)
Definition reply (app : App) (log text user_id : string) : M unit :=
  try_except (say app text)
    (fun _ => logger_error log ;; safe_say app text user_id).

Definition build_poll_blocks (s : Store) (poll : Poll.t) : Blocks :=
  mkBlocks poll (options_of s (Poll.id poll)) None.

(** A Python string test [if x:] on a nullable column. *)
Definition truthy (x : option string) : option string :=
  match x with
  | Some (String c r) => Some (String c r)
  | _ => None
  end.

Definition update_poll_message (app : App) (poll_id : Z)
    (channel_id message_ts : string) : M unit :=
  s <- get_store ;;
  match query_poll s poll_id with
  | None => ret tt
  | Some poll => chat_update app channel_id message_ts (build_poll_blocks s poll)
  end.

(** Update poll message in all shared channels. *)
Definition update_shared_poll_messages (app : App) (poll_id : Z) : M unit :=
  s <- get_store ;;
  match query_poll s poll_id with
  | None => ret tt
  | Some poll =>
      (* Update original message *)
      match truthy (Poll.message_ts poll) with
      | Some ts => update_poll_message app poll_id (Poll.channel_id poll) ts
      | None => ret tt
      end ;;
      (* Update shared messages *)
      s' <- get_store ;;
      let shares :=
        filter (fun sh => (PollShare.poll_id sh =? poll_id)
                          && PollShare.is_active sh)
               (poll_shares s') in
      for_each shares
        (fun share =>
           match truthy (PollShare.message_ts share) with
           | Some ts =>
               try_except
                 (let blocks := build_poll_blocks s' poll in
                  (* Add cross-channel indicator *)
                  let blocks :=
                    mkBlocks (blocks_poll blocks) (blocks_options blocks)
                      (Some (Poll.channel_id poll, PollShare.shared_by share)) in
                  chat_update app (PollShare.channel_id share) ts blocks)
                 (fun _ =>
                    logger_error
                      ("Failed to update shared message in "
                       ++ PollShare.channel_id share))
           | None => ret tt
           end)
  end.

(** ** Notifications *)

(** Get notification settings for a user, creating defaults if not exists. *)
Definition get_notification_settings (user_id team_id : string) (s : Store)
  : NotificationSettings.t * Store :=
  match
    find (fun n => String.eqb (NotificationSettings.user_id n) user_id
                   && String.eqb (NotificationSettings.team_id n) team_id)
         (notification_settings s)
  with
  | Some settings => (settings, s)
  | None =>
      let settings :=
        NotificationSettings.mk user_id team_id true true true true true
          false in
      (settings,
       set_notification_settings s (notification_settings s ++ [settings]))
  end.

(** The truth value of [getattr(settings, notification_type, False)] for
    the names of the columns of [notification_settings]: the six switches,
    the two identifiers, which are strings, and the key and the two
    timestamps, which the row model leaves out and which are never zero or
    empty on a stored row. *)
Definition notification_enabled (settings : NotificationSettings.t)
    (notification_type : string) : bool :=
  if String.eqb notification_type "poll_created" then
    NotificationSettings.poll_created settings
  else if String.eqb notification_type "poll_ended" then
    NotificationSettings.poll_ended settings
  else if String.eqb notification_type "vote_milestone" then
    NotificationSettings.vote_milestone settings
  else if String.eqb notification_type "close_race" then
    NotificationSettings.close_race settings
  else if String.eqb notification_type "role_changed" then
    NotificationSettings.role_changed settings
  else if String.eqb notification_type "daily_summary" then
    NotificationSettings.daily_summary settings
  else if String.eqb notification_type "user_id" then
    negb (String.eqb (NotificationSettings.user_id settings) "")
  else if String.eqb notification_type "team_id" then
    negb (String.eqb (NotificationSettings.team_id settings) "")
  else if String.eqb notification_type "id" then true
  else if String.eqb notification_type "created_at" then true
  else if String.eqb notification_type "updated_at" then true
  else false.

(** Send a notification to a user if they have it enabled. *)
Definition send_notification (app : App) (now : datetime)
    (user_id team_id notification_type title : string) (message : Message)
    (poll_id : option Z) : M unit :=
  try_except
    ((* Check if user has this notification type enabled *)
     settings <- commit (get_notification_settings user_id team_id) ;;
     if negb (notification_enabled settings notification_type) then ret tt
     else
       (* Store notification in database *)
       commit_ (fun s =>
                  set_notifications s
                    (notifications s ++
                     [Notification.mk user_id team_id poll_id
                        notification_type title message now])) ;;
       (* Send DM to user *)
       try_except
         (if post_message_ok app user_id
          then emit (Notify user_id title message)
          else raise "SlackApiError")
         (fun _ => logger_error "Failed to send DM notification"))
    (fun _ => logger_error "Error sending notification").

(** Notify poll creator about vote milestones. *)
Definition notify_vote_milestone (app : App) (now : datetime) (poll_id : Z)
    (vote_count : Z) : M unit :=
  if negb (vote_count mod 5 =? 0) then ret tt  (* Only notify every 5 votes *)
  else
    s <- get_store ;;
    match query_poll s poll_id with
    | None => ret tt
    | Some poll =>
        send_notification app now (Poll.creator_id poll) (Poll.team_id poll)
          "vote_milestone" "Vote Milestone Reached"
          (MsgVoteMilestone (Poll.question poll) vote_count) (Some poll_id)
    end.

(** [sorted(options, key=lambda x: x.vote_count, reverse=True)]: a stable
    sort, equal counts keep their order. *)
Fixpoint insert_desc (x : PollOption.t) (l : list PollOption.t)
  : list PollOption.t :=
  match l with
  | [] => [x]
  | y :: r =>
      if PollOption.vote_count y <=? PollOption.vote_count x
      then x :: y :: r
      else y :: insert_desc x r
  end.

Definition sorted_desc (l : list PollOption.t) : list PollOption.t :=
  fold_right insert_desc [] l.

(** [max(options, key=lambda x: x.vote_count)]: the first maximal one. *)
Definition max_option (l : list PollOption.t) : option PollOption.t :=
  match l with
  | [] => None
  | x :: r =>
      Some (fold_left
              (fun best o =>
                 if PollOption.vote_count best <? PollOption.vote_count o
                 then o else best)
              r x)
  end.

Definition text_and_count (o : PollOption.t) : string * Z :=
  (PollOption.text o, PollOption.vote_count o).

(** Notify when there's a close race between top options. *)
Definition notify_close_race (app : App) (now : datetime) (poll_id : Z)
  : M unit :=
  s <- get_store ;;
  match query_poll s poll_id with
  | None => ret tt
  | Some poll =>
      match sorted_desc (options_of s poll_id) with
      | top0 :: top1 :: _ =>
          if (PollOption.vote_count top0 - PollOption.vote_count top1 <=? 1)
             && (0 <? PollOption.vote_count top0)
          then
            send_notification app now (Poll.creator_id poll)
              (Poll.team_id poll) "close_race" "Close Race Alert"
              (MsgCloseRace (Poll.question poll) (text_and_count top0)
                 (text_and_count top1))
              (Some poll_id)
          else ret tt
      | _ => ret tt
      end
  end.

(** Notify about poll ending and results. *)
Definition notify_poll_ended (app : App) (now : datetime) (poll_id : Z)
  : M unit :=
  s <- get_store ;;
  match query_poll s poll_id with
  | None => ret tt
  | Some poll =>
      (* Find winner *)
      let winner :=
        match max_option (options_of s poll_id) with
        | Some w =>
            if 0 <? PollOption.vote_count w then Some (text_and_count w)
            else None
        | None => None
        end in
      let total := total_votes s poll_id in
      (* Get all voters for this poll *)
      let voters := voted_users_of s poll_id in
      for_each voters
        (fun voter =>
           if String.eqb (VotedUser.user_id voter) (Poll.creator_id poll)
           then ret tt  (* Creator gets a different message *)
           else
             send_notification app now (VotedUser.user_id voter)
               (Poll.team_id poll) "poll_ended" "Poll Results"
               (MsgPollEnded (Poll.question poll) winner total)
               (Some poll_id)) ;;
      (* Special message for creator *)
      send_notification app now (Poll.creator_id poll) (Poll.team_id poll)
        "poll_ended" "Your Poll Results"
        (MsgYourPollEnded (Poll.question poll) winner total
           (Z.of_nat (List.length voters)))
        (Some poll_id)
  end.

(** ** The Slack actions ([handle_vote], [handle_end_poll]) *)

Definition handle_vote (app : App) (now : datetime) (poll_id option_id : Z)
    (user_id : string) : M unit :=
  try_except
    (success <- commit (process_vote now poll_id option_id user_id) ;;
     if success : bool then
       update_shared_poll_messages app poll_id ;;
       (* Send notifications *)
       s <- get_store ;;
       match query_poll s poll_id with
       | None => raise "AttributeError"
       | Some _ =>
           let total := total_votes s poll_id in
           notify_vote_milestone app now poll_id total ;;
           notify_close_race app now poll_id
       end
     else
       reply app "Failed to send already voted message"
         "You have already voted in this poll!" user_id)
    (fun _ =>
       logger_error "Error processing vote" ;;
       reply app "Failed to send error message"
         "Sorry, there was an error processing your vote. Please try again."
         user_id).

Definition handle_end_poll (app : App) (now : datetime) (poll_id : Z)
    (user_id team_id : string) : M unit :=
  try_except
    (s <- get_store ;;
     (* Check permissions *)
     let (can_end, reason) := can_end_poll s user_id team_id poll_id in
     if negb can_end then
       reply app "Failed to send permission error message"
         ("❌ " ++ reason) user_id
     else
       success <- commit (end_poll now poll_id user_id) ;;
       if success : bool then
         update_shared_poll_messages app poll_id ;;
         (* Send poll ended notifications *)
         notify_poll_ended app now poll_id
       else
         reply app "Failed to send poll end error message"
           "❌ Error ending poll. Please try again." user_id)
    (fun _ =>
       logger_error "Error ending poll" ;;
       reply app "Failed to send error message"
         "Sorry, there was an error ending the poll. Please try again."
         user_id).

(** Running a handler on a database with an empty trace. *)
Definition run {A : Type} (m : M A) (s : Store) : Result A * World :=
  m (mkWorld s []).

(** ** Option edits ([poll_management.py], class [PollManager]) *)

(** [models.py] ends with [SessionLocal = property(get_session_local)]:
    the name the poll manager imports is bound to a property object, which
    is not callable, so [SessionLocal()] raises [TypeError]. *)
Definition SessionLocal : Result unit := Raise "TypeError".

(** How far the [try] block of a method got: what it returned or raised,
    whether the local [db] was bound by then, and the database. *)
Definition Tried (A : Type) : Type := Result A * bool * Store.

(** [return a] before [db = SessionLocal()]. *)
Definition return_unbound {A : Type} (a : A) (s : Store) : Tried A :=
  (Ok a, false, s).

(** [db = SessionLocal()] followed by the rest of the [try] block, which
    works on the session. *)
Definition with_session {A : Type} (rest : Store -> A * Store) (s : Store)
  : Tried A :=
  match SessionLocal with
  | Ok _ => let (a, s') := rest s in (Ok a, true, s')
  | Raise e => (Raise e, false, s)
  end.

(** [except Exception as e: db.rollback(); logger.error(...);
    return on_error].  With [db] unbound the handler itself raises. *)
Definition except_rollback {A : Type} (on_error : A) (s : Store)
    (t : Tried A) : Tried A :=
  match t with
  | (Raise _, true, _) => (Ok on_error, true, s)
  | (Raise _, false, s') => (Raise "UnboundLocalError", false, s')
  | (Ok a, bound, s') => (Ok a, bound, s')
  end.

(** [except Exception as e: logger.error(...); return on_error] *)
Definition except_return {A : Type} (on_error : A) (t : Tried A) : Tried A :=
  match t with
  | (Raise _, bound, s') => (Ok on_error, bound, s')
  | (Ok a, bound, s') => (Ok a, bound, s')
  end.

(** [finally: db.close()].  With [db] unbound the clause raises, and its
    exception replaces what the method was about to return or raise. *)
Definition finally_close {A : Type} (t : Tried A) : Result A * Store :=
  match t with
  | (r, true, s') => (r, s')
  | (_, false, s') => (Raise "UnboundLocalError", s')
  end.

Definition max_options : Z := 20.

(** [max(l, default=d)] *)
Definition max_default (d : Z) (l : list Z) : Z :=
  match l with
  | [] => d
  | x :: r => fold_left Z.max r x
  end.

(** [db.query(PollOption).filter(PollOption.id == option_id,
    PollOption.poll_id == poll_id)] *)
Definition is_option_of (poll_id option_id : Z) (o : PollOption.t) : bool :=
  (PollOption.id o =? option_id) && (PollOption.poll_id o =? poll_id).

Definition set_text (new_text : string) (o : PollOption.t) : PollOption.t :=
  PollOption.mk (PollOption.id o) (PollOption.poll_id o) new_text
    (PollOption.vote_count o) (PollOption.order_index o).

Definition set_order_index (i : Z) (o : PollOption.t) : PollOption.t :=
  PollOption.mk (PollOption.id o) (PollOption.poll_id o) (PollOption.text o)
    (PollOption.vote_count o) i.

(** [set(a) != set(b)] on lists of ids *)
Definition same_set (a b : list Z) : bool :=
  forallb (fun x => existsb (Z.eqb x) b) a
  && forallb (fun x => existsb (Z.eqb x) a) b.

(** [for new_index, option_id in enumerate(option_order)] *)
Fixpoint assign_order (poll_id : Z) (new_index : Z) (option_order : list Z)
    (rows : list PollOption.t) : list PollOption.t :=
  match option_order with
  | [] => rows
  | option_id :: rest =>
      assign_order poll_id (new_index + 1) rest
        (update_first (is_option_of poll_id option_id)
           (set_order_index new_index) rows)
  end.

Section PollManager.

(** The Redis entry that [OptimizedQueries.get_user_role] consults before
    the database, for a user and a team. *)
Variable cached_role : string -> string -> option string.

(** Python's [str.strip], [str.lower] and [len] on a [str]. *)
Variable strip : string -> string.
Variable lower : string -> string.
Variable len : string -> nat.

Definition cached_get_user_role (db : Store) (user_id team_id : string)
  : string :=
  match cached_role user_id team_id with
  | Some (String c r) => String c r
  | _ => get_user_role db user_id team_id
  end.

(** creator or admin *)
Definition may_edit (db : Store) (poll : Poll.t) (user_id : string) : bool :=
  let user_role := cached_get_user_role db user_id (Poll.team_id poll) in
  negb (negb (String.eqb (Poll.creator_id poll) user_id)
        && negb (String.eqb user_role "admin")).

(** Add a new option to an active poll.  [new_id] is the primary key the
    database would give the inserted row. *)
Definition add_poll_option (new_id : Z) (poll_id : Z) (option_text : string)
    (user_id : string) (s : Store) : Result bool * Store :=
  finally_close
    (except_rollback false s
       (if (len (strip option_text) =? 0)%nat then return_unbound false s
        else
          with_session
            (fun db =>
               match query_poll db poll_id with
               | None => (false, db)
               | Some poll =>
                   (* Check if poll is still active *)
                   if negb (String.eqb (Poll.status poll) "active")
                   then (false, db)
                   (* Check if user has permission *)
                   else if negb (may_edit db poll user_id) then (false, db)
                   (* Check option limit *)
                   else if max_options
                           <=? Z.of_nat (List.length (options_of db poll_id))
                   then (false, db)
                   else
                     (* Check for duplicate option *)
                     let option_text_clean := strip option_text in
                     let existing_options :=
                       map (fun o => strip (lower (PollOption.text o)))
                           (options_of db poll_id) in
                     if existsb (String.eqb (lower option_text_clean))
                          existing_options
                     then (false, db)
                     else
                       (* Get next order index *)
                       let max_order :=
                         max_default 0
                           (map PollOption.order_index
                              (options_of db poll_id)) in
                       (true,
                        set_poll_options db
                          (poll_options db ++
                           [PollOption.mk new_id poll_id option_text_clean 0
                              (max_order + 1)]))
               end)
            s)).

(** Remove an option from an active poll (if no votes). *)
Definition remove_poll_option (poll_id option_id : Z) (user_id : string)
    (s : Store) : Result bool * Store :=
  finally_close
    (except_rollback false s
       (with_session
          (fun db =>
             match query_poll db poll_id with
             | None => (false, db)
             | Some poll =>
                 match
                   find (is_option_of poll_id option_id) (poll_options db)
                 with
                 | None => (false, db)
                 | Some option =>
                     (* Check if poll is still active *)
                     if negb (String.eqb (Poll.status poll) "active")
                     then (false, db)
                     (* Check if user has permission *)
                     else if negb (may_edit db poll user_id) then (false, db)
                     (* Check if option has votes *)
                     else if 0 <? PollOption.vote_count option
                     then (false, db)
                     (* Check minimum options (must have at least 2) *)
                     else if Z.of_nat (List.length (options_of db poll_id))
                             <=? 2
                     then (false, db)
                     else
                       (true,
                        set_poll_options db
                          (filter
                             (fun o =>
                                negb (PollOption.id o =? PollOption.id option))
                             (poll_options db)))
                 end
             end)
          s)).

(** Edit an existing poll option. *)
Definition edit_poll_option (poll_id option_id : Z) (new_text : string)
    (user_id : string) (s : Store) : Result bool * Store :=
  finally_close
    (except_rollback false s
       (if (len (strip new_text) =? 0)%nat then return_unbound false s
        else
          with_session
            (fun db =>
               match query_poll db poll_id with
               | None => (false, db)
               | Some poll =>
                   match
                     find (is_option_of poll_id option_id) (poll_options db)
                   with
                   | None => (false, db)
                   | Some option =>
                       if negb (String.eqb (Poll.status poll) "active")
                       then (false, db)
                       else if negb (may_edit db poll user_id)
                       then (false, db)
                       else
                         (* Check for duplicate option text *)
                         let new_text_clean := strip new_text in
                         let existing_options :=
                           map (fun o => strip (lower (PollOption.text o)))
                               (filter
                                  (fun o => negb (PollOption.id o =? option_id))
                                  (options_of db poll_id)) in
                         if existsb (String.eqb (lower new_text_clean))
                              existing_options
                         then (false, db)
                         else
                           (true,
                            set_poll_options db
                              (update_first (is_option_of poll_id option_id)
                                 (set_text new_text_clean) (poll_options db)))
                   end
               end)
            s)).

(** Reorder poll options. *)
Definition reorder_poll_options (poll_id : Z) (option_order : list Z)
    (user_id : string) (s : Store) : Result bool * Store :=
  finally_close
    (except_rollback false s
       (with_session
          (fun db =>
             match query_poll db poll_id with
             | None => (false, db)
             | Some poll =>
                 if negb (String.eqb (Poll.status poll) "active")
                 then (false, db)
                 else if negb (may_edit db poll user_id) then (false, db)
                 else
                   (* Validate option order *)
                   let existing_option_ids :=
                     map PollOption.id (options_of db poll_id) in
                   if negb (same_set option_order existing_option_ids)
                   then (false, db)
                   else
                     (true,
                      set_poll_options db
                        (assign_order poll_id 0 option_order (poll_options db)))
             end)
          s)).

End PollManager.

(** ** A sample workspace

    Poll 1 is a single-choice poll and poll 2 a multiple-choice poll, both
    created by [U123] in team [T123]; poll 1 is shared to two more
    channels.  [U900] is an admin of the team. *)

Definition lunch_poll : Poll.t :=
  Poll.mk 1 "Lunch?" "T123" "C123" "U123" "single" "active" 0 None
    (Some "111.1").

Definition toppings_poll : Poll.t :=
  Poll.mk 2 "Toppings?" "T123" "C123" "U123" "multiple" "active" 0 None
    (Some "222.2").

Definition sample_store : Store :=
  mkStore
    [lunch_poll; toppings_poll]
    [PollOption.mk 10 1 "Pizza" 0 0;
     PollOption.mk 11 1 "Sushi" 0 1;
     PollOption.mk 20 2 "Cheese" 0 0;
     PollOption.mk 21 2 "Olives" 0 1]
    [] [] [] []
    [UserRole.mk "U900" "T123" "admin" true]
    [] []
    [PollShare.mk 1 "C200" (Some "333.3") "U123" true;
     PollShare.mk 1 "C300" (Some "444.4") "U123" true].

(** A Slack side where every call goes through. *)
Definition slack_up : App := mkApp (fun _ _ => true) (fun _ => true) true.

Definition seconds (n : Z) : datetime := n * us_per_second.


(** Projections of a trace. *)
Definition updated_channels (t : list Call) : list string :=
  flat_map (fun c => match c with ChatUpdate ch _ _ => [ch] | _ => [] end) t.

Definition notified (t : list Call) : list (string * string) :=
  flat_map (fun c => match c with Notify u title _ => [(u, title)] | _ => [] end)
           t.

Definition said (t : list Call) : list string :=
  flat_map (fun c => match c with Say text => [text] | _ => [] end) t.

Definition logged (t : list Call) : list string :=
  flat_map (fun c => match c with LogError text => [text] | _ => [] end) t.

(** The ledger rows of one voter for one option of one poll. *)
Definition is_vote_for (poll_id : Z) (user_id : string) (option_id : Z)
    (v : UserVote.t) : bool :=
  (UserVote.poll_id v =? poll_id) && String.eqb (UserVote.user_id v) user_id
  && (UserVote.option_id v =? option_id).

Definition count_votes_for (s : Store) (poll_id : Z) (user_id : string)
    (option_id : Z) : nat :=
  List.length (filter (is_vote_for poll_id user_id option_id) (user_votes s)).

(** The ledger rows of one voter in one poll. *)
Definition is_vote_by (poll_id : Z) (user_id : string) (v : UserVote.t)
  : bool :=
  (UserVote.poll_id v =? poll_id) && String.eqb (UserVote.user_id v) user_id.

Definition count_votes_by (s : Store) (poll_id : Z) (user_id : string) : nat :=
  List.length (filter (is_vote_by poll_id user_id) (user_votes s)).

(** Per-option dedup on multiple-choice polls, as a statement about
    [process_vote]: a second vote of the same voter for the same option is
    turned down and changes nothing. *)
Definition multiple_choice_option_dedup : Prop :=
  forall (s : Store) (now : datetime) (poll_id option_id : Z)
         (user_id : string) (poll : Poll.t),
    query_poll s poll_id = Some poll ->
    Poll.status poll = "active" ->
    Poll.vote_type poll = "multiple" ->
    (0 < count_votes_for s poll_id user_id option_id)%nat ->
    process_vote now poll_id option_id user_id s = (false, s).

(** Poll 2 of the sample workspace after [U456] voted for option 20. *)
Definition voted_cheese : Store :=
  snd (process_vote (seconds 30) 2 20 "U456" sample_store).

(** Poll 1 of the sample workspace after [U456] voted for option 10, and
    after its creator then ended it. *)
Definition voted_pizza : Store :=
  snd (process_vote (seconds 30) 1 10 "U456" sample_store).

Definition ended_once : Store :=
  snd (end_poll (seconds 100) 1 "U123" voted_pizza).

Definition ended_twice : Store :=
  snd (end_poll (seconds 200) 1 "U123" ended_once).

(** Successive votes of one voter on one poll, each given as the time of
    the call and the option voted for: every call sees the database the
    previous one left. *)
Fixpoint process_votes (calls : list (datetime * Z)) (poll_id : Z)
    (user_id : string) (s : Store) : list bool * Store :=
  match calls with
  | [] => ([], s)
  | (now, option_id) :: rest =>
      let (ok, s1) := process_vote now poll_id option_id user_id s in
      let (oks, s2) := process_votes rest poll_id user_id s1 in
      (ok :: oks, s2)
  end.

(** Every ledger row has the participation row of its voter in its poll,
    the way [process_vote] writes them. *)
Definition participation_recorded (s : Store) : Prop :=
  Forall (fun v =>
            is_some (find (is_voted_user (UserVote.poll_id v)
                             (UserVote.user_id v))
                          (voted_users s)) = true)
         (user_votes s).

(** The [voted_users] rows of one voter in one poll. *)
Definition count_voted_user (s : Store) (poll_id : Z) (user_id : string)
  : nat :=
  List.length (filter (is_voted_user poll_id user_id) (voted_users s)).

(** ** Counter consistency *)

(** The ledger rows that point at an option id. *)
Definition votes_for_option (s : Store) (option_id : Z) : Z :=
  Z.of_nat
    (List.length
       (filter (fun v => UserVote.option_id v =? option_id) (user_votes s))).

(** Every option row carries the number of ledger rows that point at it. *)
Definition counters_consistent (s : Store) : Prop :=
  Forall (fun o => PollOption.vote_count o
                   = votes_for_option s (PollOption.id o))
         (poll_options s).

(** [id] is the primary key of [poll_options]. *)
Definition option_keys_unique (s : Store) : Prop :=
  NoDup (map PollOption.id (poll_options s)).

(** The mutations of the ledger, of the poll life cycle and of the option
    list, as calls of the functions that commit them. *)
Inductive Mutation :=
| RecordVote (now : datetime) (poll_id option_id : Z) (user_id : string)
| EndPoll (now : datetime) (poll_id : Z) (user_id : string)
| AddOption (new_id poll_id : Z) (option_text user_id : string)
| RemoveOption (poll_id option_id : Z) (user_id : string)
| RenameOption (poll_id option_id : Z) (new_text user_id : string)
| Reorder (poll_id : Z) (option_order : list Z) (user_id : string).

(** [f] returned normally. *)
Definition returned {A : Type} (r : A * Store) : Result A * Store :=
  (Ok (fst r), snd r).

Section Mutations.

Variable cached_role : string -> string -> option string.
Variable strip : string -> string.
Variable lower : string -> string.
Variable len : string -> nat.

Definition commit_mutation (m : Mutation) (s : Store) : Result bool * Store :=
  match m with
  | RecordVote now poll_id option_id user_id =>
      returned (process_vote now poll_id option_id user_id s)
  | EndPoll now poll_id user_id => returned (end_poll now poll_id user_id s)
  | AddOption new_id poll_id option_text user_id =>
      add_poll_option cached_role strip lower len new_id poll_id option_text
        user_id s
  | RemoveOption poll_id option_id user_id =>
      remove_poll_option cached_role poll_id option_id user_id s
  | RenameOption poll_id option_id new_text user_id =>
      edit_poll_option cached_role strip lower len poll_id option_id new_text
        user_id s
  | Reorder poll_id option_order user_id =>
      reorder_poll_options cached_role poll_id option_order user_id s
  end.

End Mutations.

(** ** Analytics, as the specification words them *)

(** The arithmetic mean of a list of rationals, 0 on the empty list. *)
Definition Qmean (l : list Q) : Q :=
  match l with
  | [] => inject_Z 0
  | _ => Qsum l / inject_Z (Z.of_nat (List.length l))
  end.

(** [castAt - Poll.createdAt], in seconds, for every ledger row. *)
Definition response_seconds (poll : Poll.t) (votes : list UserVote.t)
  : list Q :=
  map (fun v => total_seconds (UserVote.voted_at v) (Poll.created_at poll))
      votes.

(** The stored average response time read as a mean in seconds. *)
Definition avg_response_time_in_seconds : Prop :=
  forall (s : Store) (now : datetime) (poll_id : Z) (poll : Poll.t),
    query_poll s poll_id = Some poll ->
    exists a,
      query_analytics (update_poll_analytics now poll_id s) poll_id = Some a
      /\ (PollAnalytics.avg_response_time a
          == Qmean (response_seconds poll (user_votes_of s poll_id)))%Q.

(** Poll 1 of the sample workspace after [U456] voted two minutes after
    its creation. *)
Definition voted_late : Store :=
  snd (process_vote (seconds 120) 1 10 "U456" sample_store).

(** ** The participation rate, as the specification words it *)

(** For a poll with a non-empty ledger the stored rate is the unique
    voters over the total of votes, as a percentage capped at 100, where
    the total of votes is the number of ledger rows of the poll. *)
Definition participation_rate_over_ledger : Prop :=
  forall (s : Store) (now : datetime) (poll_id : Z) (poll : Poll.t),
    query_poll s poll_id = Some poll ->
    user_votes_of s poll_id <> [] ->
    exists a,
      query_analytics (update_poll_analytics now poll_id s) poll_id = Some a
      /\ (PollAnalytics.participation_rate a
          == Qmin (inject_Z 100)
               (inject_Z (Z.of_nat (List.length (voted_users_of s poll_id)))
                / inject_Z (Z.of_nat (List.length (user_votes_of s poll_id)))
                * inject_Z 100))%Q.

(** The same with the total of votes read from the stored snapshot. *)
Definition participation_rate_over_stored_total : Prop :=
  forall (s : Store) (now : datetime) (poll_id : Z) (poll : Poll.t),
    query_poll s poll_id = Some poll ->
    user_votes_of s poll_id <> [] ->
    exists a,
      query_analytics (update_poll_analytics now poll_id s) poll_id = Some a
      /\ (PollAnalytics.participation_rate a
          == Qmin (inject_Z 100)
               (inject_Z (PollAnalytics.unique_voters a)
                / inject_Z (PollAnalytics.total_votes a) * inject_Z 100))%Q.

(** Poll 2 of the sample workspace after [U456] voted on it for options 10
    and 11, which are options of poll 1. *)
Definition voted_elsewhere : Store :=
  snd (process_votes [(seconds 30, 10); (seconds 40, 11)] 2 "U456"
         sample_store).

(** ** Vote milestones *)

Definition is_milestone (c : Call) : bool :=
  match c with
  | Notify _ _ (MsgVoteMilestone _ _) => true
  | _ => false
  end.

(** Whether [notify_vote_milestone], called with a total, notifies. *)
Definition milestone_fired (app : App) (now : datetime) (poll_id : Z)
    (vote_count : Z) (s : Store) : bool :=
  existsb is_milestone
    (trace (snd (run (notify_vote_milestone app now poll_id vote_count) s))).

(** The creator has not switched milestone notifications off. *)
Definition wants_milestones (s : Store) (poll : Poll.t) : bool :=
  notification_enabled
    (fst (get_notification_settings (Poll.creator_id poll) (Poll.team_id poll)
            s))
    "vote_milestone".

(** The total went from [prev] to [new] past a multiple of 5. *)
Definition crossed_multiple_of_5 (prev new : Z) : Prop :=
  exists k, prev < 5 * k <= new.

(** Edge triggering: the milestone fires exactly when the new total has
    crossed a multiple of 5 the previous total had not reached. *)
Definition milestone_edge_triggered : Prop :=
  forall (app : App) (now : datetime) (poll_id : Z) (s : Store)
         (poll : Poll.t) (prev new : Z),
    query_poll s poll_id = Some poll ->
    wants_milestones s poll = true ->
    post_message_ok app (Poll.creator_id poll) = true ->
    0 <= prev <= new ->
    (milestone_fired app now poll_id new s = true
     <-> crossed_multiple_of_5 prev new).

(** Six voters on poll 1, one after the other. *)
Definition six_votes : list (datetime * Z * string) :=
  [(seconds 10, 10, "U1"); (seconds 20, 11, "U2"); (seconds 30, 10, "U3");
   (seconds 40, 10, "U4"); (seconds 50, 11, "U5"); (seconds 60, 10, "U6")].

Definition handle_votes (app : App) (poll_id : Z)
    (calls : list (datetime * Z * string)) : M unit :=
  for_each calls
    (fun c => handle_vote app (fst (fst c)) poll_id (snd (fst c)) (snd c)).

(** The milestone notifications sent while the first [n] of the six vote. *)
Definition milestones_sent (n : nat) : list Call :=
  filter is_milestone
    (trace (snd (run (handle_votes slack_up 1 (firstn n six_votes))
                   sample_store))).

(** ** Fan-out with a failing push *)

(** Slack refuses updates of the message in the poll's own channel. *)
Definition primary_down : App :=
  mkApp (fun channel _ => negb (String.eqb channel "C123")) (fun _ => true)
    true.

(** Slack refuses updates of the shared copy in channel C200. *)
Definition replica_down : App :=
  mkApp (fun channel _ => negb (String.eqb channel "C200")) (fun _ => true)
    true.

(** A handler step that leaves the database as it is. *)
Definition preserves_db {A : Type} (m : M A) : Prop :=
  forall w, db (snd (m w)) = db w.

(** A handler step that never raises. *)
Definition never_raises {A : Type} (m : M A) : Prop :=
  forall w, exists a, fst (m w) = Ok a.

(** * Further definitions: the rest of the handlers and of the poll manager *)

(** The poll a mutation is addressed to. *)
Definition mutation_poll (m : Mutation) : Z :=
  match m with
  | RecordVote _ poll_id _ _ => poll_id
  | EndPoll _ poll_id _ => poll_id
  | AddOption _ poll_id _ _ => poll_id
  | RemoveOption poll_id _ _ => poll_id
  | RenameOption poll_id _ _ _ => poll_id
  | Reorder poll_id _ _ => poll_id
  end.

Definition is_end_poll (m : Mutation) : bool :=
  match m with
  | EndPoll _ _ _ => true
  | _ => false
  end.

Definition set_user_roles (s : Store) (l : list UserRole.t) : Store :=
  mkStore (polls s) (poll_options s) (voted_users s) (user_votes s)
    (poll_analytics s) (vote_activity s) l
    (notification_settings s) (notifications s) (poll_shares s).

Definition set_poll_shares (s : Store) (l : list PollShare.t) : Store :=
  mkStore (polls s) (poll_options s) (voted_users s) (user_votes s)
    (poll_analytics s) (vote_activity s) (user_roles s)
    (notification_settings s) (notifications s) l.

(** ** Roles ([set_user_role]) *)

Definition is_role_of (user_id team_id : string) (r : UserRole.t) : bool :=
  String.eqb (UserRole.user_id r) user_id
  && String.eqb (UserRole.team_id r) team_id.

Definition with_role (role : string) (r : UserRole.t) : UserRole.t :=
  UserRole.mk (UserRole.user_id r) (UserRole.team_id r) role
    (UserRole.is_active r).

(** Set or update a user's role.  The row model has no [assigned_by] and
    [assigned_at] columns; [user_roles.user_id] is declared unique, so the
    commit of a second row for a user raises. *)
Definition set_user_role (user_id team_id role assigned_by : string)
    (s : Store) : Result bool * Store :=
  if negb (existsb (String.eqb role) ["admin"; "user"; "viewer"])
  then (Ok false, s)
  else
    (* Check if assigner has admin permission *)
    let assigner_role := get_user_role s assigned_by team_id in
    if negb (String.eqb assigner_role "admin") then (Ok false, s)
    else
      match find (is_role_of user_id team_id) (user_roles s) with
      | Some _ =>
          (Ok true,
           set_user_roles s
             (update_first (is_role_of user_id team_id) (with_role role)
                (user_roles s)))
      | None =>
          if existsb (fun r => String.eqb (UserRole.user_id r) user_id)
                     (user_roles s)
          then (Raise "IntegrityError", s)
          else
            (Ok true,
             set_user_roles s
               (user_roles s ++ [UserRole.mk user_id team_id role true]))
      end.

(** ** Creating and copying polls ([create_poll], [duplicate_poll]) *)

(** [enumerate(l)] *)
Definition enumerate {A : Type} (l : list A) : list (nat * A) :=
  combine (seq 0 (List.length l)) l.

(** [create_poll].  [new_poll_id] is the key the database gives the poll
    row and [option_key i] the key it gives the option row created for the
    [i]-th option. *)
Definition create_poll (now : datetime) (new_poll_id : Z)
    (option_key : nat -> Z) (question : string) (options : list string)
    (team_id channel_id user_id vote_type : string) (s : Store)
  : Z * Store :=
  let poll :=
    Poll.mk new_poll_id question team_id channel_id user_id vote_type
      "active" now None None in
  let s1 := set_polls s (polls s ++ [poll]) in
  let rows :=
    map (fun io =>
           PollOption.mk (option_key (fst io)) new_poll_id (snd io) 0
             (Z.of_nat (fst io)))
        (enumerate options) in
  (new_poll_id, set_poll_options s1 (poll_options s1 ++ rows)).

(** Python's [x or y] on an optional string. *)
Definition or_else (x : option string) (y : string) : string :=
  match truthy x with
  | Some v => v
  | None => y
  end.

(** Create a duplicate of an existing poll.  [new_poll_id] and [option_key]
    are the keys the database would give the new rows. *)
Definition duplicate_poll (now : datetime) (new_poll_id : Z)
    (option_key : nat -> Z) (poll_id : Z)
    (new_question team_id channel_id creator_id : option string)
    (copy_votes : bool) (s : Store) : Result (option Z) * Store :=
  finally_close
    (except_rollback None s
       (with_session
          (fun db =>
             match query_poll db poll_id with
             | None => (None, db)
             | Some original_poll =>
                 (* Create new poll with duplicated data *)
                 let new_poll :=
                   Poll.mk new_poll_id
                     (or_else new_question (Poll.question original_poll))
                     (or_else team_id (Poll.team_id original_poll))
                     (or_else channel_id (Poll.channel_id original_poll))
                     (or_else creator_id (Poll.creator_id original_poll))
                     (Poll.vote_type original_poll) "active" now None None in
                 let s1 := set_polls db (polls db ++ [new_poll]) in
                 (* Duplicate options *)
                 let rows :=
                   map (fun io =>
                          PollOption.mk (option_key (fst io)) new_poll_id
                            (PollOption.text (snd io))
                            (if copy_votes
                             then PollOption.vote_count (snd io) else 0)
                            (PollOption.order_index (snd io)))
                       (enumerate (options_of db poll_id)) in
                 (Some new_poll_id,
                  set_poll_options s1 (poll_options s1 ++ rows))
             end)
          s)).

(** Clone a poll as a template (without votes). *)
Definition clone_poll_template (now : datetime) (new_poll_id : Z)
    (option_key : nat -> Z) (poll_id : Z)
    (team_id channel_id creator_id : string) (s : Store)
  : Result (option Z) * Store :=
  duplicate_poll now new_poll_id option_key poll_id None (Some team_id)
    (Some channel_id) (Some creator_id) false s.

(** ** The question and the advertised permissions ([PollManager]) *)

Definition max_question_length : nat := 500.

Definition set_question (q : string) (p : Poll.t) : Poll.t :=
  Poll.mk (Poll.id p) q (Poll.team_id p) (Poll.channel_id p)
    (Poll.creator_id p) (Poll.vote_type p) (Poll.status p) (Poll.created_at p)
    (Poll.ended_at p) (Poll.message_ts p).

(** Edit poll question (only for active polls).  [strip] and [len] are
    Python's [str.strip] and [len]. *)
Definition edit_poll_question
    (cached_role : string -> string -> option string)
    (strip : string -> string) (len : string -> nat) (poll_id : Z)
    (new_question user_id : string) (s : Store) : Result bool * Store :=
  finally_close
    (except_rollback false s
       (if (len (strip new_question) =? 0)%nat then return_unbound false s
        else if (max_question_length <? len new_question)%nat
        then return_unbound false s
        else
          with_session
            (fun db =>
               match query_poll db poll_id with
               | None => (false, db)
               | Some poll =>
                   (* Check if poll is still active *)
                   if negb (String.eqb (Poll.status poll) "active")
                   then (false, db)
                   (* Check if user has permission (creator or admin) *)
                   else if negb (may_edit cached_role db poll user_id)
                   then (false, db)
                   else
                     (true,
                      set_polls db
                        (update_first (fun p => Poll.id p =? poll_id)
                           (set_question (strip new_question)) (polls db)))
               end)
            s)).

(** A value of the dict returned by [get_poll_edit_permissions]. *)
Inductive PyValue :=
| PyBool (b : bool)
| PyStr (text : string).

(** Get what editing permissions a user has for a poll. *)
Definition get_poll_edit_permissions
    (cached_role : string -> string -> option string) (poll_id : Z)
    (user_id : string) (s : Store)
  : Result (list (string * PyValue)) * Store :=
  finally_close
    (except_return
       [("can_edit", PyBool false);
        ("reason", PyStr "Error checking permissions")]
       (with_session
          (fun db =>
             (match query_poll db poll_id with
              | None =>
                  [("can_edit", PyBool false);
                   ("reason", PyStr "Poll not found")]
              | Some poll =>
                  (* Check if poll is active *)
                  if negb (String.eqb (Poll.status poll) "active")
                  then [("can_edit", PyBool false);
                        ("reason", PyStr "Poll has ended")]
                  else
                    (* Check user role *)
                    let user_role :=
                      cached_get_user_role cached_role db user_id
                        (Poll.team_id poll) in
                    let is_creator :=
                      String.eqb (Poll.creator_id poll) user_id in
                    let is_admin := String.eqb user_role "admin" in
                    let can_edit := is_creator || is_admin in
                    let permissions :=
                      [("can_edit", PyBool can_edit);
                       ("can_edit_question", PyBool can_edit);
                       ("can_add_options", PyBool can_edit);
                       ("can_remove_options", PyBool can_edit);
                       ("can_edit_options", PyBool can_edit);
                       ("can_reorder_options", PyBool can_edit);
                       ("is_creator", PyBool is_creator);
                       ("is_admin", PyBool is_admin);
                       ("poll_status", PyStr (Poll.status poll))] in
                    if negb can_edit then
                      if negb (String.eqb (Poll.status poll) "active")
                      then
                        (permissions
                         ++ [("reason", PyStr "Poll has ended")])%list
                      else
                        (permissions
                         ++ [("reason", PyStr "Insufficient permissions")])%list
                    else permissions
              end,
              db))
          s)).

(** An option row without its counter. *)
Definition option_as_created (o : PollOption.t) : Z * Z * string * Z :=
  (PollOption.id o, PollOption.poll_id o, PollOption.text o,
   PollOption.order_index o).

(** ** Sharing ([is_poll_shared_in_channel], [share_poll_to_channel]) *)

Definition is_active_share (poll_id : Z) (channel_id : string)
    (sh : PollShare.t) : bool :=
  (PollShare.poll_id sh =? poll_id)
  && String.eqb (PollShare.channel_id sh) channel_id
  && PollShare.is_active sh.

(** Check if poll is already shared in a channel. *)
Definition is_poll_shared_in_channel (s : Store) (poll_id : Z)
    (channel_id : string) : bool :=
  (* Check original poll channel *)
  match query_poll s poll_id with
  | Some poll =>
      if String.eqb (Poll.channel_id poll) channel_id then true
      else is_some (find (is_active_share poll_id channel_id) (poll_shares s))
  | None =>
      (* Check shared channels *)
      is_some (find (is_active_share poll_id channel_id) (poll_shares s))
  end.

(** Share a poll to a specific channel.  [ts] is the timestamp Slack
    answers the post with. *)
Definition share_poll_to_channel (app : App) (ts : string) (poll_id : Z)
    (channel_id shared_by : string) : M bool :=
  try_except
    (s <- get_store ;;
     match query_poll s poll_id with
     | None => ret false
     | Some poll =>
         (* Check if already shared *)
         if is_poll_shared_in_channel s poll_id channel_id then ret false
         else
           (* Post to channel *)
           chat_postMessage app channel_id ("Poll: " ++ Poll.question poll) ;;
           (* Record the share *)
           commit_ (fun s0 =>
                      set_poll_shares s0
                        (poll_shares s0 ++
                         [PollShare.mk poll_id channel_id (Some ts) shared_by
                            true])) ;;
           ret true
     end)
    (fun _ => logger_error "Error sharing poll to channel" ;; ret false).

(** The active shares of a poll in a channel. *)
Definition count_active_shares (s : Store) (poll_id : Z) (channel_id : string)
  : nat :=
  List.length (filter (is_active_share poll_id channel_id) (poll_shares s)).

(** ** Recounting ([OptimizedQueries.bulk_update_vote_counts]) *)

Definition set_vote_count (n : Z) (o : PollOption.t) : PollOption.t :=
  PollOption.mk (PollOption.id o) (PollOption.poll_id o) (PollOption.text o)
    n (PollOption.order_index o).

(** [UPDATE poll_options SET vote_count = (SELECT COUNT( * ) FROM user_votes
    WHERE user_votes.option_id = poll_options.id) WHERE poll_id = :poll_id] *)
Definition bulk_update_vote_counts (poll_id : Z) (s : Store) : Store :=
  set_poll_options s
    (map (fun o =>
            if PollOption.poll_id o =? poll_id
            then set_vote_count (votes_for_option s (PollOption.id o)) o
            else o)
         (poll_options s)).

(** ** Hourly activity *)

(** The activity rows of a poll and the votes they add up to. *)
Definition activity_of (s : Store) (poll_id : Z) : list VoteActivity.t :=
  filter (fun a => VoteActivity.poll_id a =? poll_id) (vote_activity s).

Definition activity_total (s : Store) (poll_id : Z) : Z :=
  fold_right Z.add 0 (map VoteActivity.vote_count (activity_of s poll_id)).

(** ** Where the fan-out pushes *)

(** A call the fan-out of a poll may make on a database: an update of the
    poll's own message, an update of the message of one of its active
    shares, each with the poll row and its current options as payload, or
    a log line. *)
Definition is_push_target (s : Store) (poll : Poll.t) (c : Call) : Prop :=
  match c with
  | ChatUpdate channel ts blocks =>
      blocks_poll blocks = poll
      /\ blocks_options blocks = options_of s (Poll.id poll)
      /\ ((channel = Poll.channel_id poll
           /\ truthy (Poll.message_ts poll) = Some ts
           /\ blocks_shared_from blocks = None)
          \/ exists share,
               In share (poll_shares s)
               /\ PollShare.poll_id share = Poll.id poll
               /\ PollShare.is_active share = true
               /\ PollShare.channel_id share = channel
               /\ truthy (PollShare.message_ts share) = Some ts
               /\ blocks_shared_from blocks
                  = Some (Poll.channel_id poll, PollShare.shared_by share))
  | LogError _ => True
  | _ => False
  end.

(** ** The switches of the notification settings *)

(** The notification types a user can switch on and off. *)
Definition notification_switches : list string :=
  ["poll_created"; "poll_ended"; "vote_milestone"; "close_race";
   "role_changed"; "daily_summary"].
(** * Properties *)

(** ** Frame lemmas: what the analytics pass leaves alone *)

Lemma update_vote_activity_frame poll_id s :
  let s' := update_vote_activity poll_id s in
  polls s' = polls s /\ poll_options s' = poll_options s
  /\ voted_users s' = voted_users s /\ user_votes s' = user_votes s
  /\ poll_analytics s' = poll_analytics s.
Proof.
  unfold update_vote_activity.
  destruct (query_poll s poll_id); simpl; auto.
Qed.

Lemma update_poll_analytics_frame now poll_id s :
  let s' := update_poll_analytics now poll_id s in
  polls s' = polls s /\ poll_options s' = poll_options s
  /\ voted_users s' = voted_users s /\ user_votes s' = user_votes s.
Proof.
  unfold update_poll_analytics.
  destruct (query_poll s poll_id) as [poll|]; simpl; auto.
  match goal with
  | |- context [update_vote_activity _ ?d] =>
      destruct (update_vote_activity_frame poll_id d) as (P & O & V & U & _);
      rewrite P, O, V, U
  end.
  destruct (find _ (poll_analytics s)); simpl; auto.
Qed.

Lemma query_poll_analytics now poll_id s q :
  query_poll (update_poll_analytics now poll_id s) q = query_poll s q.
Proof.
  unfold query_poll.
  destruct (update_poll_analytics_frame now poll_id s) as (P & _).
  now rewrite P.
Qed.

(** ** The creator gate of [end_poll] *)

(** C10. Whoever is not the creator of an existing poll cannot end it:
    [end_poll] returns failure and leaves the database, hence the poll's
    status and end time, as it was.  This holds even for a caller to whom
    [can_end_poll] has just said yes because of the admin permission
    [end_any_poll]. *)
Theorem end_poll_only_creator :
  forall (s : Store) (now : datetime) (poll_id : Z) (user_id team_id : string)
         (poll : Poll.t),
    query_poll s poll_id = Some poll ->
    Poll.creator_id poll <> user_id ->
    end_poll now poll_id user_id s = (false, s)
    /\ (check_permission s user_id team_id "end_any_poll" = true ->
        can_end_poll s user_id team_id poll_id = (true, "")).
Proof.
  intros s now poll_id user_id team_id poll Hq Hne.
  split.
  - unfold end_poll. rewrite Hq.
    destruct (String.eqb_spec (Poll.creator_id poll) user_id) as [E|_].
    + contradiction.
    + reflexivity.
  - intros Hadmin. unfold can_end_poll. rewrite Hq, Hadmin. reflexivity.
Qed.

Lemma end_poll_only_creator_witness :
  end_poll (seconds 60) 1 "U900" sample_store = (false, sample_store)
  /\ (check_permission sample_store "U900" "T123" "end_any_poll" = true ->
      can_end_poll sample_store "U900" "T123" 1 = (true, "")).
Proof.
  apply (end_poll_only_creator sample_store (seconds 60) 1 "U900" "T123"
           lunch_poll).
  - reflexivity.
  - simpl. discriminate.
Defined.

(** The admin of the sample workspace is let through by [can_end_poll] and
    then stopped by [end_poll]; the handler answers with an error. *)
Example admin_cannot_end_poll :
  can_end_poll sample_store "U900" "T123" 1 = (true, "")
  /\ run (handle_end_poll slack_up (seconds 60) 1 "U900" "T123") sample_store
     = (Ok tt,
        mkWorld sample_store [Say "❌ Error ending poll. Please try again."]).
Proof. split; reflexivity. Qed.

(** ** Votes on multiple-choice polls *)

Lemma process_vote_accepts now poll_id option_id user_id s poll :
  query_poll s poll_id = Some poll ->
  Poll.status poll = "active" ->
  is_some (find (is_voted_user poll_id user_id) (voted_users s))
  && String.eqb (Poll.vote_type poll) "single" = false ->
  let r := process_vote now poll_id option_id user_id s in
  fst r = true
  /\ polls (snd r) = polls s
  /\ user_votes (snd r)
     = (user_votes s ++ [UserVote.mk poll_id user_id option_id now])%list
  /\ poll_options (snd r)
     = update_first (fun o => PollOption.id o =? option_id) incr_vote_count
         (poll_options s)
  /\ voted_users (snd r)
     = if is_some (find (is_voted_user poll_id user_id) (voted_users s))
       then voted_users s
       else (voted_users s ++ [VotedUser.mk poll_id user_id now])%list.
Proof.
  intros Hq Hs Hgate. cbv zeta. unfold process_vote. rewrite Hq, Hs.
  change (String.eqb "active" "active") with true. cbv zeta. cbn [negb].
  rewrite Hgate. cbn [fst snd].
  set (d := set_poll_options _ _).
  destruct (update_poll_analytics_frame now poll_id d) as (P & O & V & U).
  rewrite P, O, V, U. subst d.
  destruct (is_some (find (is_voted_user poll_id user_id) (voted_users s)));
    simpl; auto.
Qed.

Lemma count_votes_for_app s s' poll_id user_id option_id now :
  user_votes s' = (user_votes s ++ [UserVote.mk poll_id user_id option_id now])%list ->
  count_votes_for s' poll_id user_id option_id
  = S (count_votes_for s poll_id user_id option_id).
Proof.
  intros E. unfold count_votes_for. rewrite E, filter_app, length_app.
  unfold is_vote_for at 2. simpl.
  rewrite !Z.eqb_refl, String.eqb_refl. simpl. lia.
Qed.

(** C1 fails on the code: in the sample workspace [U456] votes twice for
    option 20 of the multiple-choice poll 2; the second vote is accepted
    and leaves two ledger rows for the same poll, voter and option. *)
Lemma multiple_choice_option_dedup_fails : ~ multiple_choice_option_dedup.
Proof.
  intros H.
  specialize (H voted_cheese (seconds 40) 2 20 "U456"
                toppings_poll).
  assert (E : fst (process_vote (seconds 40) 2 20 "U456" voted_cheese) = true)
    by (vm_compute; reflexivity).
  rewrite H in E.
  - discriminate E.
  - reflexivity.
  - reflexivity.
  - reflexivity.
  - vm_compute. lia.
Qed.

(** C1, as the code has it.  On an active multiple-choice poll
    [process_vote] never turns a vote down, whether or not the voter
    already has a ledger row for that option: it succeeds, appends one
    ledger row for (poll, voter, option), so the number of such rows grows
    by one with every call, and increments the first option row with that
    id.  Only the [voted_users] row is kept unique: a voter who has one
    gets no second one. *)
Theorem process_vote_multiple_appends :
  forall (s : Store) (now : datetime) (poll_id option_id : Z)
         (user_id : string) (poll : Poll.t),
    query_poll s poll_id = Some poll ->
    Poll.status poll = "active" ->
    Poll.vote_type poll = "multiple" ->
    let r := process_vote now poll_id option_id user_id s in
    fst r = true
    /\ user_votes (snd r)
       = (user_votes s ++ [UserVote.mk poll_id user_id option_id now])%list
    /\ count_votes_for (snd r) poll_id user_id option_id
       = S (count_votes_for s poll_id user_id option_id)
    /\ poll_options (snd r)
       = update_first (fun o => PollOption.id o =? option_id) incr_vote_count
           (poll_options s)
    /\ (is_some (find (is_voted_user poll_id user_id) (voted_users s)) = true ->
        voted_users (snd r) = voted_users s).
Proof.
  intros s now poll_id option_id user_id poll Hq Hs Ht.
  assert (Hgate :
            is_some (find (is_voted_user poll_id user_id) (voted_users s))
            && String.eqb (Poll.vote_type poll) "single" = false).
  { rewrite Ht. simpl. apply andb_false_r. }
  destruct (process_vote_accepts now poll_id option_id user_id s poll
              Hq Hs Hgate) as (R & _ & U & O & V).
  cbv zeta. repeat split; auto.
  - eapply count_votes_for_app; eauto.
  - intros Hex. rewrite V, Hex. reflexivity.
Qed.

Lemma process_vote_multiple_appends_witness :
  let r := process_vote (seconds 40) 2 20 "U456" voted_cheese in
  fst r = true
  /\ user_votes (snd r)
     = (user_votes voted_cheese ++ [UserVote.mk 2 "U456" 20 (seconds 40)])%list
  /\ count_votes_for (snd r) 2 "U456" 20
     = S (count_votes_for voted_cheese 2 "U456" 20)
  /\ poll_options (snd r)
     = update_first (fun o => PollOption.id o =? 20) incr_vote_count
         (poll_options voted_cheese)
  /\ (is_some (find (is_voted_user 2 "U456") (voted_users voted_cheese)) = true ->
      voted_users (snd r) = voted_users voted_cheese).
Proof.
  apply (process_vote_multiple_appends voted_cheese (seconds 40) 2 20 "U456"
           toppings_poll); reflexivity.
Defined.

(** ** Ending a poll twice *)

(** C2 does not hold on the code: [end_poll] has no test for a poll that
    has already ended.  In the sample workspace the creator ends poll 1 at
    second 100 and again at second 200; the second call succeeds too, moves
    the end time to second 200, and the button handler pushes the views
    and sends the poll-ended notifications once more. *)
Theorem end_poll_twice_ends_again :
  end_poll (seconds 100) 1 "U123" voted_pizza = (true, ended_once)
  /\ option_map Poll.status (query_poll ended_once 1) = Some "ended"
  /\ option_map Poll.ended_at (query_poll ended_once 1)
     = Some (Some (seconds 100))
  /\ end_poll (seconds 200) 1 "U123" ended_once = (true, ended_twice)
  /\ option_map Poll.status (query_poll ended_twice 1) = Some "ended"
  /\ option_map Poll.ended_at (query_poll ended_twice 1)
     = Some (Some (seconds 200))
  /\ (let w :=
        snd (run (handle_end_poll slack_up (seconds 200) 1 "U123" "T123")
               ended_once) in
      updated_channels (trace w) = ["C123"; "C200"; "C300"]
      /\ notified (trace w)
         = [("U456", "Poll Results"); ("U123", "Your Poll Results")]
      /\ List.length (notifications (db w)) = 2%nat
      /\ said (trace w) = []).
Proof. vm_compute. repeat split; reflexivity. Qed.

(** ** Votes for an option that is not the poll's *)

(** C5 does not hold on the code: [process_vote] checks the poll but not
    the option.  A vote on poll 1 for option 20, which belongs to poll 2,
    is accepted, enters the ledger of poll 1 and raises the counter of
    poll 2's option; a vote for the unknown option 99 is accepted and
    enters the ledger while no counter moves. *)
Theorem process_vote_accepts_foreign_option :
  (let r := process_vote (seconds 30) 1 20 "U456" sample_store in
   fst r = true
   /\ user_votes (snd r) = [UserVote.mk 1 "U456" 20 (seconds 30)]
   /\ total_votes (snd r) 1 = 0
   /\ total_votes (snd r) 2 = 1)
  /\ (let r := process_vote (seconds 30) 1 99 "U456" sample_store in
      fst r = true
      /\ user_votes (snd r) = [UserVote.mk 1 "U456" 99 (seconds 30)]
      /\ poll_options (snd r) = poll_options sample_store)
  /\ said (trace (snd (run (handle_vote slack_up (seconds 30) 1 20 "U456")
                         sample_store))) = [].
Proof. vm_compute. repeat split; reflexivity. Qed.

(** ** Votes on single-choice polls *)

Lemma process_vote_rejects_voted now poll_id option_id user_id s poll :
  query_poll s poll_id = Some poll ->
  Poll.vote_type poll = "single" ->
  is_some (find (is_voted_user poll_id user_id) (voted_users s)) = true ->
  process_vote now poll_id option_id user_id s = (false, s).
Proof.
  intros Hq Ht Hv. unfold process_vote. rewrite Hq.
  destruct (negb (String.eqb (Poll.status poll) "active")); [reflexivity|].
  cbv zeta. rewrite Hv, Ht. reflexivity.
Qed.

Lemma process_votes_rejects_voted calls poll_id user_id s poll :
  query_poll s poll_id = Some poll ->
  Poll.vote_type poll = "single" ->
  is_some (find (is_voted_user poll_id user_id) (voted_users s)) = true ->
  process_votes calls poll_id user_id s
  = (repeat false (List.length calls), s).
Proof.
  intros Hq Ht Hv. induction calls as [|[now option_id] rest IH]; simpl.
  - reflexivity.
  - rewrite (process_vote_rejects_voted now poll_id option_id user_id s poll)
      by assumption.
    rewrite IH. reflexivity.
Qed.

Lemma find_app_last {A : Type} (p : A -> bool) (l : list A) (x : A) :
  find p l = None -> p x = true -> find p (l ++ [x]) = Some x.
Proof.
  intros Hn Hx. induction l as [|y l IH]; simpl in *.
  - now rewrite Hx.
  - destruct (p y); [discriminate|auto].
Qed.

Lemma sum_vote_count_update_first (l : list PollOption.t) option_id poll_id opt :
  find (fun o => PollOption.id o =? option_id) l = Some opt ->
  PollOption.poll_id opt = poll_id ->
  sum_vote_count
    (filter (fun o => PollOption.poll_id o =? poll_id)
       (update_first (fun o => PollOption.id o =? option_id) incr_vote_count l))
  = sum_vote_count (filter (fun o => PollOption.poll_id o =? poll_id) l) + 1.
Proof.
  intros Hf Hp. induction l as [|x l IH]; simpl in *.
  - discriminate.
  - destruct (PollOption.id x =? option_id) eqn:E.
    + injection Hf as ->. simpl. rewrite Hp, Z.eqb_refl. simpl. lia.
    + simpl. destruct (PollOption.poll_id x =? poll_id); simpl;
        rewrite (IH Hf); lia.
Qed.

Lemma find_app_some {A : Type} (p : A -> bool) (l l' : list A) :
  is_some (find p l) = true -> is_some (find p (l ++ l')) = true.
Proof.
  induction l as [|x l IH]; simpl; intros H.
  - discriminate.
  - destruct (p x); auto.
Qed.

Lemma no_participation_no_votes s poll_id user_id :
  participation_recorded s ->
  find (is_voted_user poll_id user_id) (voted_users s) = None ->
  count_votes_by s poll_id user_id = 0%nat.
Proof.
  unfold participation_recorded, count_votes_by. intros Hrec Hnone.
  induction Hrec as [|v l Hv Hl IH]; simpl.
  - reflexivity.
  - destruct (is_vote_by poll_id user_id v) eqn:E; [|exact IH].
    unfold is_vote_by in E. apply andb_prop in E. destruct E as [E1 E2].
    apply Z.eqb_eq in E1. apply String.eqb_eq in E2.
    rewrite E1, E2, Hnone in Hv. discriminate.
Qed.

(** Every call of [process_vote] keeps the participation rows in step with
    the ledger. *)
Lemma participation_recorded_preserved now poll_id option_id user_id s :
  participation_recorded s ->
  participation_recorded (snd (process_vote now poll_id option_id user_id s)).
Proof.
  intros Hrec.
  destruct (query_poll s poll_id) as [poll|] eqn:Hq.
  2:{ unfold process_vote. now rewrite Hq. }
  destruct (String.eqb (Poll.status poll) "active") eqn:Hs.
  2:{ unfold process_vote. now rewrite Hq, Hs. }
  apply String.eqb_eq in Hs.
  destruct (is_some (find (is_voted_user poll_id user_id) (voted_users s))
            && String.eqb (Poll.vote_type poll) "single") eqn:Hgate.
  { unfold process_vote. rewrite Hq, Hs. cbv zeta.
    change (String.eqb "active" "active") with true. cbn [negb].
    now rewrite Hgate. }
  destruct (process_vote_accepts now poll_id option_id user_id s poll
              Hq Hs Hgate) as (_ & _ & U & _ & V).
  unfold participation_recorded in *. rewrite U, V.
  destruct (is_some (find (is_voted_user poll_id user_id) (voted_users s)))
    eqn:Hex.
  - apply Forall_app. split; [assumption|].
    constructor; [exact Hex|constructor].
  - apply Forall_app. split.
    + eapply Forall_impl; [|exact Hrec].
      intros v Hv. now apply find_app_some.
    + constructor; [|constructor]. simpl.
      rewrite find_app_last; [reflexivity| |].
      * destruct (find (is_voted_user poll_id user_id) (voted_users s));
          [discriminate|reflexivity].
      * unfold is_voted_user. simpl.
        now rewrite Z.eqb_refl, String.eqb_refl.
Qed.

Lemma handle_vote_rejected app now poll_id option_id user_id s :
  say_ok app = true ->
  process_vote now poll_id option_id user_id s = (false, s) ->
  run (handle_vote app now poll_id option_id user_id) s
  = (Ok tt, mkWorld s [Say "You have already voted in this poll!"]).
Proof.
  intros Hsay Hp.
  unfold run, handle_vote, try_except, bind, commit, reply, say, emit.
  cbn [db trace]. rewrite Hp. unfold try_except. rewrite Hsay. reflexivity.
Qed.

(** The dedup of single-choice polls.  On an active single-choice poll a
    vote by a voter who has already voted is turned down, changes nothing,
    and the handler answers that the voter has already voted.  Hence when
    a voter who has not voted yet issues any sequence of votes, the first
    for an option of the poll, exactly the first call succeeds, the
    database ends as the first call left it, the voter has exactly one
    ledger row and one participation row in the poll, and the counters of
    the poll's options add up to exactly one more than before.  The
    database is one in which every ledger row has its participation row,
    which [process_vote] maintains ([participation_recorded_preserved]). *)
Lemma single_choice_dedup :
  forall (s : Store) (poll_id : Z) (user_id : string) (poll : Poll.t),
    query_poll s poll_id = Some poll ->
    Poll.status poll = "active" ->
    Poll.vote_type poll = "single" ->
    participation_recorded s ->
    (is_some (find (is_voted_user poll_id user_id) (voted_users s)) = true ->
     forall (app : App) (now : datetime) (option_id : Z),
       process_vote now poll_id option_id user_id s = (false, s)
       /\ (say_ok app = true ->
           run (handle_vote app now poll_id option_id user_id) s
           = (Ok tt, mkWorld s [Say "You have already voted in this poll!"])))
    /\ (find (is_voted_user poll_id user_id) (voted_users s) = None ->
        forall (now : datetime) (option_id : Z) (rest : list (datetime * Z))
               (opt : PollOption.t),
          find (fun o => PollOption.id o =? option_id) (poll_options s)
          = Some opt ->
          PollOption.poll_id opt = poll_id ->
          let r := process_votes ((now, option_id) :: rest) poll_id user_id s in
          fst r = true :: repeat false (List.length rest)
          /\ snd r = snd (process_vote now poll_id option_id user_id s)
          /\ count_votes_by (snd r) poll_id user_id = 1%nat
          /\ count_voted_user (snd r) poll_id user_id = 1%nat
          /\ total_votes (snd r) poll_id = total_votes s poll_id + 1).
Proof.
  intros s poll_id user_id poll Hq Hs Ht Hrec. split.
  - intros Hv app now option_id.
    pose proof (process_vote_rejects_voted now poll_id option_id user_id s
                  poll Hq Ht Hv) as Hp.
    split; [exact Hp|].
    intros Hsay. now apply handle_vote_rejected.
  - intros Hnone now option_id rest opt Hopt Hin.
    pose proof (no_participation_no_votes s poll_id user_id Hrec Hnone)
      as Hcount.
    assert (Hgate :
              is_some (find (is_voted_user poll_id user_id) (voted_users s))
              && String.eqb (Poll.vote_type poll) "single" = false)
      by (rewrite Hnone; reflexivity).
    destruct (process_vote_accepts now poll_id option_id user_id s poll
                Hq Hs Hgate) as (R & P & U & O & V).
    rewrite Hnone in V. cbn [is_some] in V.
    cbv zeta. cbn [process_votes].
    destruct (process_vote now poll_id option_id user_id s) as [ok s1] eqn:E.
    cbn [fst snd] in *. subst ok.
    assert (Hq1 : query_poll s1 poll_id = Some poll)
      by (unfold query_poll; rewrite P; exact Hq).
    assert (Hv1 :
              is_some (find (is_voted_user poll_id user_id) (voted_users s1))
              = true).
    { rewrite V.
      rewrite (find_app_last _ _ (VotedUser.mk poll_id user_id now) Hnone).
      - reflexivity.
      - unfold is_voted_user. simpl.
        now rewrite Z.eqb_refl, String.eqb_refl. }
    rewrite (process_votes_rejects_voted rest poll_id user_id s1 poll Hq1 Ht Hv1).
    cbn [fst snd]. repeat split.
    + unfold count_votes_by in *. rewrite U, filter_app, length_app, Hcount.
      unfold is_vote_by. simpl. now rewrite Z.eqb_refl, String.eqb_refl.
    + unfold count_voted_user. rewrite V, filter_app, length_app.
      assert (Hz : filter (is_voted_user poll_id user_id) (voted_users s) = []).
      { clear - Hnone. induction (voted_users s) as [|x l IH]; simpl in *.
        - reflexivity.
        - destruct (is_voted_user poll_id user_id x); [discriminate|auto]. }
      rewrite Hz. unfold is_voted_user. simpl.
      now rewrite Z.eqb_refl, String.eqb_refl.
    + unfold total_votes, options_of. rewrite O.
      now apply sum_vote_count_update_first with (opt := opt).
Qed.

Example single_choice_dedup_sample :
  let r :=
    process_votes [(seconds 30, 10); (seconds 31, 10); (seconds 32, 11)]
      1 "U456" sample_store in
  fst r = [true; false; false]
  /\ count_votes_by (snd r) 1 "U456" = 1%nat
  /\ count_voted_user (snd r) 1 "U456" = 1%nat
  /\ total_votes (snd r) 1 = total_votes sample_store 1 + 1.
Proof.
  destruct (single_choice_dedup sample_store 1 "U456"
              lunch_poll
              eq_refl eq_refl eq_refl (Forall_nil _)) as [_ HB].
  destruct (HB eq_refl (seconds 30) 10
              [(seconds 31, 10); (seconds 32, 11)]
              (PollOption.mk 10 1 "Pizza" 0 0) eq_refl eq_refl)
    as (A & _ & C & D & E).
  repeat split; assumption.
Qed.

(** C4. On the single-choice poll 1 the voter [U456] votes three times,
    first for option 20, which is an option of poll 2, or for option 99,
    which does not exist.  The dedup works: only the first call succeeds
    and the voter has one ledger row and one participation row in poll 1.
    But the total of the counters of poll 1's options has not moved: the
    accepted vote raised the counter of poll 2's option, or no counter at
    all. *)
Theorem single_choice_total_misses_foreign_vote :
  let calls (first : Z) :=
    [(seconds 30, first); (seconds 31, 10); (seconds 32, 11)] in
  let r := process_votes (calls 20) 1 "U456" sample_store in
  let r' := process_votes (calls 99) 1 "U456" sample_store in
  (fst r = [true; false; false]
   /\ count_votes_by (snd r) 1 "U456" = 1%nat
   /\ count_voted_user (snd r) 1 "U456" = 1%nat
   /\ total_votes (snd r) 1 = total_votes sample_store 1
   /\ total_votes (snd r) 2 = total_votes sample_store 2 + 1)
  /\ (fst r' = [true; false; false]
      /\ count_votes_by (snd r') 1 "U456" = 1%nat
      /\ count_voted_user (snd r') 1 "U456" = 1%nat
      /\ total_votes (snd r') 1 = total_votes sample_store 1
      /\ poll_options (snd r') = poll_options sample_store).
Proof. vm_compute. repeat split; reflexivity. Qed.

(** ** Counter consistency *)

Lemma map_update_first {A B : Type} (g : A -> B) (p : A -> bool) (f : A -> A)
    (l : list A) :
  (forall x, g (f x) = g x) ->
  map g (update_first p f l) = map g l.
Proof.
  intros Hg. induction l as [|x l IH]; simpl.
  - reflexivity.
  - destruct (p x); simpl; congruence.
Qed.

Lemma votes_for_option_app s s' v :
  user_votes s' = (user_votes s ++ [v])%list ->
  forall i,
    votes_for_option s' i
    = votes_for_option s i + (if UserVote.option_id v =? i then 1 else 0).
Proof.
  intros E i. unfold votes_for_option.
  rewrite E, filter_app, length_app. simpl.
  destruct (UserVote.option_id v =? i); simpl; lia.
Qed.

Lemma counters_after_vote (cnt : Z -> Z) (option_id : Z)
    (l : list PollOption.t) :
  NoDup (map PollOption.id l) ->
  Forall (fun o => PollOption.vote_count o = cnt (PollOption.id o)) l ->
  Forall (fun o => PollOption.vote_count o
                   = cnt (PollOption.id o)
                     + (if option_id =? PollOption.id o then 1 else 0))
         (update_first (fun o => PollOption.id o =? option_id)
            incr_vote_count l).
Proof.
  intros Hnd H. induction H as [|x l Hx Hl IH]; simpl.
  - constructor.
  - inversion Hnd as [|? ? Hn Hd]; subst.
    destruct (PollOption.id x =? option_id) eqn:E.
    + apply Z.eqb_eq in E. constructor.
      * simpl. rewrite Hx, E, Z.eqb_refl. lia.
      * apply Forall_forall. intros y Hy.
        rewrite Forall_forall in Hl. rewrite (Hl y Hy).
        destruct (option_id =? PollOption.id y) eqn:E'; [|lia].
        apply Z.eqb_eq in E'. exfalso. apply Hn.
        apply in_map_iff. exists y. split; [congruence|assumption].
    + constructor; auto.
      rewrite Z.eqb_sym, E. lia.
Qed.

Lemma process_vote_cases now poll_id option_id user_id s :
  process_vote now poll_id option_id user_id s = (false, s)
  \/ (let r := process_vote now poll_id option_id user_id s in
      user_votes (snd r)
      = (user_votes s ++ [UserVote.mk poll_id user_id option_id now])%list
      /\ poll_options (snd r)
         = update_first (fun o => PollOption.id o =? option_id)
             incr_vote_count (poll_options s)).
Proof.
  destruct (query_poll s poll_id) as [poll|] eqn:Hq.
  2:{ left. unfold process_vote. now rewrite Hq. }
  destruct (String.eqb (Poll.status poll) "active") eqn:Hs.
  2:{ left. unfold process_vote. now rewrite Hq, Hs. }
  apply String.eqb_eq in Hs.
  destruct (is_some (find (is_voted_user poll_id user_id) (voted_users s))
            && String.eqb (Poll.vote_type poll) "single") eqn:Hgate.
  - left. unfold process_vote. rewrite Hq, Hs. cbv zeta.
    change (String.eqb "active" "active") with true. cbn [negb].
    now rewrite Hgate.
  - right.
    destruct (process_vote_accepts now poll_id option_id user_id s poll
                Hq Hs Hgate) as (_ & _ & U & O & _).
    cbv zeta. auto.
Qed.

Ltac break_branches :=
  repeat match goal with
         | |- context [match ?x with _ => _ end] => destruct x eqn:?
         end.

Lemma end_poll_options now poll_id user_id s :
  let s' := snd (end_poll now poll_id user_id s) in
  poll_options s' = poll_options s /\ user_votes s' = user_votes s.
Proof. unfold end_poll. break_branches; simpl; auto. Qed.

(** As the repository stands, no method of the poll manager gets a
    database session: [SessionLocal()] raises, the handler and the
    [finally] clause find [db] unbound, and the call ends in an
    [UnboundLocalError] with the database as it was.  A blank text is
    turned down before the session is asked for, and then the [finally]
    clause raises the same way. *)
Lemma add_poll_option_raises cached_role strip lower len new_id poll_id
    option_text user_id s :
  add_poll_option cached_role strip lower len new_id poll_id option_text
    user_id s
  = (Raise "UnboundLocalError", s).
Proof.
  unfold add_poll_option.
  destruct (len (strip option_text) =? 0)%nat; reflexivity.
Qed.

Lemma remove_poll_option_raises cached_role poll_id option_id user_id s :
  remove_poll_option cached_role poll_id option_id user_id s
  = (Raise "UnboundLocalError", s).
Proof. reflexivity. Qed.

Lemma edit_poll_option_raises cached_role strip lower len poll_id option_id
    new_text user_id s :
  edit_poll_option cached_role strip lower len poll_id option_id new_text
    user_id s
  = (Raise "UnboundLocalError", s).
Proof.
  unfold edit_poll_option.
  destruct (len (strip new_text) =? 0)%nat; reflexivity.
Qed.

Lemma reorder_poll_options_raises cached_role poll_id option_order user_id s :
  reorder_poll_options cached_role poll_id option_order user_id s
  = (Raise "UnboundLocalError", s).
Proof. reflexivity. Qed.

(** C3. Counter consistency is kept by every mutation.  If the option ids
    are unique and every option row carries the number of ledger rows
    pointing at its id, then the same holds after a vote, the end of a
    poll, and a call to add, remove, rename or reorder options, whatever
    their arguments and whether they succeed, are turned down or raise.
    A vote appends one ledger row and raises the counter of the one option
    with that id, if there is one; the end of a poll touches neither
    table; the four option edits of the poll manager commit nothing
    ([SessionLocal]). *)
Theorem counters_consistent_preserved :
  forall (cached_role : string -> string -> option string)
         (strip lower : string -> string) (len : string -> nat)
         (s : Store) (m : Mutation),
    option_keys_unique s ->
    counters_consistent s ->
    let s' := snd (commit_mutation cached_role strip lower len m s) in
    option_keys_unique s' /\ counters_consistent s'.
Proof.
  intros cached_role strip lower len s m Hk Hc. cbv zeta.
  destruct m as [now poll_id option_id user_id
                | now poll_id user_id
                | new_id poll_id option_text user_id
                | poll_id option_id user_id
                | poll_id option_id new_text user_id
                | poll_id option_order user_id];
    cbn [commit_mutation returned snd].
  - (* RecordVote *)
    unfold option_keys_unique, counters_consistent in *.
    destruct (process_vote_cases now poll_id option_id user_id s) as [E|[U O]].
    + rewrite E. auto.
    + rewrite O. split.
      * rewrite map_update_first; [assumption|reflexivity].
      * pose proof (counters_after_vote (votes_for_option s) option_id
                      (poll_options s) Hk Hc) as H.
        eapply Forall_impl; [|exact H].
        intros o Ho. cbv beta in Ho. rewrite Ho.
        rewrite (votes_for_option_app s _ _ U). reflexivity.
  - (* EndPoll *)
    unfold option_keys_unique, counters_consistent in *.
    destruct (end_poll_options now poll_id user_id s) as [O U].
    unfold votes_for_option. rewrite O, U. auto.
  - (* AddOption *)
    rewrite add_poll_option_raises. auto.
  - (* RemoveOption *)
    rewrite remove_poll_option_raises. auto.
  - (* RenameOption *)
    rewrite edit_poll_option_raises. auto.
  - (* Reorder *)
    rewrite reorder_poll_options_raises. auto.
Qed.

Lemma counters_consistent_preserved_witness :
  let s' :=
    snd (commit_mutation (fun _ _ => None) (fun t => t) (fun t => t)
           String.length (RecordVote (seconds 40) 1 11 "U789") voted_pizza) in
  option_keys_unique s' /\ counters_consistent s'.
Proof.
  apply (counters_consistent_preserved (fun _ _ => None) (fun t => t)
           (fun t => t) String.length voted_pizza
           (RecordVote (seconds 40) 1 11 "U789")).
  - unfold option_keys_unique. vm_compute.
    repeat constructor; simpl; intuition discriminate.
  - unfold counters_consistent. vm_compute. repeat constructor.
Defined.

(** A vote for an option of another poll, or for an option that does not
    exist, keeps the counters consistent too: the ledger row and the
    counter it raised, if any, go together. *)
Example counters_consistent_after_foreign_vote :
  counters_consistent (snd (process_vote (seconds 30) 1 20 "U456" sample_store))
  /\ counters_consistent
       (snd (process_vote (seconds 30) 1 99 "U456" sample_store)).
Proof. split; unfold counters_consistent; vm_compute; repeat constructor. Qed.

(** ** The analytics snapshot *)

Lemma find_update_first {A : Type} (p : A -> bool) (f : A -> A) (l : list A)
    (a : A) :
  find p l = Some a -> p (f a) = true ->
  find p (update_first p f l) = Some (f a).
Proof.
  intros Hf Hp. induction l as [|x l IH]; simpl in *.
  - discriminate.
  - destruct (p x) eqn:E.
    + injection Hf as ->. simpl. now rewrite Hp.
    + simpl. rewrite E. auto.
Qed.

(** The row [update_poll_analytics] leaves for the poll holds the metrics
    computed from the database it was called on. *)
Lemma query_analytics_updated now poll_id s poll :
  query_poll s poll_id = Some poll ->
  exists a,
    query_analytics (update_poll_analytics now poll_id s) poll_id = Some a
    /\ PollAnalytics.total_votes a = total_votes s poll_id
    /\ PollAnalytics.unique_voters a
       = Z.of_nat (List.length (voted_users_of s poll_id))
    /\ PollAnalytics.participation_rate a
       = participation_rate_of
           (Z.of_nat (List.length (voted_users_of s poll_id)))
           (total_votes s poll_id)
    /\ PollAnalytics.avg_response_time a
       = avg_response_time_of poll (user_votes_of s poll_id)
    /\ PollAnalytics.peak_voting_hour a
       = peak_voting_hour_of (user_votes_of s poll_id)
    /\ PollAnalytics.updated_at a = now.
Proof.
  intros Hq. unfold update_poll_analytics, query_analytics. rewrite Hq.
  cbv zeta.
  match goal with
  | |- context [update_vote_activity poll_id ?d] =>
      destruct (update_vote_activity_frame poll_id d) as (_ & _ & _ & _ & A);
      rewrite A; clear A
  end.
  destruct (find (fun a => PollAnalytics.poll_id a =? poll_id)
                 (poll_analytics s)) as [a0|] eqn:Hf.
  - simpl. eexists. split.
    + apply find_update_first; [exact Hf|].
      simpl. apply find_some in Hf. tauto.
    + simpl. repeat split.
  - simpl. eexists. split.
    + apply find_app_last; [exact Hf|]. simpl. apply Z.eqb_refl.
    + simpl. repeat split.
Qed.

Lemma fold_left_Qplus_compat (l : list Q) (a b : Q) :
  (a == b)%Q -> (fold_left Qplus l a == fold_left Qplus l b)%Q.
Proof.
  revert a b. induction l as [|x l IH]; simpl; intros a b E.
  - exact E.
  - apply IH. now rewrite E.
Qed.

Lemma fold_left_Qplus_div {A : Type} (f : A -> Q) (c : Q) (l : list A) :
  forall acc : Q,
    (fold_left Qplus (map (fun v => f v / c) l) (acc / c)
     == fold_left Qplus (map f l) acc / c)%Q.
Proof.
  induction l as [|x l IH]; simpl; intros acc.
  - reflexivity.
  - rewrite <- IH. apply fold_left_Qplus_compat.
    unfold Qdiv. ring.
Qed.

Lemma Qsum_div {A : Type} (f : A -> Q) (c : Q) (l : list A) :
  (Qsum (map (fun v => f v / c) l) == Qsum (map f l) / c)%Q.
Proof.
  unfold Qsum. rewrite <- fold_left_Qplus_div.
  apply fold_left_Qplus_compat. unfold Qdiv. ring.
Qed.

(** C7 fails on the code: after one vote cast 120 seconds after the poll
    was created the stored average is 2, the response time in minutes,
    not 120. *)
Lemma avg_response_time_in_seconds_fails : ~ avg_response_time_in_seconds.
Proof.
  intros H.
  destruct (H voted_late (seconds 130) 1
              lunch_poll eq_refl) as (a & Ha & Hm).
  vm_compute in Ha. injection Ha as <-.
  vm_compute in Hm. discriminate Hm.
Qed.

(** C7, as the code has it.  [update_poll_analytics] stores, for an
    existing poll, the arithmetic mean of [castAt - Poll.createdAt] over
    the ledger rows of the poll expressed in minutes, that is the mean in
    seconds divided by 60, and 0 when the poll has no ledger row. *)
Theorem avg_response_time_in_minutes :
  forall (s : Store) (now : datetime) (poll_id : Z) (poll : Poll.t),
    query_poll s poll_id = Some poll ->
    exists a,
      query_analytics (update_poll_analytics now poll_id s) poll_id = Some a
      /\ (PollAnalytics.avg_response_time a
          == Qmean (response_seconds poll (user_votes_of s poll_id))
             / inject_Z 60)%Q
      /\ (user_votes_of s poll_id = [] ->
          PollAnalytics.avg_response_time a = inject_Z 0).
Proof.
  intros s now poll_id poll Hq.
  destruct (query_analytics_updated now poll_id s poll Hq)
    as (a & Ha & _ & _ & _ & Havg & _).
  exists a. split; [exact Ha|]. rewrite Havg. split.
  - unfold avg_response_time_of, Qmean, response_seconds, response_time.
    destruct (user_votes_of s poll_id) as [|v votes].
    + reflexivity.
    + set (l := v :: votes).
      change (match map _ l with [] => inject_Z 0 | _ => ?x end) with x.
      rewrite !length_map.
      rewrite (Qsum_div
                 (fun v => total_seconds (UserVote.voted_at v)
                             (Poll.created_at poll))
                 (inject_Z 60) l).
      unfold Qdiv. ring.
  - intros ->. reflexivity.
Qed.

Lemma avg_response_time_in_minutes_witness :
  exists a,
    query_analytics (update_poll_analytics (seconds 130) 1 voted_late) 1
    = Some a
    /\ (PollAnalytics.avg_response_time a
        == Qmean (response_seconds
                    lunch_poll
                    (user_votes_of voted_late 1))
           / inject_Z 60)%Q
    /\ (user_votes_of voted_late 1 = [] ->
        PollAnalytics.avg_response_time a = inject_Z 0).
Proof.
  apply (avg_response_time_in_minutes voted_late (seconds 130) 1
           lunch_poll).
  reflexivity.
Defined.

Example avg_response_time_sample :
  option_map (fun a => Qred (PollAnalytics.avg_response_time a))
             (query_analytics voted_late 1)
  = Some (inject_Z 2).
Proof. vm_compute. reflexivity. Qed.

Lemma Qmin_le_l (a b : Q) : (Qmin a b <= a)%Q.
Proof. apply Q.le_min_l. Qed.

(** C9 fails on the code.  After [U456] has voted on the multiple-choice
    poll 2 for options 10 and 11, which are options of poll 1, poll 2 has
    two ledger rows, one unique voter and counters that add up to 0.  The
    rate stored is 100: it is neither the unique voters over the number of
    ledger rows (50) nor over the stored total (0). *)
Lemma participation_rate_of_nonempty_ledger_fails :
  ~ participation_rate_over_ledger /\ ~ participation_rate_over_stored_total.
Proof.
  assert (Hledger : user_votes_of voted_elsewhere 2 <> [])
    by (vm_compute; discriminate).
  split; intros H;
    destruct (H voted_elsewhere (seconds 50) 2 toppings_poll eq_refl Hledger)
      as (a & Ha & Hr);
    vm_compute in Ha; injection Ha as <-;
    vm_compute in Hr; discriminate Hr.
Qed.

(** C9, as the code has it.  For every existing poll
    [update_poll_analytics] stores the number of participation rows as
    the unique voters, the sum of the poll's option counters as the total,
    and as the rate, capped at 100, the unique voters divided by the
    total or by 1 when the total is 0, as a percentage.  So with a
    positive total the rate is unique voters over total, and with a total
    of 0 it is 100 as soon as there is a voter, and 0 otherwise. *)
Theorem participation_rate_guarded :
  forall (s : Store) (now : datetime) (poll_id : Z) (poll : Poll.t),
    query_poll s poll_id = Some poll ->
    exists a,
      query_analytics (update_poll_analytics now poll_id s) poll_id = Some a
      /\ PollAnalytics.total_votes a = total_votes s poll_id
      /\ PollAnalytics.unique_voters a
         = Z.of_nat (List.length (voted_users_of s poll_id))
      /\ (PollAnalytics.participation_rate a
          == Qmin (inject_Z 100)
               (inject_Z (PollAnalytics.unique_voters a)
                / inject_Z (Z.max 1 (PollAnalytics.total_votes a))
                * inject_Z 100))%Q
      /\ (0 < PollAnalytics.total_votes a ->
          (PollAnalytics.participation_rate a
           == Qmin (inject_Z 100)
                (inject_Z (PollAnalytics.unique_voters a)
                 / inject_Z (PollAnalytics.total_votes a) * inject_Z 100))%Q)
      /\ (PollAnalytics.total_votes a <= 0 ->
          (PollAnalytics.participation_rate a
           == if 0 <? PollAnalytics.unique_voters a
              then inject_Z 100 else inject_Z 0)%Q)
      /\ (PollAnalytics.participation_rate a <= inject_Z 100)%Q.
Proof.
  intros s now poll_id poll Hq.
  destruct (query_analytics_updated now poll_id s poll Hq)
    as (a & Ha & Ht & Hu & Hp & _).
  exists a. split; [exact Ha|]. split; [exact Ht|]. split; [exact Hu|].
  assert (Hrate :
            (PollAnalytics.participation_rate a
             == Qmin (inject_Z 100)
                  (inject_Z (PollAnalytics.unique_voters a)
                   / inject_Z (Z.max 1 (PollAnalytics.total_votes a))
                   * inject_Z 100))%Q).
  { rewrite Hp, Ht, Hu. unfold participation_rate_of. reflexivity. }
  split; [exact Hrate|]. split; [|split].
  - intros Hpos. rewrite Hrate. rewrite Z.max_r by lia. reflexivity.
  - intros Hzero. rewrite Hrate. rewrite Z.max_l by lia.
    rewrite Hu. set (n := List.length (voted_users_of s poll_id)).
    destruct n as [|n].
    + reflexivity.
    + replace (0 <? Z.of_nat (S n)) with true
        by (symmetry; apply Z.ltb_lt; lia).
      apply Q.min_l. unfold Qle, Qdiv, Qmult, Qinv, inject_Z. simpl. lia.
  - rewrite Hp. apply Qmin_le_l.
Qed.

Lemma participation_rate_guarded_witness :
  exists a,
    query_analytics (update_poll_analytics (seconds 50) 2 voted_elsewhere) 2
    = Some a
    /\ PollAnalytics.total_votes a = total_votes voted_elsewhere 2
    /\ PollAnalytics.unique_voters a
       = Z.of_nat (List.length (voted_users_of voted_elsewhere 2))
    /\ (PollAnalytics.participation_rate a
        == Qmin (inject_Z 100)
             (inject_Z (PollAnalytics.unique_voters a)
              / inject_Z (Z.max 1 (PollAnalytics.total_votes a))
              * inject_Z 100))%Q
    /\ (0 < PollAnalytics.total_votes a ->
        (PollAnalytics.participation_rate a
         == Qmin (inject_Z 100)
              (inject_Z (PollAnalytics.unique_voters a)
               / inject_Z (PollAnalytics.total_votes a) * inject_Z 100))%Q)
    /\ (PollAnalytics.total_votes a <= 0 ->
        (PollAnalytics.participation_rate a
         == if 0 <? PollAnalytics.unique_voters a
            then inject_Z 100 else inject_Z 0)%Q)
    /\ (PollAnalytics.participation_rate a <= inject_Z 100)%Q.
Proof.
  apply (participation_rate_guarded voted_elsewhere (seconds 50) 2
           toppings_poll).
  reflexivity.
Defined.

(** The snapshot of poll 2 after the two votes for options of poll 1:
    one unique voter, a total of 0, a rate of 100. *)
Example participation_rate_without_counters :
  option_map (fun a => (PollAnalytics.unique_voters a,
                        PollAnalytics.total_votes a,
                        Qred (PollAnalytics.participation_rate a)))
    (query_analytics voted_elsewhere 2)
  = Some (1, 0, inject_Z 100)
  /\ List.length (user_votes_of voted_elsewhere 2) = 2%nat.
Proof. vm_compute. split; reflexivity. Qed.

(** Two votes of one voter on the multiple-choice poll: one unique voter,
    two votes, a rate of 50. *)
Example participation_rate_sample :
  option_map (fun a => Qred (PollAnalytics.participation_rate a))
    (query_analytics
       (snd (process_vote (seconds 40) 2 21 "U456" voted_cheese)) 2)
  = Some (inject_Z 50).
Proof. vm_compute. reflexivity. Qed.

(** ** Vote milestones *)

Lemma milestone_fired_iff app now poll_id s poll vote_count :
  query_poll s poll_id = Some poll ->
  wants_milestones s poll = true ->
  post_message_ok app (Poll.creator_id poll) = true ->
  milestone_fired app now poll_id vote_count s = (vote_count mod 5 =? 0).
Proof.
  intros Hq Hw Hdm.
  unfold milestone_fired, run, notify_vote_milestone.
  destruct (vote_count mod 5 =? 0); cbn [negb].
  2:{ reflexivity. }
  unfold bind at 1. unfold get_store. cbn [db]. rewrite Hq.
  unfold send_notification, try_except, bind, commit, commit_.
  cbn [db trace].
  unfold wants_milestones in Hw.
  destruct (get_notification_settings (Poll.creator_id poll)
              (Poll.team_id poll) s) as [settings s1].
  cbn [fst] in Hw. rewrite Hw. cbn [negb db trace].
  rewrite Hdm. reflexivity.
Qed.

Lemma crossed_by_one (prev : Z) :
  0 <= prev ->
  ((prev + 1) mod 5 = 0 <-> crossed_multiple_of_5 prev (prev + 1)).
Proof.
  intros Hp. unfold crossed_multiple_of_5. split.
  - intros Hm. exists ((prev + 1) / 5).
    pose proof (Z.div_mod (prev + 1) 5 ltac:(lia)). lia.
  - intros (k & Hk). assert (E : prev + 1 = k * 5) by lia.
    rewrite E. apply Z.mod_mul. lia.
Qed.

(** C6 fails on the code: evaluated again at the total 5 it has already
    announced, that is with 5 as the previous and as the new total, the
    milestone fires again although no multiple of 5 was crossed. *)
Lemma milestone_edge_triggered_fails : ~ milestone_edge_triggered.
Proof.
  intros H.
  destruct (H slack_up (seconds 70) 1 sample_store lunch_poll 5 5
              eq_refl eq_refl eq_refl ltac:(lia)) as [Hfire _].
  destruct (Hfire eq_refl) as (k & Hk). lia.
Qed.

(** C6, as the code has it.  [notify_vote_milestone] is level triggered:
    for an existing poll whose creator receives milestone notifications
    it notifies exactly when the total it is given is divisible by 5, and
    keeps no memory of earlier totals.  When a vote raises the total by
    one, from [prev] to [prev + 1], this is exactly when the total
    crosses a multiple of 5. *)
Theorem milestone_level_triggered :
  forall (app : App) (now : datetime) (poll_id : Z) (s : Store)
         (poll : Poll.t),
    query_poll s poll_id = Some poll ->
    wants_milestones s poll = true ->
    post_message_ok app (Poll.creator_id poll) = true ->
    (forall vote_count : Z,
        milestone_fired app now poll_id vote_count s = true
        <-> vote_count mod 5 = 0)
    /\ (forall prev : Z,
           0 <= prev ->
           (milestone_fired app now poll_id (prev + 1) s = true
            <-> crossed_multiple_of_5 prev (prev + 1))).
Proof.
  intros app now poll_id s poll Hq Hw Hdm.
  assert (Hlevel : forall vote_count : Z,
             milestone_fired app now poll_id vote_count s = true
             <-> vote_count mod 5 = 0).
  { intros vote_count.
    rewrite (milestone_fired_iff app now poll_id s poll vote_count Hq Hw Hdm).
    apply Z.eqb_eq. }
  split; [exact Hlevel|].
  intros prev Hp. rewrite Hlevel. now apply crossed_by_one.
Qed.

Lemma milestone_level_triggered_witness :
  (forall vote_count : Z,
      milestone_fired slack_up (seconds 70) 1 vote_count sample_store = true
      <-> vote_count mod 5 = 0)
  /\ (forall prev : Z,
         0 <= prev ->
         (milestone_fired slack_up (seconds 70) 1 (prev + 1) sample_store = true
          <-> crossed_multiple_of_5 prev (prev + 1))).
Proof.
  apply (milestone_level_triggered slack_up (seconds 70) 1 sample_store
           lunch_poll); reflexivity.
Defined.

(** Five voters vote in sequence on the fresh poll 1: the milestone is
    sent once, with the fifth vote, and the sixth vote sends no other. *)
Example five_voters_one_milestone :
  map (fun n => List.length (milestones_sent n)) [1; 2; 3; 4; 5; 6]%nat
  = [0; 0; 0; 0; 1; 1]%nat
  /\ milestones_sent 5
     = [Notify "U123" "Vote Milestone Reached" (MsgVoteMilestone "Lunch?" 5)].
Proof. vm_compute. split; reflexivity. Qed.

(** ** Fan-out with a failing push *)

Lemma preserves_db_bind {A B : Type} (m : M A) (k : A -> M B) :
  preserves_db m -> (forall a, preserves_db (k a)) -> preserves_db (bind m k).
Proof.
  intros Hm Hk w. unfold bind. specialize (Hm w).
  destruct (m w) as [[a|e] w']; simpl in *.
  - now rewrite Hk.
  - assumption.
Qed.

Lemma preserves_db_try_except {A : Type} (m : M A) (h : string -> M A) :
  preserves_db m -> (forall e, preserves_db (h e)) ->
  preserves_db (try_except m h).
Proof.
  intros Hm Hh w. unfold try_except. specialize (Hm w).
  destruct (m w) as [[a|e] w']; simpl in *.
  - assumption.
  - now rewrite Hh.
Qed.

Lemma preserves_db_chat_update app channel ts blocks :
  preserves_db (chat_update app channel ts blocks).
Proof.
  intros w. unfold chat_update, emit, raise.
  destruct (chat_update_ok app channel ts); reflexivity.
Qed.

Lemma preserves_db_for_each {A : Type} (l : list A) (body : A -> M unit) :
  (forall x, preserves_db (body x)) -> preserves_db (for_each l body).
Proof.
  intros Hb. induction l as [|x l IH]; simpl.
  - intros w. reflexivity.
  - apply preserves_db_bind; auto.
Qed.

(** No push, failed or not, touches the database: the fan-out cannot undo
    a committed vote. *)
Lemma update_shared_poll_messages_preserves_db app poll_id :
  preserves_db (update_shared_poll_messages app poll_id).
Proof.
  unfold update_shared_poll_messages.
  apply preserves_db_bind; [intros w; reflexivity|]. intros s.
  destruct (query_poll s poll_id) as [poll|]; [|intros w; reflexivity].
  apply preserves_db_bind.
  - destruct (truthy (Poll.message_ts poll)) as [ts|];
      [|intros w; reflexivity].
    unfold update_poll_message.
    apply preserves_db_bind; [intros w; reflexivity|]. intros s1.
    destruct (query_poll s1 poll_id); [|intros w; reflexivity].
    apply preserves_db_chat_update.
  - intros _. apply preserves_db_bind; [intros w; reflexivity|]. intros s'.
    apply preserves_db_for_each. intros share.
    destruct (truthy (PollShare.message_ts share)) as [ts|];
      [|intros w; reflexivity].
    apply preserves_db_try_except.
    + apply preserves_db_chat_update.
    + intros e w. reflexivity.
Qed.

Lemma never_raises_for_each {A : Type} (l : list A) (body : A -> M unit) :
  (forall x, never_raises (body x)) -> never_raises (for_each l body).
Proof.
  intros Hb. induction l as [|x l IH]; simpl; intros w.
  - exists tt. reflexivity.
  - unfold bind. destruct (Hb x w) as (a & Ha).
    destruct (body x w) as [[a'|e] w']; simpl in Ha; [|discriminate].
    apply IH.
Qed.

(** The loop over the shared copies never raises, whichever pushes fail:
    one failing copy does not keep the later ones from being pushed. *)
Lemma shared_copies_loop_never_raises app (s : Store) (poll : Poll.t)
    (shares : list PollShare.t) :
  never_raises
    (for_each shares
       (fun share =>
          match truthy (PollShare.message_ts share) with
          | Some ts =>
              try_except
                (chat_update app (PollShare.channel_id share) ts
                   (mkBlocks (blocks_poll (build_poll_blocks s poll))
                      (blocks_options (build_poll_blocks s poll))
                      (Some (Poll.channel_id poll, PollShare.shared_by share))))
                (fun _ =>
                   logger_error
                     ("Failed to update shared message in "
                      ++ PollShare.channel_id share))
          | None => ret tt
          end)).
Proof.
  apply never_raises_for_each. intros share w.
  destruct (truthy (PollShare.message_ts share)) as [ts|];
    [|exists tt; reflexivity].
  unfold try_except, chat_update, emit, raise, logger_error.
  destruct (chat_update_ok app (PollShare.channel_id share) ts);
    exists tt; reflexivity.
Qed.

(** C8 does not hold for the primary view.  The pushes to the shared
    copies are each guarded: when the copy in C200 fails, the vote stays
    committed, the poll's own message and the copy in C300 are updated,
    the failure is logged and the voter gets no error.  The push to the
    poll's own message is not guarded: when it fails, the vote stays
    committed, but no shared copy is updated and the voter is told that
    the vote could not be processed. *)
Theorem fan_out_primary_failure_surfaces :
  (let w :=
     snd (run (handle_vote replica_down (seconds 30) 1 10 "U456")
            sample_store) in
   user_votes (db w) = [UserVote.mk 1 "U456" 10 (seconds 30)]
   /\ total_votes (db w) 1 = 1
   /\ updated_channels (trace w) = ["C123"; "C300"]
   /\ logged (trace w) = ["Failed to update shared message in C200"]
   /\ said (trace w) = [])
  /\ (let w :=
        snd (run (handle_vote primary_down (seconds 30) 1 10 "U456")
               sample_store) in
      user_votes (db w) = [UserVote.mk 1 "U456" 10 (seconds 30)]
      /\ total_votes (db w) 1 = 1
      /\ updated_channels (trace w) = []
      /\ logged (trace w) = ["Error processing vote"]
      /\ said (trace w)
         = ["Sorry, there was an error processing your vote. Please try again."]).
Proof. vm_compute. repeat split; reflexivity. Qed.

(** * Further properties *)

(** ** Closed polls *)

Lemma find_update_first_other {A : Type} (q p : A -> bool) (f : A -> A)
    (l : list A) :
  (forall x, q (f x) = q x) ->
  (forall x, q x = true -> p x = false) ->
  find q (update_first p f l) = find q l.
Proof.
  intros Hf Hqp. induction l as [|x l IH]; simpl.
  - reflexivity.
  - destruct (p x) eqn:Ep; simpl.
    + rewrite Hf. destruct (q x) eqn:Eq; [|reflexivity].
      rewrite (Hqp x Eq) in Ep. discriminate.
    + now rewrite IH.
Qed.

Lemma end_poll_cases now poll_id user_id s :
  end_poll now poll_id user_id s = (false, s)
  \/ exists poll,
       query_poll s poll_id = Some poll
       /\ Poll.creator_id poll = user_id
       /\ end_poll now poll_id user_id s
          = (true,
             set_polls s
               (update_first (fun p => Poll.id p =? poll_id) (set_ended now)
                  (polls s))).
Proof.
  unfold end_poll. destruct (query_poll s poll_id) as [poll|] eqn:Hq; auto.
  destruct (String.eqb_spec (Poll.creator_id poll) user_id) as [E|E];
    simpl; auto.
  right. exists poll. auto.
Qed.

Lemma query_poll_after_end now poll_id s poll :
  query_poll s poll_id = Some poll ->
  query_poll
    (set_polls s
       (update_first (fun p => Poll.id p =? poll_id) (set_ended now) (polls s)))
    poll_id
  = Some (set_ended now poll).
Proof.
  intros Hq. unfold query_poll in *. simpl.
  apply find_update_first; [exact Hq|].
  simpl. apply find_some in Hq. tauto.
Qed.

Lemma query_poll_other_after_end now poll_id s q :
  q <> poll_id ->
  query_poll
    (set_polls s
       (update_first (fun p => Poll.id p =? poll_id) (set_ended now) (polls s)))
    q
  = query_poll s q.
Proof.
  intros Hne. unfold query_poll. simpl.
  apply find_update_first_other.
  - reflexivity.
  - intros x Hx. apply Z.eqb_eq in Hx. apply Z.eqb_neq. congruence.
Qed.

(** X1. Once [end_poll] has succeeded the poll reads as ended, with the
    time of the call as its end time, and every later vote on it, by
    whomever and for whatever option, is refused and changes nothing. *)
Theorem no_vote_after_end_poll :
  forall (s s' : Store) (now : datetime) (poll_id : Z) (user_id : string),
    end_poll now poll_id user_id s = (true, s') ->
    (exists poll,
        query_poll s' poll_id = Some poll
        /\ Poll.status poll = "ended"
        /\ Poll.ended_at poll = Some now
        /\ Poll.creator_id poll = user_id)
    /\ (forall (later : datetime) (option_id : Z) (voter : string),
           process_vote later poll_id option_id voter s' = (false, s')).
Proof.
  intros s s' now poll_id user_id He.
  destruct (end_poll_cases now poll_id user_id s) as [E|(poll & Hq & Hc & E)];
    rewrite E in He; [discriminate|].
  injection He as <-.
  pose proof (query_poll_after_end now poll_id s poll Hq) as Hq'.
  split.
  - exists (set_ended now poll). repeat split; auto.
  - intros later option_id voter. unfold process_vote. rewrite Hq'.
    reflexivity.
Qed.

Lemma no_vote_after_end_poll_witness :
  (exists poll,
      query_poll ended_once 1 = Some poll
      /\ Poll.status poll = "ended"
      /\ Poll.ended_at poll = Some (seconds 100)
      /\ Poll.creator_id poll = "U123")
  /\ (forall (later : datetime) (option_id : Z) (voter : string),
         process_vote later 1 option_id voter ended_once = (false, ended_once)).
Proof.
  apply (no_vote_after_end_poll voted_pizza ended_once (seconds 100) 1 "U123").
  reflexivity.
Defined.

Lemma commit_mutation_polls cached_role strip lower len m s :
  is_end_poll m = false ->
  polls (snd (commit_mutation cached_role strip lower len m s)) = polls s.
Proof.
  destruct m; cbn [commit_mutation returned snd is_end_poll]; intros Hm;
    try discriminate.
  - destruct (process_vote_cases now poll_id option_id user_id s) as [E|_].
    + now rewrite E.
    + unfold process_vote.
      destruct (query_poll s poll_id); [|reflexivity].
      destruct (negb _); [reflexivity|]. cbv zeta.
      destruct (_ && _); [reflexivity|]. cbn [snd].
      match goal with
      | |- context [update_poll_analytics now poll_id ?d] =>
          destruct (update_poll_analytics_frame now poll_id d) as (P & _);
          rewrite P
      end.
      destruct (is_some _); reflexivity.
  - now rewrite add_poll_option_raises.
  - now rewrite remove_poll_option_raises.
  - now rewrite edit_poll_option_raises.
  - now rewrite reorder_poll_options_raises.
Qed.

(** X2. The status of a poll only moves from active to ended.  Whatever
    mutation is committed, a vote, an attempt to end a poll, or an edit of
    the options, a poll that reads as ended before still exists and reads
    as ended afterwards. *)
Theorem ended_poll_stays_ended :
  forall (cached_role : string -> string -> option string)
         (strip lower : string -> string) (len : string -> nat) (s : Store)
         (m : Mutation) (poll_id : Z) (poll : Poll.t),
    query_poll s poll_id = Some poll ->
    Poll.status poll = "ended" ->
    exists poll',
      query_poll (snd (commit_mutation cached_role strip lower len m s))
        poll_id
      = Some poll'
      /\ Poll.status poll' = "ended"
      /\ Poll.id poll' = Poll.id poll
      /\ Poll.creator_id poll' = Poll.creator_id poll
      /\ Poll.created_at poll' = Poll.created_at poll.
Proof.
  intros cached_role strip lower len s m poll_id poll Hq Hs.
  destruct (is_end_poll m) eqn:Hm.
  - destruct m; try discriminate. cbn [commit_mutation returned snd].
    destruct (end_poll_cases now poll_id0 user_id s) as [E|(p0 & Hq0 & _ & E)];
      rewrite E; cbn [snd].
    + exists poll. auto.
    + destruct (Z.eq_dec poll_id poll_id0) as [->|Hne].
      * rewrite (query_poll_after_end now poll_id0 s p0 Hq0).
        rewrite Hq in Hq0. injection Hq0 as <-.
        exists (set_ended now poll). repeat split; reflexivity.
      * rewrite (query_poll_other_after_end now poll_id0 s poll_id Hne).
        exists poll. auto.
  - exists poll. unfold query_poll in *.
    rewrite (commit_mutation_polls cached_role strip lower len m s Hm). auto.
Qed.

Lemma ended_poll_stays_ended_witness :
  exists poll',
    query_poll
      (snd (commit_mutation (fun _ _ => None) (fun t => t) (fun t => t)
              String.length (EndPoll (seconds 200) 1 "U123") ended_once)) 1
    = Some poll'
    /\ Poll.status poll' = "ended"
    /\ Poll.id poll' = Poll.id (set_ended (seconds 100) lunch_poll)
    /\ Poll.creator_id poll'
       = Poll.creator_id (set_ended (seconds 100) lunch_poll)
    /\ Poll.created_at poll'
       = Poll.created_at (set_ended (seconds 100) lunch_poll).
Proof.
  apply (ended_poll_stays_ended (fun _ _ => None) (fun t => t) (fun t => t)
           String.length ended_once (EndPoll (seconds 200) 1 "U123") 1
           (set_ended (seconds 100) lunch_poll)); reflexivity.
Defined.

(** X3. A poll that is not active is frozen: a vote on it returns False,
    a call to add, remove, rename or reorder its options raises
    [UnboundLocalError], and either way the database is left exactly as
    it was, whoever asks. *)
Theorem closed_poll_is_frozen :
  forall (cached_role : string -> string -> option string)
         (strip lower : string -> string) (len : string -> nat) (s : Store)
         (m : Mutation) (poll : Poll.t),
    is_end_poll m = false ->
    query_poll s (mutation_poll m) = Some poll ->
    Poll.status poll <> "active" ->
    commit_mutation cached_role strip lower len m s
    = (match m with
       | RecordVote _ _ _ _ => Ok false
       | _ => Raise "UnboundLocalError"
       end, s).
Proof.
  intros cached_role strip lower len s m poll Hm Hq Hs.
  assert (Hb : String.eqb (Poll.status poll) "active" = false)
    by (now apply String.eqb_neq).
  destruct m; try discriminate;
    cbn [commit_mutation returned mutation_poll] in *.
  - unfold process_vote. rewrite Hq, Hb. reflexivity.
  - apply add_poll_option_raises.
  - apply remove_poll_option_raises.
  - apply edit_poll_option_raises.
  - apply reorder_poll_options_raises.
Qed.

Lemma closed_poll_is_frozen_witness :
  commit_mutation (fun _ _ => None) (fun t => t) (fun t => t) String.length
    (RecordVote (seconds 300) 1 11 "U789") ended_once
  = (Ok false, ended_once).
Proof.
  apply (closed_poll_is_frozen (fun _ _ => None) (fun t => t) (fun t => t)
           String.length ended_once (RecordVote (seconds 300) 1 11 "U789")
           (set_ended (seconds 100) lunch_poll)).
  - reflexivity.
  - reflexivity.
  - simpl. discriminate.
Defined.

(** ** The poll manager without a session *)

(** X4. As the repository stands every method of the poll manager ends in
    an [UnboundLocalError] and leaves the database exactly as it was,
    whatever its arguments and whatever the database holds: adding,
    removing, renaming and reordering options, editing the question,
    duplicating a poll, cloning it as a template and asking for the edit
    permissions.  [SessionLocal()] raises; the handlers that roll back
    and the [finally] clauses that close the session then find [db]
    unbound.  The texts that are refused before the session is asked for,
    a blank option or question and a question that is too long, end the
    same way in the [finally] clause. *)
Theorem poll_manager_always_raises :
  forall (cached_role : string -> string -> option string)
         (strip lower : string -> string) (len : string -> nat) (s : Store),
    (forall new_id poll_id option_text user_id,
        add_poll_option cached_role strip lower len new_id poll_id
          option_text user_id s
        = (Raise "UnboundLocalError", s))
    /\ (forall poll_id option_id user_id,
           remove_poll_option cached_role poll_id option_id user_id s
           = (Raise "UnboundLocalError", s))
    /\ (forall poll_id option_id new_text user_id,
           edit_poll_option cached_role strip lower len poll_id option_id
             new_text user_id s
           = (Raise "UnboundLocalError", s))
    /\ (forall poll_id option_order user_id,
           reorder_poll_options cached_role poll_id option_order user_id s
           = (Raise "UnboundLocalError", s))
    /\ (forall poll_id new_question user_id,
           edit_poll_question cached_role strip len poll_id new_question
             user_id s
           = (Raise "UnboundLocalError", s))
    /\ (forall now new_poll_id option_key poll_id new_question team_id
               channel_id creator_id copy_votes,
           duplicate_poll now new_poll_id option_key poll_id new_question
             team_id channel_id creator_id copy_votes s
           = (Raise "UnboundLocalError", s))
    /\ (forall now new_poll_id option_key poll_id team_id channel_id
               creator_id,
           clone_poll_template now new_poll_id option_key poll_id team_id
             channel_id creator_id s
           = (Raise "UnboundLocalError", s))
    /\ (forall poll_id user_id,
           get_poll_edit_permissions cached_role poll_id user_id s
           = (Raise "UnboundLocalError", s)).
Proof.
  intros cached_role strip lower len s.
  repeat match goal with |- _ /\ _ => split end; intros.
  - apply add_poll_option_raises.
  - apply remove_poll_option_raises.
  - apply edit_poll_option_raises.
  - apply reorder_poll_options_raises.
  - unfold edit_poll_question.
    destruct (len (strip new_question) =? 0)%nat; [reflexivity|].
    destruct (max_question_length <? len new_question)%nat; reflexivity.
  - reflexivity.
  - reflexivity.
  - reflexivity.
Qed.

(** X5. After no mutation, committed or not, has an option appeared,
    disappeared, moved or changed its text or its poll: the option rows
    are the same in the same order, and differ at most in their
    counters. *)
Theorem options_only_change_their_counters :
  forall (cached_role : string -> string -> option string)
         (strip lower : string -> string) (len : string -> nat) (s : Store)
         (m : Mutation),
    map option_as_created
      (poll_options (snd (commit_mutation cached_role strip lower len m s)))
    = map option_as_created (poll_options s).
Proof.
  intros cached_role strip lower len s m.
  destruct m; cbn [commit_mutation returned snd].
  - destruct (process_vote_cases now poll_id option_id user_id s) as [E|[_ O]].
    + now rewrite E.
    + rewrite O. apply map_update_first. intros o. reflexivity.
  - destruct (end_poll_options now poll_id user_id s) as [O _]. now rewrite O.
  - now rewrite add_poll_option_raises.
  - now rewrite remove_poll_option_raises.
  - now rewrite edit_poll_option_raises.
  - now rewrite reorder_poll_options_raises.
Qed.

(** ** Roles *)

Lemma find_app_not {A : Type} (p : A -> bool) (l : list A) (x : A) :
  p x = false -> find p (l ++ [x]) = find p l.
Proof.
  intros Hx. induction l as [|y l IH]; simpl.
  - now rewrite Hx.
  - destruct (p y); auto.
Qed.

Lemma find_refined_update_first {A : Type} (p q : A -> bool) (f : A -> A)
    (l : list A) (a : A) :
  (forall x, q x = true -> p x = true) ->
  find p l = Some a -> q (f a) = true ->
  find q (update_first p f l) = Some (f a).
Proof.
  intros Hqp Hf Hq. induction l as [|x l IH]; simpl in *.
  - discriminate.
  - destruct (p x) eqn:Ep.
    + injection Hf as ->. simpl. now rewrite Hq.
    + simpl. destruct (q x) eqn:Eq.
      * rewrite (Hqp x Eq) in Ep. discriminate.
      * auto.
Qed.

(** X10. Only an admin of the team can give roles, and only the three
    known ones: [set_user_role] called by anyone whose role in the team
    is not admin, or with a role other than admin, user or viewer,
    answers no and leaves the database unchanged. *)
Theorem set_user_role_needs_admin :
  forall (s : Store) (user_id team_id role assigned_by : string),
    get_user_role s assigned_by team_id <> "admin"
    \/ ~ In role ["admin"; "user"; "viewer"] ->
    set_user_role user_id team_id role assigned_by s = (Ok false, s).
Proof.
  intros s user_id team_id role assigned_by H. unfold set_user_role.
  destruct (existsb (String.eqb role) ["admin"; "user"; "viewer"]) eqn:Hr;
    [|reflexivity].
  cbn [negb]. cbv zeta.
  destruct H as [H|H].
  - apply String.eqb_neq in H. rewrite H. reflexivity.
  - exfalso. apply H. apply existsb_exists in Hr.
    destruct Hr as (x & Hx & E). apply String.eqb_eq in E. now subst.
Qed.

Lemma set_user_role_needs_admin_witness :
  set_user_role "U456" "T123" "admin" "U456" sample_store
  = (Ok false, sample_store).
Proof.
  apply (set_user_role_needs_admin sample_store "U456" "T123" "admin" "U456").
  left. simpl. discriminate.
Defined.

(** X11. A role that [set_user_role] has set is the role [get_user_role]
    reads back, provided the user's row in the team, if there is one, is
    active; the role of every other user, and of this user in every other
    team, reads as before. *)
Theorem set_user_role_round_trip :
  forall (s s' : Store) (user_id team_id role assigned_by : string),
    set_user_role user_id team_id role assigned_by s = (Ok true, s') ->
    (forall r, find (is_role_of user_id team_id) (user_roles s) = Some r ->
               UserRole.is_active r = true) ->
    get_user_role s' user_id team_id = role
    /\ In role ["admin"; "user"; "viewer"]
    /\ (forall u t, (u, t) <> (user_id, team_id) ->
                    get_user_role s' u t = get_user_role s u t).
Proof.
  intros s s' user_id team_id role assigned_by H Hact.
  unfold set_user_role in H.
  destruct (existsb (String.eqb role) ["admin"; "user"; "viewer"]) eqn:Hr;
    [|discriminate].
  cbn [negb] in H. cbv zeta in H.
  destruct (negb (String.eqb (get_user_role s assigned_by team_id) "admin"));
    [discriminate|].
  assert (Hq : forall x u t,
             (u, t) <> (user_id, team_id) ->
             String.eqb (UserRole.user_id x) u
             && String.eqb (UserRole.team_id x) t
             && UserRole.is_active x = true ->
             is_role_of user_id team_id x = false).
  { intros x u t Hne Hx. unfold is_role_of.
    apply andb_prop in Hx. destruct Hx as [Hx _].
    apply andb_prop in Hx. destruct Hx as [Hu Ht].
    apply String.eqb_eq in Hu. apply String.eqb_eq in Ht. subst.
    destruct (String.eqb_spec (UserRole.user_id x) user_id) as [E1|E1];
      [|reflexivity].
    destruct (String.eqb_spec (UserRole.team_id x) team_id) as [E2|E2];
      [|reflexivity].
    exfalso. apply Hne. congruence. }
  assert (Hin : In role ["admin"; "user"; "viewer"]).
  { apply existsb_exists in Hr. destruct Hr as (x & Hx & E).
    apply String.eqb_eq in E. now subst. }
  destruct (find (is_role_of user_id team_id) (user_roles s)) as [r|] eqn:Hf.
  - injection H as <-. unfold get_user_role. simpl. repeat split; auto.
    + rewrite (find_refined_update_first (is_role_of user_id team_id) _
                 (with_role role) (user_roles s) r); [reflexivity| |exact Hf|].
      * intros x Hx. unfold is_role_of.
        apply andb_prop in Hx. tauto.
      * pose proof (find_some _ _ Hf) as [_ Hp]. unfold is_role_of in Hp.
        simpl. rewrite Hp. simpl. now apply Hact.
    + intros u t Hne.
      rewrite find_update_first_other; [reflexivity|reflexivity|].
      intros x Hx. now apply (Hq x u t).
  - destruct (existsb _ (user_roles s)); [discriminate|].
    injection H as <-. unfold get_user_role. simpl. repeat split; auto.
    + rewrite find_app_last; [reflexivity| |].
      * destruct (find
                    (fun r => String.eqb (UserRole.user_id r) user_id
                              && String.eqb (UserRole.team_id r) team_id
                              && UserRole.is_active r)
                    (user_roles s)) as [r|] eqn:Hf'; [|reflexivity].
        apply find_some in Hf'. destruct Hf' as [Hin' Hp].
        pose proof (find_none _ _ Hf r Hin') as Hn.
        unfold is_role_of in Hn. apply andb_prop in Hp. destruct Hp as [Hp _].
        rewrite Hp in Hn. discriminate.
      * simpl. now rewrite !String.eqb_refl.
    + intros u t Hne. rewrite find_app_not; [reflexivity|].
      simpl.
      destruct (String.eqb_spec user_id u) as [E1|E1]; [|reflexivity].
      destruct (String.eqb_spec team_id t) as [E2|E2]; [|reflexivity].
      exfalso. apply Hne. congruence.
Qed.

Lemma set_user_role_round_trip_witness :
  let s' := snd (set_user_role "U456" "T123" "viewer" "U900" sample_store) in
  get_user_role s' "U456" "T123" = "viewer"
  /\ In "viewer" ["admin"; "user"; "viewer"]
  /\ (forall u t, (u, t) <> ("U456", "T123") ->
                  get_user_role s' u t = get_user_role sample_store u t).
Proof.
  apply (set_user_role_round_trip sample_store
           (snd (set_user_role "U456" "T123" "viewer" "U900" sample_store))
           "U456" "T123" "viewer" "U900").
  - reflexivity.
  - intros r Hr. vm_compute in Hr. discriminate Hr.
Defined.

(** A user whose row is switched off keeps reading as the default role
    even after an admin has set a role on that row. *)
Example set_user_role_inactive_row :
  let s :=
    set_user_roles sample_store
      (user_roles sample_store ++ [UserRole.mk "U456" "T123" "viewer" false])
  in
  fst (set_user_role "U456" "T123" "admin" "U900" s) = Ok true
  /\ get_user_role (snd (set_user_role "U456" "T123" "admin" "U900" s))
       "U456" "T123" = "user".
Proof. vm_compute. split; reflexivity. Qed.

(** ** Creating polls *)

Lemma filter_all_true {A : Type} (p : A -> bool) (l : list A) :
  (forall x, In x l -> p x = true) -> filter p l = l.
Proof.
  induction l as [|x l IH]; simpl; intros H.
  - reflexivity.
  - rewrite (H x) by auto. f_equal. apply IH. auto.
Qed.

Lemma map_snd_combine_seq {A : Type} (l : list A) (k : nat) :
  map snd (combine (seq k (List.length l)) l) = l.
Proof.
  revert k. induction l as [|x l IH]; simpl; intros k.
  - reflexivity.
  - now rewrite IH.
Qed.

Lemma filter_none {A : Type} (p : A -> bool) (l : list A) :
  (forall x, In x l -> p x = false) -> filter p l = [].
Proof.
  induction l as [|x l IH]; simpl; intros H.
  - reflexivity.
  - rewrite (H x) by auto. apply IH. auto.
Qed.

Lemma sum_vote_count_zero (l : list PollOption.t) :
  (forall o, In o l -> PollOption.vote_count o = 0) -> sum_vote_count l = 0.
Proof.
  induction l as [|x l IH]; simpl; intros H.
  - reflexivity.
  - rewrite (H x) by auto. rewrite IH by auto. reflexivity.
Qed.

Lemma options_of_appended (s : Store) (new_poll_id : Z)
    (rows : list PollOption.t) (p : Z) :
  (forall o, In o rows -> PollOption.poll_id o = new_poll_id) ->
  filter (fun o => PollOption.poll_id o =? p) (poll_options s ++ rows)
  = if p =? new_poll_id then (options_of s p ++ rows)%list
    else options_of s p.
Proof.
  intros H. unfold options_of. rewrite filter_app.
  destruct (p =? new_poll_id) eqn:E.
  - apply Z.eqb_eq in E. subst p. f_equal. apply filter_all_true.
    intros o Ho. rewrite (H o Ho). apply Z.eqb_refl.
  - rewrite (filter_none _ rows); [apply app_nil_r|].
    intros o Ho. rewrite (H o Ho). rewrite Z.eqb_sym. exact E.
Qed.

(** X12. A poll made by [create_poll] under a fresh key reads back as it
    was given: the poll row is active, not ended and not yet posted, its
    options are the given texts in the given order, numbered from 0, all
    with zero votes; every other poll, its options, and the ledger are
    untouched. *)
Theorem create_poll_round_trip :
  forall (s : Store) (now : datetime) (new_poll_id : Z)
         (option_key : nat -> Z) (question : string) (options : list string)
         (team_id channel_id user_id vote_type : string),
    query_poll s new_poll_id = None ->
    options_of s new_poll_id = [] ->
    let r :=
      create_poll now new_poll_id option_key question options team_id
        channel_id user_id vote_type s in
    fst r = new_poll_id
    /\ query_poll (snd r) new_poll_id
       = Some (Poll.mk new_poll_id question team_id channel_id user_id
                 vote_type "active" now None None)
    /\ map PollOption.text (options_of (snd r) new_poll_id) = options
    /\ map (fun o => (PollOption.order_index o, PollOption.vote_count o))
           (options_of (snd r) new_poll_id)
       = map (fun i => (Z.of_nat i, 0)) (seq 0 (List.length options))
    /\ total_votes (snd r) new_poll_id = 0
    /\ (forall p, p <> new_poll_id ->
                  query_poll (snd r) p = query_poll s p
                  /\ options_of (snd r) p = options_of s p)
    /\ user_votes (snd r) = user_votes s
    /\ voted_users (snd r) = voted_users s.
Proof.
  intros s now new_poll_id option_key question options team_id channel_id
         user_id vote_type Hfresh Hnone.
  cbv zeta. unfold create_poll. cbn [fst snd].
  set (rows := map _ (enumerate options)).
  assert (Hrows : forall o, In o rows -> PollOption.poll_id o = new_poll_id).
  { intros o Ho. unfold rows in Ho. apply in_map_iff in Ho.
    destruct Ho as (io & <- & _). reflexivity. }
  assert (Hopts : forall p,
             options_of
               (set_poll_options
                  (set_polls s
                     (polls s ++
                      [Poll.mk new_poll_id question team_id channel_id user_id
                         vote_type "active" now None None]))
                  (poll_options s ++ rows)) p
             = if p =? new_poll_id then rows else options_of s p).
  { intros p. unfold options_of at 1. simpl.
    rewrite (options_of_appended s new_poll_id rows p Hrows).
    destruct (p =? new_poll_id) eqn:E; [|reflexivity].
    apply Z.eqb_eq in E. subst p. now rewrite Hnone. }
  assert (Htexts : map PollOption.text rows = options).
  { unfold rows, enumerate. rewrite map_map. simpl.
    apply map_snd_combine_seq. }
  repeat split.
  - unfold query_poll in *. simpl. apply find_app_last; [exact Hfresh|].
    simpl. apply Z.eqb_refl.
  - rewrite Hopts, Z.eqb_refl. exact Htexts.
  - rewrite Hopts, Z.eqb_refl. unfold rows, enumerate. rewrite map_map. simpl.
    clear. generalize 0%nat. induction options as [|x l IH]; simpl; intros k.
    + reflexivity.
    + now rewrite IH.
  - unfold total_votes. rewrite Hopts, Z.eqb_refl.
    apply sum_vote_count_zero. intros o Ho. unfold rows in Ho.
    apply in_map_iff in Ho. destruct Ho as (io & <- & _). reflexivity.
  - unfold query_poll. simpl. apply find_app_not. simpl.
    apply Z.eqb_neq. congruence.
  - rewrite Hopts. apply Z.eqb_neq in H. now rewrite H.
Qed.

Lemma create_poll_round_trip_witness :
  let r :=
    create_poll (seconds 500) 3 (fun i => 40 + Z.of_nat i) "Dessert?"
      ["Cake"; "Fruit"; "Cheese"] "T123" "C123" "U456" "single" voted_pizza in
  fst r = 3
  /\ query_poll (snd r) 3
     = Some (Poll.mk 3 "Dessert?" "T123" "C123" "U456" "single" "active"
               (seconds 500) None None)
  /\ map PollOption.text (options_of (snd r) 3) = ["Cake"; "Fruit"; "Cheese"]
  /\ map (fun o => (PollOption.order_index o, PollOption.vote_count o))
         (options_of (snd r) 3)
     = map (fun i => (Z.of_nat i, 0)) (seq 0 3)
  /\ total_votes (snd r) 3 = 0
  /\ (forall p, p <> 3 ->
                query_poll (snd r) p = query_poll voted_pizza p
                /\ options_of (snd r) p = options_of voted_pizza p)
  /\ user_votes (snd r) = user_votes voted_pizza
  /\ voted_users (snd r) = voted_users voted_pizza.
Proof.
  apply (create_poll_round_trip voted_pizza (seconds 500) 3
           (fun i => 40 + Z.of_nat i) "Dessert?" ["Cake"; "Fruit"; "Cheese"]
           "T123" "C123" "U456" "single").
  - reflexivity.
  - reflexivity.
Defined.

(** ** Sharing a poll to a channel *)

Lemma share_poll_to_channel_cases app ts poll_id channel_id shared_by w :
  let m := share_poll_to_channel app ts poll_id channel_id shared_by in
  (m w = (Ok false, w)
   /\ (query_poll (db w) poll_id = None
       \/ is_poll_shared_in_channel (db w) poll_id channel_id = true))
  \/ (m w
      = (Ok false,
         mkWorld (db w) (trace w ++ [LogError "Error sharing poll to channel"]))
      /\ post_message_ok app channel_id = false)
  \/ (exists poll,
         query_poll (db w) poll_id = Some poll
         /\ is_poll_shared_in_channel (db w) poll_id channel_id = false
         /\ post_message_ok app channel_id = true
         /\ m w
            = (Ok true,
               mkWorld
                 (set_poll_shares (db w)
                    (poll_shares (db w) ++
                     [PollShare.mk poll_id channel_id (Some ts) shared_by true]))
                 (trace w
                  ++ [PostMessage channel_id ("Poll: " ++ Poll.question poll)]))).
Proof.
  cbv zeta.
  unfold share_poll_to_channel, try_except, bind, get_store.
  destruct (query_poll (db w) poll_id) as [poll|] eqn:Hq.
  2:{ left. destruct w. auto. }
  destruct (is_poll_shared_in_channel (db w) poll_id channel_id) eqn:Hs.
  { left. destruct w. auto. }
  unfold chat_postMessage.
  destruct (post_message_ok app channel_id) eqn:Hp.
  - right. right. exists poll. repeat split; auto.
  - right. left. split; [|reflexivity].
    unfold raise, logger_error, emit, ret. reflexivity.
Qed.

Lemma find_none_count {A : Type} (p : A -> bool) (l : list A) :
  find p l = None -> List.length (filter p l) = 0%nat.
Proof.
  intros H. rewrite filter_none; [reflexivity|].
  intros x Hx. exact (find_none _ _ H x Hx).
Qed.

Lemma not_shared_no_active_share s poll_id channel_id :
  is_poll_shared_in_channel s poll_id channel_id = false ->
  find (is_active_share poll_id channel_id) (poll_shares s) = None.
Proof.
  unfold is_poll_shared_in_channel. intros H.
  destruct (query_poll s poll_id) as [poll|].
  - destruct (String.eqb _ _); [discriminate|].
    destruct (find _ _); [discriminate|reflexivity].
  - destruct (find _ _); [discriminate|reflexivity].
Qed.

(** X14. A successful [share_poll_to_channel] records exactly one active
    share carrying the timestamp of the posted message; afterwards the
    poll reads as shared in that channel, with exactly one active share
    there, and every further attempt to share it to the same channel is
    refused without posting or recording anything. *)
Theorem share_poll_round_trip :
  forall (app : App) (ts : string) (poll_id : Z)
         (channel_id shared_by : string) (w w' : World),
    share_poll_to_channel app ts poll_id channel_id shared_by w
    = (Ok true, w') ->
    poll_shares (db w')
    = (poll_shares (db w)
       ++ [PollShare.mk poll_id channel_id (Some ts) shared_by true])%list
    /\ is_poll_shared_in_channel (db w') poll_id channel_id = true
    /\ count_active_shares (db w') poll_id channel_id = 1%nat
    /\ (forall (app' : App) (ts' shared_by' : string),
           share_poll_to_channel app' ts' poll_id channel_id shared_by' w'
           = (Ok false, w')).
Proof.
  intros app ts poll_id channel_id shared_by w w' H.
  destruct (share_poll_to_channel_cases app ts poll_id channel_id shared_by w)
    as [[E _]|[[E _]|(poll & Hq & Hs & Hp & E)]];
    cbv zeta in E; rewrite E in H; try discriminate.
  injection H as <-. cbn [db].
  pose proof (not_shared_no_active_share _ _ _ Hs) as Hnone.
  assert (Hrow : is_active_share poll_id channel_id
                   (PollShare.mk poll_id channel_id (Some ts) shared_by true)
                 = true).
  { unfold is_active_share. simpl.
    now rewrite Z.eqb_refl, String.eqb_refl. }
  assert (Hshared :
            is_poll_shared_in_channel
              (set_poll_shares (db w)
                 (poll_shares (db w) ++
                  [PollShare.mk poll_id channel_id (Some ts) shared_by true]))
              poll_id channel_id = true).
  { unfold is_poll_shared_in_channel. simpl.
    rewrite (find_app_last _ _ _ Hnone Hrow).
    change (query_poll (set_poll_shares (db w) _) poll_id)
      with (query_poll (db w) poll_id).
    rewrite Hq. destruct (String.eqb _ _); reflexivity. }
  repeat split.
  - exact Hshared.
  - unfold count_active_shares. simpl. rewrite filter_app, length_app.
    rewrite (find_none_count _ _ Hnone). simpl. now rewrite Hrow.
  - intros app' ts' shared_by'.
    match goal with
    | |- share_poll_to_channel _ _ _ _ _ ?w0 = _ =>
        destruct (share_poll_to_channel_cases app' ts' poll_id channel_id
                    shared_by' w0)
          as [[E' _]|[[_ _]|(poll' & _ & Hs' & _)]]
    end.
    + exact E'.
    + unfold share_poll_to_channel, try_except, bind, get_store. cbn [db].
      change (query_poll (set_poll_shares (db w) _) poll_id)
        with (query_poll (db w) poll_id).
      rewrite Hq, Hshared. reflexivity.
    + cbn [db] in Hs'. rewrite Hshared in Hs'. discriminate.
Qed.

Lemma share_poll_round_trip_witness :
  let w' :=
    snd (run (share_poll_to_channel slack_up "555.5" 2 "C200" "U456")
           sample_store) in
  poll_shares (db w')
  = (poll_shares sample_store
     ++ [PollShare.mk 2 "C200" (Some "555.5") "U456" true])%list
  /\ is_poll_shared_in_channel (db w') 2 "C200" = true
  /\ count_active_shares (db w') 2 "C200" = 1%nat
  /\ (forall (app' : App) (ts' shared_by' : string),
         share_poll_to_channel app' ts' 2 "C200" shared_by' w'
         = (Ok false, w')).
Proof.
  apply (share_poll_round_trip slack_up "555.5" 2 "C200" "U456"
           (mkWorld sample_store [])
           (snd (run (share_poll_to_channel slack_up "555.5" 2 "C200" "U456")
                   sample_store))).
  reflexivity.
Defined.

(** X15. [share_poll_to_channel] never raises, and when it answers no it
    has recorded nothing: a missing poll, the poll's own channel, a
    channel with an active share and a post that Slack refuses all leave
    the database as it was. *)
Theorem share_poll_failure_records_nothing :
  forall (app : App) (ts : string) (poll_id : Z)
         (channel_id shared_by : string) (w : World),
    let r := share_poll_to_channel app ts poll_id channel_id shared_by w in
    (exists b, fst r = Ok b)
    /\ (fst r = Ok false -> db (snd r) = db w)
    /\ (post_message_ok app channel_id = false -> fst r = Ok false)
    /\ (forall poll,
           query_poll (db w) poll_id = Some poll ->
           Poll.channel_id poll = channel_id ->
           r = (Ok false, w)).
Proof.
  intros app ts poll_id channel_id shared_by w. cbv zeta.
  destruct (share_poll_to_channel_cases app ts poll_id channel_id shared_by w)
    as [[E Hwhy]|[[E Hp]|(poll & Hq & Hs & Hp & E)]];
    cbv zeta in E; rewrite E; cbn [fst snd db].
  - repeat split; eauto.
  - repeat split; eauto.
    intros poll Hq Hc. exfalso.
    unfold share_poll_to_channel, try_except, bind, get_store in E.
    rewrite Hq in E. unfold is_poll_shared_in_channel in E.
    rewrite Hq, Hc, String.eqb_refl in E. unfold ret in E.
    destruct w as [s0 t0]. cbn [db trace] in E.
    injection E as Ht. apply (f_equal (@List.length Call)) in Ht.
    rewrite length_app in Ht. simpl in Ht. lia.
  - repeat split; eauto.
    + discriminate.
    + intros Hp'. rewrite Hp in Hp'. discriminate.
    + intros poll' Hq' Hc. exfalso.
      unfold is_poll_shared_in_channel in Hs.
      rewrite Hq', Hc, String.eqb_refl in Hs. discriminate.
Qed.

(** X16. [share_poll_to_channel] keeps the active shares unique: if no
    poll has more than one active share in any channel, the same holds
    after the call, whatever it was asked to share. *)
Theorem shares_stay_unique :
  forall (app : App) (ts : string) (poll_id : Z)
         (channel_id shared_by : string) (w : World),
    (forall p c, (count_active_shares (db w) p c <= 1)%nat) ->
    forall p c,
      (count_active_shares
         (db (snd (share_poll_to_channel app ts poll_id channel_id shared_by
                     w))) p c <= 1)%nat.
Proof.
  intros app ts poll_id channel_id shared_by w Hu p c.
  destruct (share_poll_to_channel_cases app ts poll_id channel_id shared_by w)
    as [[E _]|[[E _]|(poll & Hq & Hs & Hp & E)]];
    cbv zeta in E; rewrite E; cbn [snd db]; auto.
  unfold count_active_shares in *. simpl. rewrite filter_app, length_app.
  simpl.
  destruct (is_active_share p c
              (PollShare.mk poll_id channel_id (Some ts) shared_by true))
    eqn:Hrow.
  - unfold is_active_share in Hrow. simpl in Hrow.
    apply andb_prop in Hrow. destruct Hrow as [Hrow _].
    apply andb_prop in Hrow. destruct Hrow as [H1 H2].
    apply Z.eqb_eq in H1. apply String.eqb_eq in H2. subst p c.
    rewrite (find_none_count _ _ (not_shared_no_active_share _ _ _ Hs)).
    simpl. lia.
  - simpl. specialize (Hu p c). lia.
Qed.

Lemma shares_stay_unique_witness :
  (count_active_shares
     (db (snd (share_poll_to_channel slack_up "555.5" 1 "C400" "U456"
                 (mkWorld sample_store [])))) 1 "C400" <= 1)%nat.
Proof.
  apply (shares_stay_unique slack_up "555.5" 1 "C400" "U456"
           (mkWorld sample_store [])).
  intros p c. unfold count_active_shares.
  change (poll_shares (db (mkWorld sample_store [])))
    with [PollShare.mk 1 "C200" (Some "333.3") "U123" true;
          PollShare.mk 1 "C300" (Some "444.4") "U123" true].
  unfold filter, is_active_share.
  cbn [PollShare.poll_id PollShare.channel_id PollShare.is_active].
  destruct (1 =? p);
    destruct (String.eqb_spec "C200" c) as [E1|E1];
    destruct (String.eqb_spec "C300" c) as [E2|E2];
    cbn [andb List.length]; try lia.
  subst c. discriminate E2.
Defined.

(** ** Recounting the votes of a poll *)

(** X17. [bulk_update_vote_counts] repairs the counters of a poll: after
    it every option of the poll carries the number of ledger rows that
    point at it, whatever it carried before; options of other polls, and
    ids, texts and order of all options, and the ledger are not touched.
    So a database whose other options were consistent is consistent
    afterwards, and on a consistent database the recount changes
    nothing. *)
Theorem bulk_update_restores_counters :
  forall (poll_id : Z) (s : Store),
    let s' := bulk_update_vote_counts poll_id s in
    Forall (fun o => PollOption.vote_count o
                     = votes_for_option s' (PollOption.id o))
           (options_of s' poll_id)
    /\ (forall q, q <> poll_id -> options_of s' q = options_of s q)
    /\ map (fun o => (PollOption.id o, PollOption.poll_id o,
                      PollOption.text o, PollOption.order_index o))
           (poll_options s')
       = map (fun o => (PollOption.id o, PollOption.poll_id o,
                        PollOption.text o, PollOption.order_index o))
             (poll_options s)
    /\ user_votes s' = user_votes s
    /\ (Forall (fun o => PollOption.poll_id o <> poll_id ->
                         PollOption.vote_count o
                         = votes_for_option s (PollOption.id o))
               (poll_options s) ->
        counters_consistent s')
    /\ (counters_consistent s -> s' = s).
Proof.
  intros poll_id s. cbv zeta. unfold bulk_update_vote_counts.
  repeat split.
  - unfold options_of. simpl. apply Forall_forall. intros o Ho.
    apply filter_In in Ho. destruct Ho as [Ho Hp].
    apply in_map_iff in Ho. destruct Ho as (o0 & <- & _).
    destruct (PollOption.poll_id o0 =? poll_id) eqn:E.
    + reflexivity.
    + rewrite E in Hp. discriminate.
  - intros q Hq. unfold options_of. simpl.
    induction (poll_options s) as [|o l IH]; simpl.
    + reflexivity.
    + destruct (PollOption.poll_id o =? poll_id) eqn:E; simpl.
      * apply Z.eqb_eq in E.
        replace (PollOption.poll_id o =? q) with false
          by (symmetry; apply Z.eqb_neq; congruence).
        exact IH.
      * destruct (PollOption.poll_id o =? q); [f_equal|]; exact IH.
  - simpl. rewrite map_map. apply map_ext. intros o.
    destruct (PollOption.poll_id o =? poll_id); reflexivity.
  - intros H. unfold counters_consistent. simpl.
    apply Forall_forall. intros o Ho.
    apply in_map_iff in Ho. destruct Ho as (o0 & <- & Ho0).
    rewrite Forall_forall in H.
    destruct (PollOption.poll_id o0 =? poll_id) eqn:E.
    + reflexivity.
    + apply (H o0 Ho0). now apply Z.eqb_neq.
  - intros Hc. unfold counters_consistent in Hc.
    assert (E : map (fun o =>
                       if PollOption.poll_id o =? poll_id
                       then set_vote_count
                              (votes_for_option s (PollOption.id o)) o
                       else o) (poll_options s)
                = poll_options s).
    { induction Hc as [|o l Ho Hl IH]; simpl.
      - reflexivity.
      - rewrite IH. f_equal.
        destruct (PollOption.poll_id o =? poll_id); [|reflexivity].
        rewrite <- Ho. destruct o. reflexivity. }
    rewrite E. destruct s. reflexivity.
Qed.

(** ** Bounds of the analytics snapshot *)

Lemma bump_keys {K : Type} (eqb : K -> K -> bool) (k : K)
    (counts : list (K * Z)) :
  (forall a b, eqb a b = true -> a = b) ->
  forall k', In k' (map fst (bump eqb k counts)) ->
             In k' (map fst counts) \/ k' = k.
Proof.
  intros Heq. induction counts as [|[k0 c] r IH]; simpl; intros k' H.
  - destruct H as [<-|[]]. now right.
  - destruct (eqb k k0) eqn:E; simpl in H.
    + left. exact H.
    + destruct H as [<-|H]; [left; now left|].
      destruct (IH k' H) as [H'|H']; [left; now right|now right].
Qed.

Lemma count_by_keys {A K : Type} (eqb : K -> K -> bool) (key : A -> K)
    (l : list A) :
  (forall a b, eqb a b = true -> a = b) ->
  forall acc k,
    In k (map fst (fold_left (fun counts x => bump eqb (key x) counts) l acc)) ->
    In k (map fst acc) \/ In k (map key l).
Proof.
  intros Heq. induction l as [|x l IH]; simpl; intros acc k H.
  - now left.
  - destruct (IH _ _ H) as [H'|H'].
    + destruct (bump_keys eqb (key x) acc Heq k H') as [H''|H''].
      * now left.
      * right. left. now symmetry.
    + right. now right.
Qed.

Lemma bump_not_nil {K : Type} (eqb : K -> K -> bool) (k : K)
    (counts : list (K * Z)) :
  bump eqb k counts <> [].
Proof.
  destruct counts as [|[k0 c] r]; simpl; [discriminate|].
  destruct (eqb k k0); discriminate.
Qed.

Lemma fold_bump_not_nil {A K : Type} (eqb : K -> K -> bool) (key : A -> K)
    (l : list A) :
  forall acc,
    acc <> [] \/ l <> [] ->
    fold_left (fun counts x => bump eqb (key x) counts) l acc <> [].
Proof.
  induction l as [|x l IH]; simpl; intros acc H.
  - destruct H as [H|H]; [exact H|congruence].
  - apply IH. left. apply bump_not_nil.
Qed.

Lemma fold_best_in (r : list (Z * Z)) (kc : Z * Z) :
  In (fold_left (fun best x => if snd best <? snd x then x else best) r kc)
     (kc :: r).
Proof.
  revert kc. induction r as [|x r IH]; simpl; intros kc.
  - now left.
  - destruct (IH (if snd kc <? snd x then x else kc)) as [H|H].
    + destruct (snd kc <? snd x); rewrite <- H; auto.
    + right. now right.
Qed.

Lemma max_key_in (counts : list (Z * Z)) (k : Z) :
  max_key counts = Some k -> In k (map fst counts).
Proof.
  destruct counts as [|kc r]; simpl; [discriminate|].
  intros H. injection H as <-.
  apply (in_map fst (kc :: r)). apply fold_best_in.
Qed.

Lemma peak_voting_hour_spec (votes : list UserVote.t) :
  match peak_voting_hour_of votes with
  | None => votes = []
  | Some h =>
      0 <= h < 24
      /\ exists v, In v votes /\ hour_of (UserVote.voted_at v) = h
  end.
Proof.
  unfold peak_voting_hour_of.
  destruct (max_key (count_by Z.eqb (fun v => hour_of (UserVote.voted_at v))
                       votes)) as [h|] eqn:E.
  - apply max_key_in in E. unfold count_by in E.
    apply count_by_keys in E; [|intros a b; apply Z.eqb_eq].
    destruct E as [[]|E]. apply in_map_iff in E.
    destruct E as (v & Hv & Hin). split; [|eauto].
    rewrite <- Hv. unfold hour_of. apply Z.mod_pos_bound. lia.
  - destruct votes as [|v votes]; [reflexivity|].
    exfalso. unfold max_key, count_by in E.
    destruct (fold_left _ (v :: votes) []) eqn:F; [|discriminate].
    revert F. apply fold_bump_not_nil. right. discriminate.
Qed.

Lemma participation_rate_bounds (unique_voters total : Z) :
  0 <= unique_voters ->
  (inject_Z 0 <= participation_rate_of unique_voters total
   /\ participation_rate_of unique_voters total <= inject_Z 100)%Q.
Proof.
  intros Hu. unfold participation_rate_of. split.
  - apply Q.min_glb.
    + unfold Qle. simpl. lia.
    + apply Qmult_le_0_compat.
      * unfold Qdiv. apply Qmult_le_0_compat.
        -- unfold Qle. simpl. lia.
        -- apply Qinv_le_0_compat. unfold Qle. simpl. lia.
      * unfold Qle. simpl. lia.
  - apply Q.le_min_l.
Qed.

(** X18. The snapshot [update_poll_analytics] stores for an existing poll
    is within bounds whatever the database holds: the participation rate
    lies between 0 and 100, the number of unique voters is not negative,
    and the peak voting hour is absent exactly when the poll has no
    ledger row and otherwise is an hour from 0 to 23 at which some ledger
    row of the poll was cast. *)
Theorem analytics_snapshot_bounds :
  forall (s : Store) (now : datetime) (poll_id : Z) (poll : Poll.t),
    query_poll s poll_id = Some poll ->
    exists a,
      query_analytics (update_poll_analytics now poll_id s) poll_id = Some a
      /\ (inject_Z 0 <= PollAnalytics.participation_rate a)%Q
      /\ (PollAnalytics.participation_rate a <= inject_Z 100)%Q
      /\ 0 <= PollAnalytics.unique_voters a
      /\ match PollAnalytics.peak_voting_hour a with
         | None => user_votes_of s poll_id = []
         | Some h =>
             0 <= h < 24
             /\ exists v, In v (user_votes_of s poll_id)
                          /\ hour_of (UserVote.voted_at v) = h
         end.
Proof.
  intros s now poll_id poll Hq.
  destruct (query_analytics_updated now poll_id s poll Hq)
    as (a & Ha & _ & Hu & Hp & _ & Hk & _).
  exists a. split; [exact Ha|].
  destruct (participation_rate_bounds
              (Z.of_nat (List.length (voted_users_of s poll_id)))
              (total_votes s poll_id) ltac:(lia)) as [H0 H100].
  rewrite Hp, Hu, Hk. repeat split; auto; try lia.
  apply peak_voting_hour_spec.
Qed.

Lemma analytics_snapshot_bounds_witness :
  exists a,
    query_analytics (update_poll_analytics (seconds 130) 1 voted_late) 1
    = Some a
    /\ (inject_Z 0 <= PollAnalytics.participation_rate a)%Q
    /\ (PollAnalytics.participation_rate a <= inject_Z 100)%Q
    /\ 0 <= PollAnalytics.unique_voters a
    /\ match PollAnalytics.peak_voting_hour a with
       | None => user_votes_of voted_late 1 = []
       | Some h =>
           0 <= h < 24
           /\ exists v, In v (user_votes_of voted_late 1)
                        /\ hour_of (UserVote.voted_at v) = h
       end.
Proof.
  apply (analytics_snapshot_bounds voted_late (seconds 130) 1 lunch_poll).
  reflexivity.
Defined.

(** ** Hourly activity *)

Lemma bump_sum {K : Type} (eqb : K -> K -> bool) (k : K)
    (counts : list (K * Z)) :
  fold_right Z.add 0 (map snd (bump eqb k counts))
  = fold_right Z.add 0 (map snd counts) + 1.
Proof.
  induction counts as [|[k0 c] r IH]; simpl.
  - reflexivity.
  - destruct (eqb k k0); simpl; [|rewrite IH]; lia.
Qed.

Lemma count_by_sum {A K : Type} (eqb : K -> K -> bool) (key : A -> K)
    (l : list A) :
  forall acc,
    fold_right Z.add 0
      (map snd (fold_left (fun counts x => bump eqb (key x) counts) l acc))
    = fold_right Z.add 0 (map snd acc) + Z.of_nat (List.length l).
Proof.
  induction l as [|x l IH]; intros acc.
  - simpl. lia.
  - cbn [fold_left List.length]. rewrite IH, bump_sum. lia.
Qed.

Lemma bump_positive {K : Type} (eqb : K -> K -> bool) (k : K)
    (counts : list (K * Z)) :
  Forall (fun kc => 1 <= snd kc) counts ->
  Forall (fun kc => 1 <= snd kc) (bump eqb k counts).
Proof.
  induction 1 as [|[k0 c] r Hc Hr IH]; simpl.
  - repeat constructor. simpl. lia.
  - destruct (eqb k k0); constructor; simpl in *; auto; lia.
Qed.

Lemma count_by_positive {A K : Type} (eqb : K -> K -> bool) (key : A -> K)
    (l : list A) :
  forall acc,
    Forall (fun kc => 1 <= snd kc) acc ->
    Forall (fun kc => 1 <= snd kc)
           (fold_left (fun counts x => bump eqb (key x) counts) l acc).
Proof.
  induction l as [|x l IH]; simpl; intros acc H.
  - exact H.
  - apply IH. now apply bump_positive.
Qed.

Lemma pair_eqb_eq (a b : Z * Z) : pair_eqb a b = true -> a = b.
Proof.
  destruct a, b. unfold pair_eqb. simpl. intros H.
  apply andb_prop in H. destruct H as [H1 H2].
  apply Z.eqb_eq in H1. apply Z.eqb_eq in H2. congruence.
Qed.

Lemma filter_other_key {A : Type} (key : A -> Z) (p q : Z) (l : list A) :
  q <> p ->
  filter (fun a => key a =? q) (filter (fun a => negb (key a =? p)) l)
  = filter (fun a => key a =? q) l.
Proof.
  intros Hne. induction l as [|a l IH]; simpl.
  - reflexivity.
  - destruct (key a =? p) eqn:E; simpl.
    + apply Z.eqb_eq in E.
      replace (key a =? q) with false
        by (symmetry; apply Z.eqb_neq; congruence).
      exact IH.
    + destruct (key a =? q); [f_equal|]; exact IH.
Qed.

(** X19. After [update_vote_activity] the hourly activity rows of an
    existing poll add up to the number of its ledger rows; each holds at
    least one vote, an hour from 0 to 23 and the midnight of a day; the
    rows of the other polls are as before. *)
Theorem vote_activity_matches_ledger :
  forall (s : Store) (poll_id : Z) (poll : Poll.t),
    query_poll s poll_id = Some poll ->
    let s' := update_vote_activity poll_id s in
    activity_total s' poll_id
    = Z.of_nat (List.length (user_votes_of s poll_id))
    /\ Forall (fun a => 1 <= VoteActivity.vote_count a
                        /\ 0 <= VoteActivity.hour a < 24
                        /\ exists v,
                             In v (user_votes_of s poll_id)
                             /\ VoteActivity.hour a
                                = hour_of (UserVote.voted_at v)
                             /\ VoteActivity.date a
                                = midnight_of (date_of (UserVote.voted_at v)))
              (activity_of s' poll_id)
    /\ (forall q, q <> poll_id -> activity_of s' q = activity_of s q).
Proof.
  intros s poll_id poll Hq. cbv zeta.
  unfold update_vote_activity. rewrite Hq.
  set (counts := count_by pair_eqb _ (user_votes_of s poll_id)).
  set (rows := map _ counts).
  assert (Hrows : forall a, In a rows -> VoteActivity.poll_id a = poll_id).
  { intros a Ha. unfold rows in Ha. apply in_map_iff in Ha.
    destruct Ha as (kc & <- & _). reflexivity. }
  assert (Hact : activity_of
                   (set_vote_activity s
                      (filter (fun a => negb (VoteActivity.poll_id a =? poll_id))
                         (vote_activity s) ++ rows)) poll_id
                 = rows).
  { unfold activity_of. simpl. rewrite filter_app.
    rewrite filter_none.
    - simpl. apply filter_all_true. intros a Ha.
      rewrite (Hrows a Ha). apply Z.eqb_refl.
    - intros a Ha. apply filter_In in Ha. destruct Ha as [_ Ha].
      now apply negb_true_iff in Ha. }
  repeat split.
  - unfold activity_total. rewrite Hact. unfold rows. rewrite map_map. simpl.
    unfold counts, count_by.
    rewrite <- (map_map snd (fun c => c)), map_id.
    rewrite count_by_sum. simpl. lia.
  - rewrite Hact. apply Forall_forall. intros a Ha. unfold rows in Ha.
    apply in_map_iff in Ha. destruct Ha as ([[h d] c] & <- & Hin). simpl.
    assert (Hpos : Forall (fun kc : Z * Z * Z => 1 <= snd kc) counts).
    { unfold counts, count_by. apply count_by_positive. constructor. }
    rewrite Forall_forall in Hpos. specialize (Hpos _ Hin). simpl in Hpos.
    assert (Hkey : In (h, d) (map fst counts))
      by (apply in_map_iff; exists (h, d, c); auto).
    unfold counts, count_by in Hkey.
    apply count_by_keys in Hkey; [|apply pair_eqb_eq].
    destruct Hkey as [[]|Hkey]. apply in_map_iff in Hkey.
    destruct Hkey as (v & Hv & Hvin). injection Hv as Hh Hd.
    split; [exact Hpos|]. split.
    + rewrite <- Hh. unfold hour_of. apply Z.mod_pos_bound. lia.
    + exists v. rewrite Hh, Hd. auto.
  - intros q Hne. unfold activity_of. simpl. rewrite filter_app.
    rewrite (filter_none _ rows).
    + rewrite app_nil_r. now apply filter_other_key.
    + intros a Ha. rewrite (Hrows a Ha). apply Z.eqb_neq. congruence.
Qed.

Lemma vote_activity_matches_ledger_witness :
  let s' := update_vote_activity 1 voted_late in
  activity_total s' 1 = Z.of_nat (List.length (user_votes_of voted_late 1))
  /\ Forall (fun a => 1 <= VoteActivity.vote_count a
                      /\ 0 <= VoteActivity.hour a < 24
                      /\ exists v,
                           In v (user_votes_of voted_late 1)
                           /\ VoteActivity.hour a
                              = hour_of (UserVote.voted_at v)
                           /\ VoteActivity.date a
                              = midnight_of (date_of (UserVote.voted_at v)))
            (activity_of s' 1)
  /\ (forall q, q <> 1 -> activity_of s' q = activity_of voted_late q).
Proof.
  apply (vote_activity_matches_ledger voted_late 1 lunch_poll).
  reflexivity.
Defined.

(** ** Recomputing the analytics twice *)

Lemma update_first_idempotent {A : Type} (p : A -> bool) (f : A -> A)
    (l : list A) :
  (forall x, p x = true -> p (f x) = true) ->
  (forall x, f (f x) = f x) ->
  update_first p f (update_first p f l) = update_first p f l.
Proof.
  intros Hp Hf. induction l as [|x l IH]; simpl.
  - reflexivity.
  - destruct (p x) eqn:E; simpl.
    + rewrite (Hp x E), Hf. reflexivity.
    + rewrite E, IH. reflexivity.
Qed.

Lemma update_first_app_none {A : Type} (p : A -> bool) (f : A -> A)
    (l : list A) (x : A) :
  find p l = None -> p x = true ->
  update_first p f (l ++ [x]) = (l ++ [f x])%list.
Proof.
  intros Hn Hx. induction l as [|y l IH]; simpl in *.
  - now rewrite Hx.
  - destruct (p y); [discriminate|]. now rewrite IH.
Qed.

Lemma filter_update_first_length {A : Type} (p : A -> bool) (f : A -> A)
    (l : list A) :
  (forall x, p (f x) = p x) ->
  List.length (filter p (update_first p f l)) = List.length (filter p l).
Proof.
  intros Hp. induction l as [|x l IH]; simpl.
  - reflexivity.
  - destruct (p x) eqn:E; simpl.
    + now rewrite Hp, E.
    + now rewrite E, IH.
Qed.

Lemma filter_filter_same {A : Type} (p : A -> bool) (l : list A) :
  filter p (filter p l) = filter p l.
Proof.
  apply filter_all_true. intros x Hx. apply filter_In in Hx. tauto.
Qed.

Lemma update_vote_activity_idempotent poll_id s :
  update_vote_activity poll_id (update_vote_activity poll_id s)
  = update_vote_activity poll_id s.
Proof.
  unfold update_vote_activity at 2.
  destruct (query_poll s poll_id) as [poll|] eqn:Hq.
  2:{ unfold update_vote_activity. now rewrite Hq. }
  set (rows := map _ (count_by pair_eqb _ (user_votes_of s poll_id))).
  unfold update_vote_activity.
  change (query_poll (set_vote_activity s _) poll_id)
    with (query_poll s poll_id).
  rewrite Hq.
  change (user_votes_of (set_vote_activity s _) poll_id)
    with (user_votes_of s poll_id).
  fold rows. simpl. unfold set_vote_activity. simpl. f_equal.
  rewrite filter_app, filter_filter_same.
  rewrite (filter_none _ rows); [now rewrite app_nil_r|].
  intros a Ha. unfold rows in Ha. apply in_map_iff in Ha.
  destruct Ha as (kc & <- & _). simpl. now rewrite Z.eqb_refl.
Qed.

Lemma set_poll_analytics_same s :
  set_poll_analytics s (poll_analytics s) = s.
Proof. destruct s. reflexivity. Qed.

(** X20. Recomputing the analytics of a poll is idempotent and never
    duplicates the snapshot: a second [update_poll_analytics] at the same
    clock reading leaves the database exactly as the first one did, and
    after a recompute an existing poll has as many snapshot rows as
    before, or one if it had none. *)
Theorem update_poll_analytics_idempotent :
  forall (s : Store) (now : datetime) (poll_id : Z),
    update_poll_analytics now poll_id (update_poll_analytics now poll_id s)
    = update_poll_analytics now poll_id s
    /\ (query_poll s poll_id <> None ->
        List.length
          (filter (fun a => PollAnalytics.poll_id a =? poll_id)
             (poll_analytics (update_poll_analytics now poll_id s)))
        = Nat.max 1
            (List.length
               (filter (fun a => PollAnalytics.poll_id a =? poll_id)
                  (poll_analytics s)))).
Proof.
  intros s now poll_id.
  destruct (query_poll s poll_id) as [poll|] eqn:Hq.
  2:{ split; [|congruence].
      unfold update_poll_analytics. rewrite Hq. now rewrite Hq. }
  destruct (update_poll_analytics_frame now poll_id s) as (P & O & V & U).
  set (s1 := update_poll_analytics now poll_id s) in *.
  assert (Hq1 : query_poll s1 poll_id = Some poll)
    by (unfold query_poll in *; now rewrite P).
  assert (Ht : total_votes s1 poll_id = total_votes s poll_id)
    by (unfold total_votes, options_of; now rewrite O).
  assert (Hv : voted_users_of s1 poll_id = voted_users_of s poll_id)
    by (unfold voted_users_of; now rewrite V).
  assert (Hu : user_votes_of s1 poll_id = user_votes_of s poll_id)
    by (unfold user_votes_of; now rewrite U).
  set (is_row := fun a => PollAnalytics.poll_id a =? poll_id).
  set (F := fun a =>
              PollAnalytics.mk (PollAnalytics.poll_id a)
                (total_votes s poll_id)
                (Z.of_nat (List.length (voted_users_of s poll_id)))
                (participation_rate_of
                   (Z.of_nat (List.length (voted_users_of s poll_id)))
                   (total_votes s poll_id))
                (avg_response_time_of poll (user_votes_of s poll_id))
                (peak_voting_hour_of (user_votes_of s poll_id))
                (PollAnalytics.created_at a) now).
  set (new := PollAnalytics.mk poll_id (total_votes s poll_id)
                (Z.of_nat (List.length (voted_users_of s poll_id)))
                (participation_rate_of
                   (Z.of_nat (List.length (voted_users_of s poll_id)))
                   (total_votes s poll_id))
                (avg_response_time_of poll (user_votes_of s poll_id))
                (peak_voting_hour_of (user_votes_of s poll_id)) now now).
  set (A1 := match find is_row (poll_analytics s) with
             | Some _ => update_first is_row F (poll_analytics s)
             | None => (poll_analytics s ++ [new])%list
             end).
  assert (Hs1 : s1 = update_vote_activity poll_id (set_poll_analytics s A1)).
  { unfold s1, update_poll_analytics. rewrite Hq. cbv zeta.
    fold is_row. fold F. fold new. unfold A1.
    destruct (find is_row (poll_analytics s)); reflexivity. }
  assert (HA1 : poll_analytics s1 = A1).
  { rewrite Hs1.
    destruct (update_vote_activity_frame poll_id (set_poll_analytics s A1))
      as (_ & _ & _ & _ & A). rewrite A. reflexivity. }
  assert (Hfind : exists a, find is_row A1 = Some a /\ update_first is_row F A1 = A1).
  { unfold A1.
    destruct (find is_row (poll_analytics s)) as [a0|] eqn:Hf.
    - exists (F a0). split.
      + apply find_update_first; [exact Hf|].
        apply find_some in Hf. destruct Hf as [_ Hf]. exact Hf.
      + apply update_first_idempotent; [|reflexivity].
        intros x Hx. exact Hx.
    - exists new. split.
      + apply find_app_last; [exact Hf|]. unfold is_row, new. simpl.
        apply Z.eqb_refl.
      + rewrite update_first_app_none; [reflexivity|exact Hf|].
        unfold is_row, new. simpl. apply Z.eqb_refl. }
  destruct Hfind as (a1 & Hfa & Hfix).
  split.
  - unfold update_poll_analytics at 1. rewrite Hq1. cbv zeta.
    rewrite Ht, Hv, Hu. fold is_row. fold F. rewrite HA1, Hfa, Hfix.
    rewrite <- HA1, set_poll_analytics_same.
    rewrite Hs1. apply update_vote_activity_idempotent.
  - intros _. rewrite HA1. fold is_row. unfold A1.
    destruct (find is_row (poll_analytics s)) as [a0|] eqn:Hf.
    + rewrite filter_update_first_length by reflexivity.
      assert (1 <= List.length (filter is_row (poll_analytics s)))%nat.
      { apply find_some in Hf. destruct Hf as [Hin Hp].
        assert (Hin' : In a0 (filter is_row (poll_analytics s)))
          by (apply filter_In; auto).
        destruct (filter is_row (poll_analytics s)); [destruct Hin'|].
        simpl. lia. }
      lia.
    + rewrite filter_app, length_app, (find_none_count _ _ Hf). simpl.
      unfold is_row at 1, new. simpl. rewrite Z.eqb_refl. reflexivity.
Qed.

(** ** Notifications and replies *)

(** X21. [send_notification] never raises and, for each of the six
    notification types a user can switch, obeys the user's settings, which
    it creates with their defaults when the user has none.  When the type
    is switched off it stores nothing and sends nothing.  When it is on,
    exactly one notification row is stored and the direct message is
    sent; if Slack refuses the message the row is stored all the same and
    the failure is logged.  Polls, options and the ledger are never
    touched. *)
Theorem send_notification_obeys_settings :
  forall (app : App) (now : datetime)
         (user_id team_id notification_type title : string)
         (message : Message) (poll_id : option Z) (w : World),
    In notification_type notification_switches ->
    let r :=
      send_notification app now user_id team_id notification_type title
        message poll_id w in
    let settings := get_notification_settings user_id team_id (db w) in
    fst r = Ok tt
    /\ notification_settings (db (snd r)) = notification_settings (snd settings)
    /\ (if notification_enabled (fst settings) notification_type
        then
          notifications (db (snd r))
          = (notifications (db w)
             ++ [Notification.mk user_id team_id poll_id notification_type
                   title message now])%list
          /\ trace (snd r)
             = (trace w
                ++ [if post_message_ok app user_id
                    then Notify user_id title message
                    else LogError "Failed to send DM notification"])%list
        else
          notifications (db (snd r)) = notifications (db w)
          /\ trace (snd r) = trace w)
    /\ polls (db (snd r)) = polls (db w)
    /\ poll_options (db (snd r)) = poll_options (db w)
    /\ user_votes (db (snd r)) = user_votes (db w)
    /\ voted_users (db (snd r)) = voted_users (db w).
Proof.
  intros app now user_id team_id notification_type title message poll_id w
         Hswitch.
  cbv zeta.
  unfold send_notification, try_except, bind, commit, commit_.
  assert (Hframe :
            let st := snd (get_notification_settings user_id team_id (db w)) in
            notifications st = notifications (db w)
            /\ polls st = polls (db w)
            /\ poll_options st = poll_options (db w)
            /\ user_votes st = user_votes (db w)
            /\ voted_users st = voted_users (db w)).
  { unfold get_notification_settings. destruct (find _ _); simpl; auto. }
  destruct (get_notification_settings user_id team_id (db w))
    as [settings s1] eqn:Hg.
  cbn [fst snd db trace] in *. destruct Hframe as (N & P & O & U & V).
  destruct (notification_enabled settings notification_type); cbn [negb].
  - cbn [db trace]. unfold raise, emit, logger_error.
    destruct (post_message_ok app user_id); cbn [fst snd db trace];
      rewrite N; repeat split; auto.
  - unfold ret. cbn [fst snd db trace]. repeat split; auto.
Qed.

Lemma send_notification_obeys_settings_witness :
  let w := mkWorld voted_pizza [] in
  let r :=
    send_notification slack_up (seconds 100) "U123" "T123" "poll_ended"
      "Poll Ended" (MsgYourPollEnded "Lunch?" None 1 1) (Some 1) w in
  fst r = Ok tt
  /\ notifications (db (snd r))
     = [Notification.mk "U123" "T123" (Some 1) "poll_ended" "Poll Ended"
          (MsgYourPollEnded "Lunch?" None 1 1) (seconds 100)]
  /\ trace (snd r)
     = [Notify "U123" "Poll Ended" (MsgYourPollEnded "Lunch?" None 1 1)].
Proof.
  destruct (send_notification_obeys_settings slack_up (seconds 100) "U123"
              "T123" "poll_ended" "Poll Ended"
              (MsgYourPollEnded "Lunch?" None 1 1) (Some 1)
              (mkWorld voted_pizza []))
    as (R & _ & N & _).
  - simpl. tauto.
  - cbv zeta. split; [exact R|]. exact N.
Defined.

Lemma never_raises_bind {A B : Type} (m : M A) (k : A -> M B) :
  never_raises m -> (forall a, never_raises (k a)) -> never_raises (bind m k).
Proof.
  intros Hm Hk w. unfold bind. destruct (Hm w) as (a & Ha).
  destruct (m w) as [[a'|e] w']; simpl in Ha; [|discriminate].
  apply Hk.
Qed.

Lemma never_raises_try_except {A : Type} (m : M A) (h : string -> M A) :
  (forall e, never_raises (h e)) -> never_raises (try_except m h).
Proof.
  intros Hh w. unfold try_except.
  destruct (m w) as [[a|e] w'].
  - exists a. reflexivity.
  - apply Hh.
Qed.

Lemma never_raises_emit (c : Call) : never_raises (emit c).
Proof. intros w. exists tt. reflexivity. Qed.

Lemma never_raises_safe_say app message user_id :
  never_raises (safe_say app message user_id).
Proof.
  unfold safe_say. apply never_raises_try_except. intros _.
  apply never_raises_bind; [apply never_raises_emit|]. intros _.
  apply never_raises_try_except. intros _.
  apply never_raises_bind; [apply never_raises_emit|]. intros _.
  apply never_raises_emit.
Qed.

Lemma never_raises_reply app log text user_id :
  never_raises (reply app log text user_id).
Proof.
  unfold reply. apply never_raises_try_except. intros _.
  apply never_raises_bind; [apply never_raises_emit|]. intros _.
  apply never_raises_safe_say.
Qed.

(** X22. The two button handlers never let an exception escape: whatever
    the database holds and whichever Slack calls fail, [handle_vote] and
    [handle_end_poll] return normally. *)
Theorem handlers_never_raise :
  forall (app : App) (now : datetime) (poll_id option_id : Z)
         (user_id team_id : string),
    never_raises (handle_vote app now poll_id option_id user_id)
    /\ never_raises (handle_end_poll app now poll_id user_id team_id).
Proof.
  intros app now poll_id option_id user_id team_id. split.
  - unfold handle_vote. apply never_raises_try_except. intros _.
    apply never_raises_bind; [apply never_raises_emit|]. intros _.
    apply never_raises_reply.
  - unfold handle_end_poll. apply never_raises_try_except. intros _.
    apply never_raises_bind; [apply never_raises_emit|]. intros _.
    apply never_raises_reply.
Qed.

(** X23. [safe_say] never raises, never touches the database, and gets
    the message through whenever one of its two ways works: through
    [say] when that works, else as a direct message to the user when that
    works; only when both fail is the message dropped, with three log
    lines. *)
Theorem safe_say_delivers :
  forall (app : App) (message user_id : string) (w : World),
    let r := safe_say app message user_id w in
    fst r = Ok tt
    /\ db (snd r) = db w
    /\ trace (snd r)
       = (trace w
          ++ (if say_ok app then [Say message]
              else if post_message_ok app user_id
                   then [LogError "Failed to send message via say()";
                         PostMessage user_id message]
                   else [LogError "Failed to send message via say()";
                         LogError "Failed to send DM fallback";
                         LogError "Unable to deliver message to user"]))%list.
Proof.
  intros app message user_id w. cbv zeta.
  unfold safe_say, try_except, say, chat_postMessage, bind, logger_error,
    emit, raise.
  destruct (say_ok app); cbn [fst snd db trace].
  - auto.
  - destruct (post_message_ok app user_id); cbn [fst snd db trace];
      rewrite <- !app_assoc; auto.
Qed.

(** ** Where the fan-out pushes *)

Lemma shares_loop_targets app (s : Store) (poll : Poll.t)
    (shares : list PollShare.t) :
  (forall share, In share shares ->
                 In share (poll_shares s)
                 /\ PollShare.poll_id share = Poll.id poll
                 /\ PollShare.is_active share = true) ->
  forall w,
    exists t',
      trace
        (snd
           (for_each shares
              (fun share =>
                 match truthy (PollShare.message_ts share) with
                 | Some ts =>
                     try_except
                       (chat_update app (PollShare.channel_id share) ts
                          (mkBlocks (blocks_poll (build_poll_blocks s poll))
                             (blocks_options (build_poll_blocks s poll))
                             (Some (Poll.channel_id poll,
                                    PollShare.shared_by share))))
                       (fun _ =>
                          logger_error
                            ("Failed to update shared message in "
                             ++ PollShare.channel_id share))
                 | None => ret tt
                 end) w))
      = (trace w ++ t')%list
      /\ Forall (is_push_target s poll) t'.
Proof.
  induction shares as [|share shares IH]; intros Hsh w.
  - exists []. simpl. split; [now rewrite app_nil_r|constructor].
  - cbn [for_each]. unfold bind at 1.
    assert (Hstep :
              exists t1,
                Forall (is_push_target s poll) t1
                /\ match truthy (PollShare.message_ts share) with
                   | Some ts =>
                       try_except
                         (chat_update app (PollShare.channel_id share) ts
                            (mkBlocks (blocks_poll (build_poll_blocks s poll))
                               (blocks_options (build_poll_blocks s poll))
                               (Some (Poll.channel_id poll,
                                      PollShare.shared_by share))))
                         (fun _ =>
                            logger_error
                              ("Failed to update shared message in "
                               ++ PollShare.channel_id share))
                   | None => ret tt
                   end w
                   = (Ok tt, mkWorld (db w) (trace w ++ t1))).
    { destruct (Hsh share (or_introl eq_refl)) as (Hin & Hp & Ha).
      destruct (truthy (PollShare.message_ts share)) as [ts|] eqn:Hts.
      - unfold try_except, chat_update, emit, raise, logger_error.
        destruct (chat_update_ok app (PollShare.channel_id share) ts).
        + eexists. split; [|reflexivity]. constructor; [|constructor].
          simpl. repeat split. right. exists share. auto 10.
        + eexists. split; [|reflexivity]. constructor; [exact I|constructor].
      - exists []. split; [constructor|]. unfold ret. rewrite app_nil_r.
        destruct w. reflexivity. }
    destruct Hstep as (t1 & Ht1 & ->).
    destruct (IH (fun sh H => Hsh sh (or_intror H))
                (mkWorld (db w) (trace w ++ t1))) as (t2 & E & Ht2).
    exists (t1 ++ t2)%list. split.
    + rewrite E. cbn [trace]. now rewrite app_assoc.
    + apply Forall_app. auto.
Qed.

(** X24. [update_shared_poll_messages] pushes nowhere else than to the
    poll's own message and to the messages of the poll's active shares,
    and every push carries the poll row with its current options: what it
    adds to the trace are such updates and log lines only.  A share that
    was switched off, or a share of another poll, is never updated. *)
Theorem fan_out_targets :
  forall (app : App) (poll_id : Z) (w : World) (poll : Poll.t),
    query_poll (db w) poll_id = Some poll ->
    exists t',
      trace (snd (update_shared_poll_messages app poll_id w))
      = (trace w ++ t')%list
      /\ Forall (is_push_target (db w) poll) t'.
Proof.
  intros app poll_id w poll Hq.
  assert (Hid : Poll.id poll = poll_id).
  { unfold query_poll in Hq. apply find_some in Hq. destruct Hq as [_ Hq].
    now apply Z.eqb_eq. }
  unfold update_shared_poll_messages. unfold bind at 1, get_store at 1.
  rewrite Hq. unfold bind at 1.
  assert (Hprimary :
            exists t1,
              Forall (is_push_target (db w) poll) t1
              /\ exists r,
                   match truthy (Poll.message_ts poll) with
                   | Some ts =>
                       update_poll_message app poll_id (Poll.channel_id poll) ts
                   | None => ret tt
                   end w
                   = (r, mkWorld (db w) (trace w ++ t1))).
  { destruct (truthy (Poll.message_ts poll)) as [ts|] eqn:Hts.
    - unfold update_poll_message, bind, get_store. rewrite Hq.
      unfold chat_update, emit, raise.
      destruct (chat_update_ok app (Poll.channel_id poll) ts).
      + eexists. split; [|eexists; reflexivity].
        constructor; [|constructor]. simpl. repeat split; auto.
      + exists []. split; [constructor|]. eexists. rewrite app_nil_r.
        destruct w. reflexivity.
    - exists []. split; [constructor|]. eexists. unfold ret.
      rewrite app_nil_r. destruct w. reflexivity. }
  destruct Hprimary as (t1 & Ht1 & r & E). rewrite E.
  destruct r as [[]|e].
  - unfold bind at 1, get_store at 1. cbn [db].
    match goal with
    | |- context [for_each ?shares ?body ?w1] =>
        destruct (shares_loop_targets app (db w) poll shares) with (w := w1)
          as (t2 & E2 & Ht2)
    end.
    + intros share Hin. apply filter_In in Hin. destruct Hin as [Hin Hp].
      apply andb_prop in Hp. destruct Hp as [Hp Ha].
      apply Z.eqb_eq in Hp. repeat split; auto. congruence.
    + exists (t1 ++ t2)%list. split.
      * rewrite E2. cbn [trace]. now rewrite app_assoc.
      * apply Forall_app. auto.
  - exists t1. cbn [snd trace]. auto.
Qed.

Lemma fan_out_targets_witness :
  exists t',
    trace (snd (update_shared_poll_messages replica_down 1
                  (mkWorld voted_pizza [])))
    = (trace (mkWorld voted_pizza []) ++ t')%list
    /\ Forall (is_push_target (db (mkWorld voted_pizza []))
                 lunch_poll) t'.
Proof.
  apply (fan_out_targets replica_down 1 (mkWorld voted_pizza []) lunch_poll).
  reflexivity.
Defined.

(** ** Who can end a poll with the button *)

Lemma check_permission_end_any s user_id team_id :
  check_permission s user_id team_id "end_any_poll" = true
  <-> get_user_role s user_id team_id = "admin".
Proof.
  unfold check_permission, permissions.
  destruct (String.eqb_spec (get_user_role s user_id team_id) "admin")
    as [E|E].
  - split; [auto|reflexivity].
  - destruct (String.eqb (get_user_role s user_id team_id) "user");
      [split; [discriminate|contradiction]|].
    destruct (String.eqb (get_user_role s user_id team_id) "viewer");
      split; try discriminate; contradiction.
Qed.

Lemma check_permission_end_own s user_id team_id :
  check_permission s user_id team_id "end_own_poll" = true
  <-> get_user_role s user_id team_id = "user".
Proof.
  unfold check_permission, permissions.
  destruct (String.eqb_spec (get_user_role s user_id team_id) "admin")
    as [E|E].
  - rewrite E. split; discriminate.
  - destruct (String.eqb_spec (get_user_role s user_id team_id) "user")
      as [E'|E'].
    + split; [auto|reflexivity].
    + destruct (String.eqb (get_user_role s user_id team_id) "viewer");
        split; try discriminate; contradiction.
Qed.

Lemma can_end_poll_iff s user_id team_id poll_id poll :
  query_poll s poll_id = Some poll ->
  fst (can_end_poll s user_id team_id poll_id) = true
  <-> get_user_role s user_id team_id = "admin"
      \/ (get_user_role s user_id team_id = "user"
          /\ Poll.creator_id poll = user_id).
Proof.
  intros Hq. unfold can_end_poll. rewrite Hq.
  pose proof (check_permission_end_any s user_id team_id) as Hany.
  pose proof (check_permission_end_own s user_id team_id) as Hown.
  destruct (check_permission s user_id team_id "end_any_poll").
  - split; [left; now apply Hany|reflexivity].
  - destruct (check_permission s user_id team_id "end_own_poll").
    + destruct (String.eqb_spec (Poll.creator_id poll) user_id) as [E|E];
        simpl.
      * split; [right; split; [now apply Hown|exact E]|reflexivity].
      * split; [discriminate|].
        intros [H|[_ H]]; [apply Hany in H; discriminate|contradiction].
    + simpl. split; [discriminate|].
      intros [H|[H _]]; [apply Hany in H|apply Hown in H]; discriminate.
Qed.

Lemma reply_quiet app log text user_id w :
  let r := reply app log text user_id w in
  fst r = Ok tt
  /\ db (snd r) = db w
  /\ updated_channels (trace (snd r)) = updated_channels (trace w)
  /\ notified (trace (snd r)) = notified (trace w).
Proof.
  cbv zeta.
  unfold reply, safe_say, try_except, say, chat_postMessage, bind,
    logger_error, emit, raise.
  destruct (say_ok app); cbn [fst snd db trace].
  - unfold updated_channels, notified. rewrite !flat_map_app. simpl.
    rewrite !app_nil_r. auto.
  - destruct (post_message_ok app user_id); cbn [fst snd db trace];
      unfold updated_channels, notified; rewrite !flat_map_app; simpl;
      rewrite !app_nil_r; auto.
Qed.

Lemma handle_end_poll_refused app now s user_id team_id poll_id poll :
  query_poll s poll_id = Some poll ->
  Poll.creator_id poll <> user_id
  \/ (get_user_role s user_id team_id <> "admin"
      /\ get_user_role s user_id team_id <> "user") ->
  exists w1,
    run (handle_end_poll app now poll_id user_id team_id) s = (Ok tt, w1)
    /\ db w1 = s
    /\ updated_channels (trace w1) = []
    /\ notified (trace w1) = [].
Proof.
  intros Hq Hwho.
  pose proof (can_end_poll_iff s user_id team_id poll_id poll Hq) as Hiff.
  unfold run, handle_end_poll, try_except.
  unfold bind at 1, get_store at 1. cbn [db].
  destruct (can_end_poll s user_id team_id poll_id) as [can_end reason] eqn:Hc.
  cbn [fst] in Hiff.
  destruct can_end; cbn [negb].
  - assert (Hne : Poll.creator_id poll <> user_id).
    { destruct Hwho as [H|[H1 H2]]; [exact H|].
      destruct (proj1 Hiff eq_refl) as [H|[H _]]; contradiction. }
    unfold bind at 1, commit. cbn [db trace].
    assert (He : end_poll now poll_id user_id s = (false, s)).
    { unfold end_poll. rewrite Hq.
      apply String.eqb_neq in Hne. now rewrite Hne. }
    rewrite He.
    match goal with
    | |- context [reply ?a ?l ?t ?u ?w0] =>
        destruct (reply_quiet a l t u w0) as (R & D & C & N);
        destruct (reply a l t u w0) as [[[]|e] w1]; try discriminate R
    end.
    exists w1. cbn [snd fst] in *. auto.
  - match goal with
    | |- context [reply ?a ?l ?t ?u ?w0] =>
        destruct (reply_quiet a l t u w0) as (R & D & C & N);
        destruct (reply a l t u w0) as [[[]|e] w1]; try discriminate R
    end.
    exists w1. cbn [snd fst] in *. auto.
Qed.

(** X25. Who can end a poll with the button.  [can_end_poll] lets through
    exactly the admins of the team and, among users with the plain user
    role, the creator of the poll.  Of those, [end_poll] then accepts
    only the creator.  So when the caller is not the creator, or has
    neither the admin nor the user role (a viewer, for one), the handler
    changes nothing in the database, pushes no view and sends no
    notification. *)
Theorem end_button_gate :
  forall (s : Store) (user_id team_id : string) (poll_id : Z) (poll : Poll.t),
    query_poll s poll_id = Some poll ->
    (fst (can_end_poll s user_id team_id poll_id) = true
     <-> get_user_role s user_id team_id = "admin"
         \/ (get_user_role s user_id team_id = "user"
             /\ Poll.creator_id poll = user_id))
    /\ (forall (app : App) (now : datetime),
           Poll.creator_id poll <> user_id
           \/ (get_user_role s user_id team_id <> "admin"
               /\ get_user_role s user_id team_id <> "user") ->
           let w :=
             snd (run (handle_end_poll app now poll_id user_id team_id) s) in
           db w = s
           /\ updated_channels (trace w) = []
           /\ notified (trace w) = []).
Proof.
  intros s user_id team_id poll_id poll Hq.
  split; [now apply can_end_poll_iff|].
  intros app now Hwho w.
  destruct (handle_end_poll_refused app now s user_id team_id poll_id poll
              Hq Hwho) as (w1 & E & H).
  subst w. rewrite E. exact H.
Qed.

Lemma end_button_gate_witness :
  (fst (can_end_poll sample_store "U900" "T123" 1) = true
   <-> get_user_role sample_store "U900" "T123" = "admin"
       \/ (get_user_role sample_store "U900" "T123" = "user"
           /\ Poll.creator_id lunch_poll = "U900"))
  /\ (forall (app : App) (now : datetime),
         Poll.creator_id lunch_poll <> "U900"
         \/ (get_user_role sample_store "U900" "T123" <> "admin"
             /\ get_user_role sample_store "U900" "T123" <> "user") ->
         let w :=
           snd (run (handle_end_poll app now 1 "U900" "T123") sample_store) in
         db w = sample_store
         /\ updated_channels (trace w) = []
         /\ notified (trace w) = []).
Proof.
  apply (end_button_gate sample_store "U900" "T123" 1 lunch_poll).
  reflexivity.
Defined.

(** ** Participation rows *)

(** X26. [process_vote] keeps the participation rows unique: if no voter
    has more than one [voted_users] row in any poll, the same holds after
    any vote, accepted or not, on a single-choice or a multiple-choice
    poll. *)
Theorem participation_rows_stay_unique :
  forall (s : Store) (now : datetime) (poll_id option_id : Z)
         (user_id : string),
    (forall p u, (count_voted_user s p u <= 1)%nat) ->
    forall p u,
      (count_voted_user
         (snd (process_vote now poll_id option_id user_id s)) p u <= 1)%nat.
Proof.
  intros s now poll_id option_id user_id Hu p u.
  destruct (query_poll s poll_id) as [poll|] eqn:Hq.
  2:{ unfold process_vote. rewrite Hq. apply Hu. }
  destruct (String.eqb (Poll.status poll) "active") eqn:Hs.
  2:{ unfold process_vote. rewrite Hq, Hs. apply Hu. }
  apply String.eqb_eq in Hs.
  destruct (is_some (find (is_voted_user poll_id user_id) (voted_users s))
            && String.eqb (Poll.vote_type poll) "single") eqn:Hgate.
  { unfold process_vote. rewrite Hq, Hs. cbv zeta.
    change (String.eqb "active" "active") with true. cbn [negb].
    rewrite Hgate. apply Hu. }
  destruct (process_vote_accepts now poll_id option_id user_id s poll
              Hq Hs Hgate) as (_ & _ & _ & _ & V).
  unfold count_voted_user in *. rewrite V.
  destruct (find (is_voted_user poll_id user_id) (voted_users s)) as [v|]
    eqn:Hf; cbn [is_some].
  - apply Hu.
  - rewrite filter_app, length_app. simpl.
    destruct (is_voted_user p u (VotedUser.mk poll_id user_id now)) eqn:E.
    + unfold is_voted_user in E. simpl in E. apply andb_prop in E.
      destruct E as [E1 E2]. apply Z.eqb_eq in E1. apply String.eqb_eq in E2.
      subst p u. rewrite (find_none_count _ _ Hf). simpl. lia.
    + simpl. specialize (Hu p u). lia.
Qed.

Lemma participation_rows_stay_unique_witness :
  (count_voted_user
     (snd (process_vote (seconds 40) 2 21 "U456" sample_store)) 2 "U456"
   <= 1)%nat.
Proof.
  apply (participation_rows_stay_unique sample_store (seconds 40) 2 21 "U456").
  intros p u. unfold count_voted_user. simpl. lia.
Defined.

(** ** Close races *)

Lemma insert_desc_length (x : PollOption.t) (l : list PollOption.t) :
  List.length (insert_desc x l) = S (List.length l).
Proof.
  induction l as [|y l IH]; simpl.
  - reflexivity.
  - destruct (_ <=? _); simpl; [reflexivity|now rewrite IH].
Qed.

Lemma sorted_desc_length (l : list PollOption.t) :
  List.length (sorted_desc l) = List.length l.
Proof.
  induction l as [|x l IH]; simpl.
  - reflexivity.
  - now rewrite insert_desc_length, IH.
Qed.

Lemma insert_desc_in (x y : PollOption.t) (l : list PollOption.t) :
  In y (insert_desc x l) -> y = x \/ In y l.
Proof.
  induction l as [|z l IH]; simpl.
  - intros [H|[]]. now left.
  - destruct (_ <=? _); simpl.
    + intros [H|[H|H]]; auto.
    + intros [H|H]; auto. destruct (IH H); auto.
Qed.

Lemma sorted_desc_in (y : PollOption.t) (l : list PollOption.t) :
  In y (sorted_desc l) -> In y l.
Proof.
  induction l as [|x l IH]; simpl.
  - auto.
  - intros H. apply insert_desc_in in H. destruct H as [H|H]; auto.
Qed.

(** X27. [notify_close_race] stays silent on a poll without a race: when
    the poll has fewer than two options, or when none of its options has
    a vote, it stores nothing, sends nothing and leaves the trace and the
    database as they are. *)
Theorem no_close_race_without_votes :
  forall (app : App) (now : datetime) (poll_id : Z) (w : World),
    (List.length (options_of (db w) poll_id) < 2)%nat
    \/ (forall o, In o (options_of (db w) poll_id) ->
                  PollOption.vote_count o <= 0) ->
    notify_close_race app now poll_id w = (Ok tt, w).
Proof.
  intros app now poll_id w H.
  unfold notify_close_race, bind, get_store.
  destruct (query_poll (db w) poll_id) as [poll|]; [|reflexivity].
  pose proof (sorted_desc_length (options_of (db w) poll_id)) as Hlen.
  destruct (sorted_desc (options_of (db w) poll_id)) as [|top0 [|top1 rest]]
    eqn:Hs; try reflexivity.
  destruct H as [H|H].
  - simpl in Hlen. lia.
  - assert (Hin : In top0 (options_of (db w) poll_id)).
    { apply sorted_desc_in. rewrite Hs. now left. }
    specialize (H top0 Hin).
    replace (0 <? PollOption.vote_count top0) with false
      by (symmetry; apply Z.ltb_ge; lia).
    rewrite andb_false_r. reflexivity.
Qed.

Lemma no_close_race_without_votes_witness :
  notify_close_race slack_up (seconds 70) 1 (mkWorld sample_store [])
  = (Ok tt, mkWorld sample_store []).
Proof.
  apply (no_close_race_without_votes slack_up (seconds 70) 1
           (mkWorld sample_store [])).
  right. intros o Ho. vm_compute in Ho.
  destruct Ho as [<-|[<-|[]]]; vm_compute; discriminate.
Defined.

(** ** The answer to a vote on a closed poll *)

(** X29. A vote on a poll that does not exist or is not active is
    answered like a repeated vote: nothing is recorded, no view is pushed
    and, when [say] works, the one thing the voter sees is the text that
    they have already voted in this poll. *)
Theorem vote_on_closed_poll_says_already_voted :
  forall (app : App) (now : datetime) (poll_id option_id : Z)
         (user_id : string) (s : Store),
    say_ok app = true ->
    query_poll s poll_id = None
    \/ (exists poll,
           query_poll s poll_id = Some poll /\ Poll.status poll <> "active") ->
    run (handle_vote app now poll_id option_id user_id) s
    = (Ok tt, mkWorld s [Say "You have already voted in this poll!"]).
Proof.
  intros app now poll_id option_id user_id s Hsay H.
  apply handle_vote_rejected; [exact Hsay|].
  unfold process_vote. destruct H as [H|(poll & Hq & Hs)].
  - now rewrite H.
  - rewrite Hq. apply String.eqb_neq in Hs. now rewrite Hs.
Qed.

Lemma vote_on_closed_poll_says_already_voted_witness :
  run (handle_vote slack_up (seconds 300) 1 11 "U789") ended_once
  = (Ok tt, mkWorld ended_once [Say "You have already voted in this poll!"]).
Proof.
  apply (vote_on_closed_poll_says_already_voted slack_up (seconds 300) 1 11
           "U789" ended_once).
  - reflexivity.
  - right. exists (set_ended (seconds 100) lunch_poll).
    split; [reflexivity|]. simpl. discriminate.
Defined.
